(** * azure-vm-reports: a shallow embedding of [ansible_callbacks.py] and
    [azure_vm_reports.py], and the properties of the report pipeline.

    Conventions of the embedding.
    - A Python [str] is a Rocq [string]; its characters are the code points
      below 256.  On that range [\d] is [0-9], [\s] is the set computed by
      [Str.is_space], and [str.lower] is [Str.lower].
    - A Python [dict] is an insertion-ordered association list ([ODict.t]):
      assigning to a key that is present replaces the value in place,
      assigning to a new key appends.
    - Code that can raise returns a [result]; code that prints, writes a
      file or mutates the registry before it raises is written in the
      state-and-error monad [M] over the [world].
    - The [re] module is modelled by a backtracking matcher for the four
      patterns of [ansible_callbacks.py], and by the interface [ReModule] for
      the patterns a caller hands to [Host.has_fields].
    - The double-precision arithmetic of [ram_amount] is that of
      [SpecFloat] at precision 53.

    What lies outside the program is an input of the model: the records
    [csv.reader] yields for the hosts file, the mapping [yaml.safe_load]
    returns for the playbook, whether a file can be opened, and the events
    the execution engine delivers to the collector.  The interpreter is
    Python 3.8 or later: in a dictionary comprehension the key is evaluated
    before the value. *)

From Stdlib Require Import ZArith List String Ascii Bool Lia.
From Stdlib Require Import DecimalString SpecFloat.
Import ListNotations.

Set Implicit Arguments.
Local Open Scope string_scope.

(* ================================================================== *)
(** * Part I. The model                                                *)
(* ================================================================== *)

(** ** Exceptions and results *)

Inductive exn : Type :=
| AttributeError (attr : string)
| KeyError (key : string)
| TypeError
| OverflowError
| ValueError
| IndexError
| IOError
| ReError
| SystemExit (code : Z).

Inductive result (A : Type) : Type :=
| Ok (a : A)
| Raise (e : exn).

Arguments Ok {A} a.
Arguments Raise {A} e.

Definition rbind {A B : Type} (r : result A) (f : A -> result B) : result B :=
  match r with
  | Ok a => f a
  | Raise e => Raise e
  end.

Declare Scope result_scope.
Delimit Scope result_scope with res.
Notation "x <- r ;; k" := (rbind r (fun x => k))
  (at level 61, r at next level, right associativity) : result_scope.

(** ** Strings *)

Module Str.

Definition code (c : ascii) : nat := nat_of_ascii c.

Definition between (lo hi n : nat) : bool := (lo <=? n)%nat && (n <=? hi)%nat.

(** [\d] on code points below 256. *)
Definition is_digit (c : ascii) : bool := between 48 57 (code c).

(** [\s] on code points below 256: TAB..CR, FS..US, space, NEL, NBSP. *)
Definition is_space (c : ascii) : bool :=
  let n := code c in
  between 9 13 n || between 28 32 n || (n =? 133)%nat || (n =? 160)%nat.

(** [str.lower], one character: A-Z and the Latin-1 capitals move up by 32. *)
Definition lower_char (c : ascii) : ascii :=
  let n := code c in
  if between 65 90 n || between 192 214 n || between 216 222 n
  then ascii_of_nat (n + 32) else c.

Fixpoint lower (s : string) : string :=
  match s with
  | EmptyString => EmptyString
  | String c s' => String (lower_char c) (lower s')
  end.

(** [str.upper], one character.  U+00DF becomes "SS"; U+00B5 and U+00FF,
    whose capitals lie above 255, are left as they are. *)
Definition upper_char (c : ascii) : string :=
  let n := code c in
  if between 97 122 n || between 224 246 n || between 248 254 n
  then String (ascii_of_nat (n - 32)) EmptyString
  else if (n =? 223)%nat then "SS"
  else String c EmptyString.

Fixpoint upper (s : string) : string :=
  match s with
  | EmptyString => EmptyString
  | String c s' => upper_char c ++ upper s'
  end.

(** [s.replace(a, b)] for one-character [a] and [b]. *)
Fixpoint replace_char (a b : ascii) (s : string) : string :=
  match s with
  | EmptyString => EmptyString
  | String c s' => String (if Ascii.eqb c a then b else c) (replace_char a b s')
  end.

(** [str(n)] for an integer. *)
Definition of_Z (z : Z) : string := NilZero.string_of_int (Z.to_int z).

Definition digit_val (c : ascii) : Z := Z.of_nat (code c) - 48.

(** [int(s)] for a string of ASCII digits, most significant first (no
    limit on the number of digits is modelled). *)
Fixpoint int_acc (acc : Z) (s : string) : Z :=
  match s with
  | EmptyString => acc
  | String c s' => int_acc (10 * acc + digit_val c) s'
  end.

Definition to_int (s : string) : Z := int_acc 0 s.

(** All characters of [s] satisfy [p]. *)
Fixpoint all (p : ascii -> bool) (s : string) : bool :=
  match s with
  | EmptyString => true
  | String c s' => p c && all p s'
  end.

Fixpoint mem_char (c : ascii) (chars : string) : bool :=
  match chars with
  | EmptyString => false
  | String x chars' => Ascii.eqb c x || mem_char c chars'
  end.

Fixpoint lstrip (p : ascii -> bool) (s : string) : string :=
  match s with
  | String c s' => if p c then lstrip p s' else s
  | EmptyString => EmptyString
  end.

Fixpoint rstrip (p : ascii -> bool) (s : string) : string :=
  match s with
  | EmptyString => EmptyString
  | String c s' =>
      match rstrip p s' with
      | EmptyString => if p c then EmptyString else String c EmptyString
      | r => String c r
      end
  end.

(** [s.strip()] is [strip is_space s]; [s.strip(chars)] is
    [strip (fun c => mem_char c chars) s]. *)
Definition strip (p : ascii -> bool) (s : string) : string :=
  lstrip p (rstrip p s).

(** [s.split(sep)] for a separator that is not empty: [cur] is the piece
    being read, [skip] what is left to skip of a separator just found. *)
Fixpoint split_go (sep : string) (skip : nat) (cur : string) (s : string)
  : list string :=
  match s with
  | EmptyString => [cur]
  | String c s' =>
      match skip with
      | S n => split_go sep n cur s'
      | O =>
          if prefix sep s
          then cur :: split_go sep (String.length sep - 1) EmptyString s'
          else split_go sep 0 (cur ++ String c EmptyString) s'
      end
  end.

Definition split (sep : string) (s : string) : list string :=
  split_go sep 0 EmptyString s.

End Str.

(** ** Regular expressions: the fragment used by the callbacks *)

Module Re.

(** A set of characters: an escape class, a literal, or a bracket union. *)
Inductive cset : Type :=
| CDigit                      (* \d *)
| CSpace                      (* \s *)
| CLit (c : ascii)            (* a literal character *)
| COr (a b : cset).           (* [ab] *)

Fixpoint in_cset (cs : cset) (x : ascii) : bool :=
  match cs with
  | CDigit => Str.is_digit x
  | CSpace => Str.is_space x
  | CLit c => Ascii.eqb x c
  | COr a b => in_cset a x || in_cset b x
  end.

(** Patterns: quantifiers apply to one character set, as in every pattern
    of the program; [RGroup] is the capturing group. *)
Inductive regex : Type :=
| REps
| RAtom (c : cset)
| RStar (c : cset)
| RPlus (c : cset)
| RSeq (r1 r2 : regex)
| RGroup (r : regex).

Fixpoint lit (s : string) : regex :=
  match s with
  | EmptyString => REps
  | String c s' => RSeq (RAtom (CLit c)) (lit s')
  end.

(** The text consumed between [s] and its suffix [rest]. *)
Definition consumed (s rest : string) : string :=
  substring 0 (String.length s - String.length rest) s.

Section Matcher.
Context {A : Type}.

(** Greedy repetition: the longest run first, then shorter ones. *)
Fixpoint greedy (cs : cset) (s : string) (k : string -> option A) : option A :=
  match s with
  | String x s' =>
      if in_cset cs x then
        match greedy cs s' k with
        | Some a => Some a
        | None => k s
        end
      else k s
  | EmptyString => k s
  end.

(** Backtracking match of [r] at the start of [s]; [cap] is the text of
    group 1 so far and [k] the continuation on the rest. *)
Fixpoint rmatch (r : regex) (s : string) (cap : option string)
         (k : option string -> string -> option A) : option A :=
  match r with
  | REps => k cap s
  | RAtom cs =>
      match s with
      | String x s' => if in_cset cs x then k cap s' else None
      | EmptyString => None
      end
  | RStar cs => greedy cs s (k cap)
  | RPlus cs =>
      match s with
      | String x s' => if in_cset cs x then greedy cs s' (k cap) else None
      | EmptyString => None
      end
  | RSeq r1 r2 => rmatch r1 s cap (fun cap' s' => rmatch r2 s' cap' k)
  | RGroup r1 => rmatch r1 s cap (fun _ s' => k (Some (consumed s s')) s')
  end.
End Matcher.

(** A match object: the text of group 1, when the group took part. *)
Definition match_obj : Type := option string.

(** [re.match(r, s)]: anchored at the start of [s]. *)
Definition re_match (r : regex) (s : string) : option match_obj :=
  rmatch r s None (fun cap _ => Some cap).

(** [re.search(r, s)]: the first position of [s] at which [r] matches. *)
Fixpoint search (r : regex) (s : string) : option match_obj :=
  match re_match r s with
  | Some m => Some m
  | None =>
      match s with
      | String _ s' => search r s'
      | EmptyString => None
      end
  end.

(** [m.group(1)] *)
Definition group1 (m : match_obj) : string :=
  match m with
  | Some g => g
  | None => EmptyString
  end.

(** The language of a pattern, independently of the matcher. *)
Fixpoint lang (r : regex) (s : string) : Prop :=
  match r with
  | REps => s = EmptyString
  | RAtom cs => exists x, in_cset cs x = true /\ s = String x EmptyString
  | RStar cs => Str.all (in_cset cs) s = true
  | RPlus cs => s <> EmptyString /\ Str.all (in_cset cs) s = true
  | RSeq r1 r2 => exists s1 s2, s = s1 ++ s2 /\ lang r1 s1 /\ lang r2 s2
  | RGroup r1 => lang r1 s
  end.

(** [s] contains an occurrence of [r]. *)
Definition occurs (r : regex) (s : string) : Prop :=
  exists pre mid post, s = pre ++ mid ++ post /\ lang r mid.

(** An occurrence of [r] starts at the very beginning of [s]. *)
Definition starts (r : regex) (s : string) : Prop :=
  exists mid post, s = mid ++ post /\ lang r mid.

(** [re.compile] on a fragment of the pattern syntax: literal characters,
    [\d], [\s], an escaped punctuation character, and [+] or [*] after
    one of these.  [None] for every other pattern. *)
Definition special (c : ascii) : bool := Str.mem_char c ".^$*+?{}[]\|()".

Definition alnum (c : ascii) : bool :=
  let n := Str.code c in
  Str.between 48 57 n || Str.between 65 90 n || Str.between 97 122 n.

Definition escape (e : ascii) : option cset :=
  if Ascii.eqb e "d" then Some CDigit
  else if Ascii.eqb e "s" then Some CSpace
  else if alnum e then None
  else if Str.between 128 255 (Str.code e) then None
  else Some (CLit e).

Definition quantified (cs : cset) (rest : string)
           (after_atom after_quant : option regex) : option regex :=
  match rest with
  | String "+" _ => option_map (RSeq (RPlus cs)) after_quant
  | String "*" _ => option_map (RSeq (RStar cs)) after_quant
  | _ => option_map (RSeq (RAtom cs)) after_atom
  end.

Fixpoint compile (p : string) : option regex :=
  match p with
  | EmptyString => Some REps
  | String c p1 =>
      if Ascii.eqb c "\" then
        match p1 with
        | EmptyString => None
        | String e p2 =>
            match escape e with
            | Some cs =>
                quantified cs p2 (compile p2)
                  (match p2 with
                   | String _ p3 => compile p3
                   | EmptyString => None
                   end)
            | None => None
            end
        end
      else if special c then None
      else
        quantified (CLit c) p1 (compile p1)
          (match p1 with
           | String _ p2 => compile p2
           | EmptyString => None
           end)
  end.

End Re.

(** ** Floating point: the doubles of [int * 10 ** -6] and [round] *)

Module Float.

Definition prec : Z := 53.
Definition emax : Z := 1024.

(** [float(n)] as [int.__mul__] converts its integer operand: correctly
    rounded, [OverflowError] beyond the largest double. *)
Definition of_int (n : Z) : result spec_float :=
  match binary_normalize prec emax n 0 false with
  | S754_infinity _ => Raise OverflowError
  | f => Ok f
  end.

(** [10 ** -6], the double 0x1.0c6f7a0b5ed8dp-20. *)
Definition ten_pow_m6 : spec_float :=
  S754_finite false 4722366482869645 (-72).

Definition mul (x y : spec_float) : spec_float := SFmul prec emax x y.

(** The integer nearest to [m * 2^e], ties to the even one. *)
Definition round_half_even (m : Z) (e : Z) : Z :=
  if (0 <=? e)%Z then (m * 2 ^ e)%Z
  else
    let d := (2 ^ (- e))%Z in
    let q := (m / d)%Z in
    let r := (m mod d)%Z in
    match (2 * r ?= d)%Z with
    | Lt => q
    | Gt => (q + 1)%Z
    | Eq => if Z.even q then q else (q + 1)%Z
    end.

(** [round(x)] for a float: an integer, or the error of [float.__round__]. *)
Definition round (x : spec_float) : result Z :=
  match x with
  | S754_zero _ => Ok 0%Z
  | S754_finite s m e =>
      let n := round_half_even (Z.pos m) e in
      Ok (if s then (- n)%Z else n)
  | S754_infinity _ => Raise OverflowError
  | S754_nan => Raise ValueError
  end.

End Float.

(** ** ansible_callbacks.py *)

Module ansible_callbacks.
Import Re.
Local Open Scope result_scope.

(** r"(\d+)\s*kB" *)
Definition RAM_AMOUNT_RE : regex :=
  RSeq (RGroup (RPlus CDigit)) (RSeq (RStar CSpace) (lit "kB")).

(** r"CPU\(s\):\s*(\d+)" *)
Definition CPU_NUMBER_RE : regex :=
  RSeq (lit "CPU(s):") (RSeq (RStar CSpace) (RGroup (RPlus CDigit))).

(** r"MEM\s*([\d.]+)" *)
Definition PEAK_RAM_RE : regex :=
  RSeq (lit "MEM") (RSeq (RStar CSpace) (RGroup (RPlus (COr CDigit (CLit "."))))).

(** r"CPU\s*([\d.]+)" *)
Definition PEAK_CPU_RE : regex :=
  RSeq (lit "CPU") (RSeq (RStar CSpace) (RGroup (RPlus (COr CDigit (CLit "."))))).

(** f"{round(int(g) * 10 ** -6)} GB" *)
Definition kb_to_gb (g : string) : result string :=
  x <- Float.of_int (Str.to_int g) ;;
  n <- Float.round (Float.mul x Float.ten_pow_m6) ;;
  Ok (Str.of_Z n ++ " GB").

Definition ram_amount (stdout : string) : result (option string) :=
  match search RAM_AMOUNT_RE stdout with
  | Some m => s <- kb_to_gb (group1 m) ;; Ok (Some s)
  | None => Ok None
  end.

Definition cpu_number (stdout : string) : result (option string) :=
  match search CPU_NUMBER_RE stdout with
  | Some m => Ok (Some (group1 m ++ " CPU(s)"))
  | None => Ok None
  end.

Definition peak_ram_usage (stdout : string) : result (option string) :=
  match search PEAK_RAM_RE stdout with
  | Some m => Ok (Some (group1 m ++ "%"))
  | None => Ok None
  end.

Definition peak_cpu_usage (stdout : string) : result (option string) :=
  match search PEAK_CPU_RE stdout with
  | Some m => Ok (Some (group1 m ++ "%"))
  | None => Ok None
  end.

End ansible_callbacks.


(** ** Insertion-ordered dictionaries *)

Class EqDec (K : Type) : Type :=
  eq_dec : forall a b : K, {a = b} + {a <> b}.

#[export] Instance string_EqDec : EqDec string := string_dec.

#[export] Instance option_EqDec {K : Type} `{EqDec K} : EqDec (option K).
Proof.
  intros [a|] [b|].
  - destruct (eq_dec a b) as [e|n].
    + left. now rewrite e.
    + right. intro E. apply n. now injection E.
  - right. discriminate.
  - right. discriminate.
  - left. reflexivity.
Defined.

#[export] Instance prod_EqDec {A B : Type} `{EqDec A} `{EqDec B} : EqDec (A * B).
Proof.
  intros [a b] [a' b'].
  destruct (eq_dec a a') as [->|n].
  - destruct (eq_dec b b') as [->|n].
    + now left.
    + right. intro E. apply n. now injection E.
  - right. intro E. apply n. now injection E.
Defined.

Module ODict.
Section Ops.
Context {K V : Type} `{EqDec K}.

Definition t : Type := list (K * V).

(** [d.get(k)] *)
Fixpoint get (k : K) (d : t) : option V :=
  match d with
  | [] => None
  | (k', v) :: d' => if eq_dec k k' then Some v else get k d'
  end.

(** [d[k] = v]: in place when [k] is present, appended otherwise. *)
Fixpoint set (k : K) (v : V) (d : t) : t :=
  match d with
  | [] => [(k, v)]
  | (k', v') :: d' =>
      if eq_dec k k' then (k', v) :: d' else (k', v') :: set k v d'
  end.

(** Mutation of the object stored under [k]; nothing when [k] is absent. *)
Fixpoint update (k : K) (f : V -> V) (d : t) : t :=
  match d with
  | [] => []
  | (k', v) :: d' =>
      if eq_dec k k' then (k', f v) :: d' else (k', v) :: update k f d'
  end.

Definition keys (d : t) : list K := map fst d.
Definition values (d : t) : list V := map snd d.

Definition mem (k : K) (d : t) : bool :=
  match get k d with
  | Some _ => true
  | None => false
  end.
End Ops.
Arguments t K V : clear implicits.
End ODict.

(** ** Values, hosts and tasks *)

(** A [str] or [None]. *)
Abbreviation value := (option string) (only parsing).

(** [str(v)], also the rendering of [v] in an f-string. *)
Definition py_str (v : value) : string :=
  match v with
  | Some s => s
  | None => "None"
  end.

Definition py_str_Z (v : option Z) : string :=
  match v with
  | Some z => Str.of_Z z
  | None => "None"
  end.

(** A node of the playbook: a string, or any other YAML node kept by the
    text [str] gives for it. *)
Inductive yaml : Type :=
| YStr (s : string)
| YOther (text : string).

Definition yaml_str (y : yaml) : string :=
  match y with
  | YStr s => s
  | YOther t => t
  end.

(** A task of the playbook: the mapping [yaml.safe_load] returns for it. *)
Definition task_def : Type := ODict.t string yaml.

(** [Task( **task, callback_result=..., exit_status=..., task_failed=...)] *)
Record Task : Type := mkTask {
  task_kwargs : task_def;
  callback_result : option string;
  exit_status : option string;
  task_failed : option bool
}.

(** [Host( **row, tasks={})]: the attributes set from the CSV columns, and
    the [tasks] dictionary. *)
Record Host : Type := mkHost {
  host_attrs : ODict.t string value;
  tasks : ODict.t string Task
}.

(** The dictionary of hosts, keyed by [row["name"]]. *)
Definition registry : Type := ODict.t value Host.

(** What [getattr(host, a)] evaluates to. *)
Inductive attr : Type :=
| AValue (v : value)
| ATasks (t : ODict.t string Task).

(** [getattr(host, a)].  Instance attributes only: [a] is assumed not to be a
    name the class itself provides ([has_fields], [__module__], ...). *)
Definition getattr (h : Host) (a : string) : result attr :=
  if String.eqb a "tasks" then Ok (ATasks (tasks h))
  else match ODict.get a (host_attrs h) with
       | Some v => Ok (AValue v)
       | None => Raise (AttributeError a)
       end.

(** [x.lower()] for the value of an attribute: defined on [str] only. *)
Definition attr_lower (a : attr) : result string :=
  match a with
  | AValue (Some s) => Ok (Str.lower s)
  | AValue None => Raise (AttributeError "lower")
  | ATasks _ => Raise (AttributeError "lower")
  end.

(** The [re] module as [Host.has_fields] uses it: [re_match p s] is
    [Ok true] when [re.match(p, s)] returns a match object, [Ok false] when
    it returns [None], and [Raise] when the pattern does not compile. *)
Class ReModule : Type :=
  re_match : string -> string -> result bool.

Section HostMethods.
Context `{ReModule}.
Local Open Scope result_scope.

(** [Host.has_fields]: the loop over [fields.items()]. *)
Fixpoint has_fields (self : Host) (fields : list (string * string)) : result bool :=
  match fields with
  | [] => Ok true
  | (k, v) :: rest =>
      let p := Str.lower v in
      a <- getattr self (Str.lower k) ;;
      s <- attr_lower a ;;
      m <- re_match p s ;;
      if m then has_fields self rest else Ok false
  end.
End HostMethods.

(** ** The process: what the program reads, keeps and writes *)

(** A file the program writes: [None] while it does not exist, [Some l] once
    it has been opened for writing, [l] being what was written, in order. *)
Definition file (A : Type) : Type := option (list A).

(** One entry of the inventory. *)
Record inv_entry : Type := mkEntry {
  ansible_host : value;
  ansible_port : Z;
  ansible_user : string;
  ansible_ssh_private_key_file : string
}.

(** The mapping under ["all"]["hosts"] of a dumped inventory. *)
Definition inventory_doc : Type := ODict.t value inv_entry.

(** A row handed to [writer.writerow]. *)
Definition row : Type := list value.

Record world : Type := mkWorld {
  hosts : registry;                    (* ResultsCollector.hosts *)
  stderr : list string;                (* lines printed to sys.stderr *)
  parsed : list (string * string);     (* parser calls made: name, argument *)
  inventory_yml : file inventory_doc;  (* ANSIBLE_INVENTORY *)
  report_csv : file row                (* args.report_file *)
}.

Definition world0 : world := mkWorld [] [] [] None None.

Definition with_hosts (f : registry -> registry) (w : world) : world :=
  mkWorld (f (hosts w)) (stderr w) (parsed w) (inventory_yml w) (report_csv w).
Definition with_stderr (f : list string -> list string) (w : world) : world :=
  mkWorld (hosts w) (f (stderr w)) (parsed w) (inventory_yml w) (report_csv w).
Definition with_parsed (f : list (string * string) -> list (string * string))
           (w : world) : world :=
  mkWorld (hosts w) (stderr w) (f (parsed w)) (inventory_yml w) (report_csv w).
Definition with_inventory (f : file inventory_doc -> file inventory_doc)
           (w : world) : world :=
  mkWorld (hosts w) (stderr w) (parsed w) (f (inventory_yml w)) (report_csv w).
Definition with_report (f : file row -> file row) (w : world) : world :=
  mkWorld (hosts w) (stderr w) (parsed w) (inventory_yml w) (f (report_csv w)).

(** State and exceptions: a statement maps the world to the world it leaves
    behind and either a value or the exception it raised. *)
Definition M (A : Type) : Type := world -> world * result A.

Definition ret {A : Type} (a : A) : M A := fun w => (w, Ok a).

Definition bind {A B : Type} (c : M A) (f : A -> M B) : M B :=
  fun w =>
    match c w with
    | (w', Ok a) => f a w'
    | (w', Raise e) => (w', Raise e)
    end.

Definition raise {A : Type} (e : exn) : M A := fun w => (w, Raise e).

Definition lift {A : Type} (r : result A) : M A := fun w => (w, r).

Definition modify (f : world -> world) : M unit := fun w => (f w, Ok tt).

Definition gets {A : Type} (f : world -> A) : M A := fun w => (w, Ok (f w)).

Declare Scope M_scope.
Delimit Scope M_scope with M.
Notation "x <- c ;; k" := (bind c (fun x => k))
  (at level 61, c at next level, right associativity) : M_scope.
Notation "c ;; k" := (bind c (fun _ => k))
  (at level 61, right associativity) : M_scope.

(** [try: c  except IOError: h] *)
Definition try_except_IOError {A : Type} (c : M A) (h : M A) : M A :=
  fun w =>
    match c w with
    | (w', Raise IOError) => h w'
    | r => r
    end.

(** [print(msg, file=sys.stderr)] *)
Definition print_err (msg : string) : M unit :=
  modify (with_stderr (fun l => (l ++ [msg])%list)).

(** [sys.exit(code)] *)
Definition sys_exit {A : Type} (code : Z) : M A := raise (SystemExit code).

(** [for x in l: body x] *)
Fixpoint for_each {A : Type} (l : list A) (body : A -> M unit) : M unit :=
  match l with
  | [] => ret tt
  | x :: l' => bind (body x) (fun _ => for_each l' body)
  end.

(** [[f x for x in l]] where [f] can raise. *)
Fixpoint map_result {A B : Type} (f : A -> result B) (l : list A) : result (list B) :=
  match l with
  | [] => Ok []
  | x :: l' =>
      rbind (f x) (fun y => rbind (map_result f l') (fun ys => Ok (y :: ys)))
  end.

(** A loop that threads an accumulator and stops at the first exception. *)
Fixpoint fold_result {A S : Type} (f : S -> A -> result S) (l : list A) (s : S)
  : result S :=
  match l with
  | [] => Ok s
  | x :: l' => rbind (f s x) (fun s' => fold_result f l' s')
  end.

(** [host.<a>] for an attribute [a] other than [tasks]. *)
Definition field (h : Host) (a : string) : result value :=
  match ODict.get a (host_attrs h) with
  | Some v => Ok v
  | None => Raise (AttributeError a)
  end.

(** ** class ResultsCollector *)

(** The three callbacks of the execution engine. *)
Inductive event_kind : Type := RunnerOk | RunnerFailed | RunnerUnreachable.

(** What the collector reads of the engine's [result]: [str(result._host)],
    [str(result._task.name)] (the name the playbook declares),
    [result._result.get("stdout")] and [result._result.get("rc")]. *)
Record event : Type := mkEvent {
  ev_kind : event_kind;
  ev_host : string;
  ev_task : string;
  ev_stdout : value;
  ev_rc : option Z
}.

Module ResultsCollector.
Local Open Scope M_scope.

(** [self.hosts[str(result._host)]] *)
Definition get_host (result : event) : M Host :=
  hs <- gets hosts ;;
  match ODict.get (Some (ev_host result)) hs with
  | Some h => ret h
  | None => raise (KeyError (ev_host result))
  end.

(** [self.hosts[str(result._host)].tasks[str(result._task.name)]] *)
Definition get_task (result : event) : M Task :=
  h <- get_host result ;;
  match ODict.get (ev_task result) (tasks h) with
  | Some t => ret t
  | None => raise (KeyError (ev_task result))
  end.

(** An assignment to a field of the task object [get_task] returned: the
    object lives in the registry, under the keys of the event. *)
Definition assign (result : event) (f : Task -> Task) : M unit :=
  modify (with_hosts
    (ODict.update (Some (ev_host result))
       (fun h => mkHost (host_attrs h) (ODict.update (ev_task result) f (tasks h))))).

Definition set_callback_result (v : option string) (t : Task) : Task :=
  mkTask (task_kwargs t) v (exit_status t) (task_failed t).
Definition set_exit_status (v : option string) (t : Task) : Task :=
  mkTask (task_kwargs t) (callback_result t) v (task_failed t).
Definition set_task_failed (v : option bool) (t : Task) : Task :=
  mkTask (task_kwargs t) (callback_result t) (exit_status t) v.

(** [task.name], an attribute set from the playbook's mapping. *)
Definition task_name (t : Task) : result yaml :=
  match ODict.get "name" (task_kwargs t) with
  | Some y => Ok y
  | None => Raise (AttributeError "name")
  end.

(** A parser of [ansible_callbacks]. *)
Definition parser : Type := string -> result (option string).

(** [getattr(ansible_callbacks, name)]: the four functions; [re], the
    module imported there, which is not callable; nothing else (the
    attributes every module has, such as [__name__], are not modelled). *)
Definition module_getattr (name : yaml) : result parser :=
  match name with
  | YOther _ => Raise TypeError
  | YStr n =>
      if String.eqb n "ram_amount" then Ok ansible_callbacks.ram_amount
      else if String.eqb n "cpu_number" then Ok ansible_callbacks.cpu_number
      else if String.eqb n "peak_ram_usage" then Ok ansible_callbacks.peak_ram_usage
      else if String.eqb n "peak_cpu_usage" then Ok ansible_callbacks.peak_cpu_usage
      else if String.eqb n "re" then Ok (fun _ => Raise TypeError)
      else Raise (AttributeError n)
  end.

(** The call [stdout_callback(arg)], recorded in [parsed]. *)
Definition call_parser (name : yaml) (f : parser) (arg : string)
  : M (option string) :=
  modify (with_parsed (fun l => (l ++ [(yaml_str name, arg)])%list)) ;;
  lift (f arg).

Definition v2_runner_on_ok (result : event) : M unit :=
  task <- get_task result ;;
  name <- lift (task_name task) ;;
  stdout_callback <- lift (module_getattr name) ;;
  r <- call_parser name stdout_callback (py_str (ev_stdout result)) ;;
  assign result (set_callback_result r) ;;
  assign result (set_exit_status (Some (py_str_Z (ev_rc result)))) ;;
  assign result (set_task_failed (Some false)).

Definition v2_runner_on_failed (result : event) : M unit :=
  task <- get_task result ;;
  assign result (set_exit_status (Some (py_str_Z (ev_rc result)))) ;;
  assign result (set_task_failed (Some true)) ;;
  name <- lift (task_name task) ;;
  print_err ("Error: " ++ yaml_str name ++ " failed").

Definition v2_runner_on_unreachable (result : event) : M unit :=
  host <- get_host result ;;
  task <- get_task result ;;
  assign result (set_exit_status (Some (py_str_Z (ev_rc result)))) ;;
  assign result (set_task_failed (Some true)) ;;
  name <- lift (field host "name") ;;
  ip <- lift (field host "public_ip_address") ;;
  print_err ("Error: " ++ py_str name ++ " (" ++ py_str ip ++ ") unreachable").

(** The callback the engine invokes for an event. *)
Definition handle (result : event) : M unit :=
  match ev_kind result with
  | RunnerOk => v2_runner_on_ok result
  | RunnerFailed => v2_runner_on_failed result
  | RunnerUnreachable => v2_runner_on_unreachable result
  end.

End ResultsCollector.

(** ** class Azure *)

(** The hosts file as [load_from_csv] reads it: its first two lines (a
    file with fewer lines is not modelled), and the records [csv.reader]
    yields for the lines after them. *)
Record document : Type := mkDocument {
  line1 : string;
  line2 : string;
  records : list (list string)
}.

(** A row of [csv.DictReader]: the dictionary over the field names, and the
    list stored under the key [None] when the record was too long. *)
Record dict_row : Type := mkRow {
  row_fields : ODict.t string value;
  row_rest : option (list string)
}.

(** A play: its ["tasks"] entry, when it has one. *)
Record play : Type := mkPlay {
  play_tasks : option (list task_def)
}.

(** What [yaml.safe_load] returns for the playbook: a list of plays. *)
Definition playbook : Type := list play.

Module Azure.
Local Open Scope M_scope.

(** [csv.DictReader.__next__] on one record that is not empty. *)
Fixpoint dict_of (fieldnames : list string) (rec : list string)
         (d : ODict.t string value) : dict_row :=
  match fieldnames, rec with
  | f :: fs, x :: xs => dict_of fs xs (ODict.set f (Some x) d)
  | [], [] => mkRow d None
  | [], x :: xs => mkRow d (Some (x :: xs))
  | f :: fs, [] =>
      mkRow (fold_left (fun d' k => ODict.set k None d') (f :: fs) d) None
  end.

Definition is_nil {A : Type} (l : list A) : bool :=
  match l with
  | [] => true
  | _ => false
  end.

(** [csv.DictReader(document, fieldnames=..., delimiter=...)]: the rows
    it yields; empty records are skipped. *)
Definition DictReader (fieldnames : list string) (delimiter : string)
           (recs : list (list string)) : result (list dict_row) :=
  if (String.length delimiter =? 1)%nat
  then Ok (map (fun r => dict_of fieldnames r [])
               (filter (fun r => negb (is_nil r)) recs))
  else Raise TypeError.

(** [Host( **row, tasks={})].  A column named [self], which the call
    refuses as a keyword, is not modelled. *)
Definition new_host (r : dict_row) : result Host :=
  match row_rest r with
  | Some _ => Raise TypeError
  | None =>
      if ODict.mem "tasks" (row_fields r) then Raise TypeError
      else Ok (mkHost (row_fields r) [])
  end.

(** [row["name"]] *)
Definition row_name (r : dict_row) : result value :=
  match ODict.get "name" (row_fields r) with
  | Some v => Ok v
  | None => Raise (KeyError "name")
  end.

(** [{row["name"]: Host( **row, tasks={}) for row in rows}] *)
Definition hosts_of_rows (rows : list dict_row) : result registry :=
  fold_result
    (fun acc r =>
       rbind (row_name r) (fun k =>
       rbind (new_host r) (fun h => Ok (ODict.set k h acc))))
    rows [].

(** [next(document).strip().split("=")[1]] *)
Definition delimiter_of (l1 : string) : result string :=
  match Str.split "=" (Str.strip Str.is_space l1) with
  | _ :: d :: _ => Ok d
  | _ => Raise IndexError
  end.

(** [next(document).strip(delimiter + " \n").lower().replace(" ", "_")
    .split(delimiter)] *)
Definition fieldlist_of (delimiter : string) (l2 : string) : result (list string) :=
  let stripped :=
    Str.strip (fun c => Str.mem_char c (delimiter ++ " " ++ String "010" EmptyString)) l2 in
  let normal := Str.replace_char " " "_" (Str.lower stripped) in
  match delimiter with
  | EmptyString => Raise ValueError
  | _ => Ok (Str.split delimiter normal)
  end.

(** [open(filename, mode="r")] *)
Definition open_r {A : Type} (f : option A) : M A :=
  match f with
  | Some d => ret d
  | None => raise IOError
  end.

(** [Azure.load_from_csv]; the value returned is the new [self.hosts]. *)
Definition load_from_csv (filename : option document) : M registry :=
  try_except_IOError
    (doc <- open_r filename ;;
     delimiter <- lift (delimiter_of (line1 doc)) ;;
     fieldlist <- lift (fieldlist_of delimiter (line2 doc)) ;;
     rows <- lift (DictReader fieldlist delimiter (records doc)) ;;
     lift (hosts_of_rows rows))
    (print_err "Open Azure document failed" ;; sys_exit 1).

(** [Task( **task, callback_result=None, exit_status=None, task_failed=None)] *)
Definition new_task (task : task_def) : result Task :=
  if ODict.mem "callback_result" task || ODict.mem "exit_status" task
     || ODict.mem "task_failed" task
  then Raise TypeError
  else Ok (mkTask task None None None).

(** [task["name"].lower()] *)
Definition task_key (task : task_def) : result string :=
  match ODict.get "name" task with
  | Some (YStr s) => Ok (Str.lower s)
  | Some (YOther _) => Raise (AttributeError "lower")
  | None => Raise (KeyError "name")
  end.

(** [playbook[0]["tasks"]] *)
Definition tasks_of (pb : playbook) : result (list task_def) :=
  match pb with
  | [] => Raise IndexError
  | p :: _ =>
      match play_tasks p with
      | Some ts => Ok ts
      | None => Raise (KeyError "tasks")
      end
  end.

(** The inner loop of [load_playbook], on one host. *)
Definition attach_tasks (pb : playbook) (host : Host) : result Host :=
  rbind (tasks_of pb) (fun ts =>
  fold_result
    (fun h task =>
       rbind (new_task task) (fun t =>
       rbind (task_key task) (fun k =>
       Ok (mkHost (host_attrs h) (ODict.set k t (tasks h))))))
    ts host).

(** The loop over [self.hosts.values()]: each host is mutated where it
    stands in the dictionary. *)
Fixpoint attach_all (pb : playbook) (hs : registry) : result registry :=
  match hs with
  | [] => Ok []
  | (k, h) :: hs' =>
      rbind (attach_tasks pb h) (fun h' =>
      rbind (attach_all pb hs') (fun r => Ok ((k, h') :: r)))
  end.

(** [Azure.load_playbook]; the value returned is [self.hosts] afterwards. *)
Definition load_playbook (filename : option playbook) (self_hosts : registry)
  : M registry :=
  try_except_IOError
    (pb <- open_r filename ;;
     lift (attach_all pb self_hosts))
    (print_err "Open playbook failed" ;; sys_exit 1).

Section Filter.
Context `{ReModule}.

(** [Azure.filter_hosts] *)
Definition filter_hosts (self_hosts : registry)
           (fields : option (list (string * string))) : result registry :=
  match fields with
  | None => Ok self_hosts
  | Some fs =>
      fold_result
        (fun acc host =>
           rbind (has_fields host fs) (fun b =>
           if b
           then rbind (field host "name") (fun n => Ok (ODict.set n host acc))
           else Ok acc))
        (ODict.values self_hosts) []
  end.

(** The dictionary stored under [host.name] in [ansible_dict]. *)
Definition entry_of (host : Host) : result (value * inv_entry) :=
  rbind (field host "public_ip_address") (fun ip =>
  rbind (field host "name") (fun n =>
  Ok (n, mkEntry ip 22 "ubuntu"
            ("/var/lib/jenkins/.ts/admin/rsa/azure/" ++ py_str n ++ "/" ++ py_str n)))).

(** The loop that fills [ansible_dict]. *)
Definition ansible_dict_of (hs : registry) : result inventory_doc :=
  fold_result
    (fun acc host =>
       rbind (entry_of host) (fun e => Ok (ODict.set (fst e) (snd e) acc)))
    (ODict.values hs) [].

(** [open(filename, "w+")] of the inventory. *)
Definition open_inventory (writable : bool) : M unit :=
  if writable then modify (with_inventory (fun _ => Some []))
  else raise IOError.

(** [yaml.dump({"all": {"hosts": ansible_dict}}, inventory)]: the mapping
    written; the order in which the file lists its keys is not modelled. *)
Definition dump (d : inventory_doc) : M unit :=
  modify (with_inventory
            (fun f => match f with
                      | Some l => Some (l ++ [d])%list
                      | None => None
                      end)).

(** [Azure.generate_yaml] *)
Definition generate_yaml (writable : bool) (self_hosts : registry)
           (fields : option (list (string * string))) : M registry :=
  try_except_IOError
    (open_inventory writable ;;
     hs <- lift (filter_hosts self_hosts fields) ;;
     ansible_dict <- lift (ansible_dict_of hs) ;;
     dump ansible_dict ;;
     ret hs)
    (print_err "Open inventory failed" ;; sys_exit 1).
End Filter.

End Azure.

(** ** The main program *)

Module Main.
Local Open Scope M_scope.

(** The predicates [__main__] passes to [generate_yaml]. *)
Definition FIELDS : list (string * string) :=
  [ ("resource_group", "rg-production");
    ("status", "running");
    ("operating_system", "linux");
    ("public_ip_address", "\d+\.\d+\.\d+\.\d+") ].

Definition fieldlist : list string :=
  ["name"; "resource_group"; "public_ip_address"].

(** [k.upper().replace("_", " ")] *)
Definition header_cell (k : string) : string :=
  Str.replace_char "_" " " (Str.upper k).

(** [open(args.report_file, mode="w+")] *)
Definition open_report (writable : bool) : M unit :=
  if writable then modify (with_report (fun _ => Some []))
  else raise IOError.

(** [writer.writerow(r)] *)
Definition writerow (r : row) : M unit :=
  modify (with_report
            (fun f => match f with
                      | Some l => Some (l ++ [r])%list
                      | None => None
                      end)).

(** [host.tasks[cb].callback_result] *)
Definition callback_cell (host : Host) (cb : string) : result value :=
  match ODict.get cb (tasks host) with
  | Some t => Ok (callback_result t)
  | None => Raise (KeyError cb)
  end.

(** The loop [for host in hosts.values()]; [values] is the list the loop
    extends, created once before the loop. *)
Fixpoint write_rows (callbacks : list string) (hs : list Host) (values : row)
  : M unit :=
  match hs with
  | [] => ret tt
  | host :: hs' =>
      a <- lift (map_result (field host) fieldlist) ;;
      let values1 := (values ++ a)%list in
      b <- lift (map_result (callback_cell host) callbacks) ;;
      let values2 := (values1 ++ b)%list in
      writerow values2 ;;
      write_rows callbacks hs' values2
  end.

(** From [if hosts == {}] to the end of the program. *)
Definition write_report (writable : bool) : M unit :=
  hs <- gets hosts ;;
  match hs with
  | [] => sys_exit 0
  | (k0, _) :: _ =>
      open_report writable ;;
      first <- lift (match ODict.get k0 hs with
                     | Some h => Ok h
                     | None => Raise (KeyError (py_str k0))
                     end) ;;
      let callbacks := ODict.keys (tasks first) in
      writerow (map (fun k => Some (header_cell k)) (fieldlist ++ callbacks)%list) ;;
      write_rows callbacks (ODict.values hs) []
  end.

(** [executor.run()]: the engine calls the collector once per event, and
    catches what a callback raises (what the callback did before stays). *)
Definition absorb (c : M unit) : M unit :=
  fun w => (fst (c w), Ok tt).

Definition executor_run (events : list event) : M unit :=
  for_each events (fun ev => absorb (ResultsCollector.handle ev)).

Section Program.
Context `{ReModule}.

(** [__main__] up to [hosts = inventory.generate_yaml(...)]: the value
    returned is [hosts]. *)
Definition select (azure_hosts : option document) (pb : option playbook)
           (inventory_writable : bool) : M registry :=
  h0 <- Azure.load_from_csv azure_hosts ;;
  h1 <- Azure.load_playbook pb h0 ;;
  Azure.generate_yaml inventory_writable h1 (Some FIELDS).

(** [__main__]: the hosts file, the playbook, whether the inventory and
    the report can be opened for writing, and the events of the run. *)
Definition main (azure_hosts : option document) (pb : option playbook)
           (inventory_writable : bool) (events : list event)
           (report_writable : bool) : M unit :=
  selected <- select azure_hosts pb inventory_writable ;;
  modify (with_hosts (fun _ => selected)) ;;
  executor_run events ;;
  write_report report_writable.
End Program.

(** The exit status of the process for the way the program ended. *)
Definition exit_code (r : result unit) : Z :=
  match r with
  | Ok _ => 0
  | Raise (SystemExit c) => c
  | Raise _ => 1
  end.

End Main.

(** ** An instance of the [re] interface *)

(** [re.match] for the patterns [Re.compile] accepts, which include those of
    [Main.FIELDS]; this instance rejects every other pattern.  It serves to
    run the program on concrete hosts; the general theorems hold for every
    [ReModule]. *)
Definition fragment_re : ReModule :=
  fun p s =>
    match Re.compile p with
    | Some r =>
        Ok (match Re.re_match r s with
            | Some _ => true
            | None => false
            end)
    | None => Raise ReError
    end.

(** ** Matching as the specification words it *)

(** The specification describes the predicates of [filter_hosts] as
    matched by a case-insensitive regular-expression match anchored at the
    start of the value.  This module follows those words, not the code: it
    is [re.match(pattern, value, re.IGNORECASE)] on the pattern as written,
    for the syntax [Re.compile] accepts and the escapes [\D] and [\S]. *)
Module CaseInsensitive.

Inductive cset : Type :=
| Digit                       (* \d *)
| NonDigit                    (* \D *)
| Space                       (* \s *)
| NonSpace                    (* \S *)
| Letter (c : ascii).         (* a literal character, in either case *)

Definition in_cset (cs : cset) (x : ascii) : bool :=
  match cs with
  | Digit => Str.is_digit x
  | NonDigit => negb (Str.is_digit x)
  | Space => Str.is_space x
  | NonSpace => negb (Str.is_space x)
  | Letter c => Ascii.eqb (Str.lower_char x) (Str.lower_char c)
  end.

(** One character set, alone or under [+] or [*]. *)
Inductive item : Type :=
| One (cs : cset)
| Many (cs : cset)
| Any (cs : cset).

Definition pattern : Type := list item.

Definition escape (e : ascii) : option cset :=
  if Ascii.eqb e "d" then Some Digit
  else if Ascii.eqb e "D" then Some NonDigit
  else if Ascii.eqb e "s" then Some Space
  else if Ascii.eqb e "S" then Some NonSpace
  else if Re.alnum e then None
  else if Str.between 128 255 (Str.code e) then None
  else Some (Letter e).

Definition quantified (cs : cset) (rest : string)
           (after_atom after_quant : option pattern) : option pattern :=
  match rest with
  | String "+" _ => option_map (cons (Many cs)) after_quant
  | String "*" _ => option_map (cons (Any cs)) after_quant
  | _ => option_map (cons (One cs)) after_atom
  end.

Fixpoint compile (p : string) : option pattern :=
  match p with
  | EmptyString => Some []
  | String c p1 =>
      if Ascii.eqb c "\" then
        match p1 with
        | EmptyString => None
        | String e p2 =>
            match escape e with
            | Some cs =>
                quantified cs p2 (compile p2)
                  (match p2 with
                   | String _ p3 => compile p3
                   | EmptyString => None
                   end)
            | None => None
            end
        end
      else if Re.special c then None
      else
        quantified (Letter c) p1 (compile p1)
          (match p1 with
           | String _ p2 => compile p2
           | EmptyString => None
           end)
  end.

(** Some run of characters of [cs] at the start of [s] is followed by a
    text that [k] accepts. *)
Fixpoint run (cs : cset) (s : string) (k : string -> bool) : bool :=
  match s with
  | String x s' => if in_cset cs x then run cs s' k || k s else k s
  | EmptyString => k s
  end.

(** The pattern matches at the start of [s]. *)
Fixpoint matches (p : pattern) (s : string) : bool :=
  match p with
  | [] => true
  | One cs :: p' =>
      match s with
      | String x s' => in_cset cs x && matches p' s'
      | EmptyString => false
      end
  | Many cs :: p' =>
      match s with
      | String x s' => in_cset cs x && run cs s' (matches p')
      | EmptyString => false
      end
  | Any cs :: p' => run cs s (matches p')
  end.

(** Whether [re.match(p, s, re.IGNORECASE)] finds a match; [None] for a
    pattern outside the syntax above. *)
Definition re_match (p s : string) : option bool :=
  option_map (fun q => matches q s) (compile p).

End CaseInsensitive.

(** ** Notions used in the statements *)

(** The first character of [s], if any, is outside [cs]. *)
Definition stops (cs : Re.cset) (s : string) : Prop :=
  match s with
  | String x _ => Re.in_cset cs x = false
  | EmptyString => True
  end.

(** [re.match] fails at every position of [pre] in the text [pre ++ t]. *)
Fixpoint no_match_before (r : Re.regex) (pre t : string) : bool :=
  match pre with
  | EmptyString => true
  | String _ pre' =>
      match Re.re_match r (pre ++ t) with
      | Some _ => false
      | None => no_match_before r pre' t
      end
  end.

(** The host has no attribute [a]. *)
Definition lacks (h : Host) (a : string) : Prop :=
  getattr h a = Raise (AttributeError a).

Section PredicateNotions.
Context `{ReModule}.

(** The predicate [(k, v)] holds of the host: the attribute [k.lower()] is a
    string and [re.match(v.lower(), value.lower())] finds a match. *)
Definition satisfies (h : Host) (kv : string * string) : Prop :=
  exists s, getattr h (Str.lower (fst kv)) = Ok (AValue (Some s)) /\
            re_match (Str.lower (snd kv)) (Str.lower s) = Ok true.


(** [host.has_fields(fields)] returned [True]. *)
Definition selected (fields : list (string * string)) (kh : value * Host) : bool :=
  match has_fields (snd kh) fields with
  | Ok true => true
  | _ => false
  end.
(** The body of the loop of [filter_hosts]. *)
Definition filter_step (fs : list (string * string)) (acc : registry) (host : Host)
  : result registry :=
  rbind (has_fields host fs) (fun b =>
  if b then rbind (field host "name") (fun n => Ok (ODict.set n host acc))
  else Ok acc).

End PredicateNotions.



(** The registry after [assign result f]. *)
Definition assigned (result : event) (f : Task -> Task) (reg : registry) : registry :=
  ODict.update (Some (ev_host result))
    (fun h => mkHost (host_attrs h) (ODict.update (ev_task result) f (tasks h))) reg.

(** The step of the dictionary comprehension of [load_from_csv]. *)
Definition row_step (acc : registry) (r : dict_row) : result registry :=
  rbind (Azure.row_name r) (fun k =>
  rbind (Azure.new_host r) (fun h => Ok (ODict.set k h acc))).

(** The body of the loop that fills [ansible_dict]. *)
Definition entry_step (acc : inventory_doc) (host : Host) : result inventory_doc :=
  rbind (Azure.entry_of host) (fun e => Ok (ODict.set (fst e) (snd e) acc)).

(** Every host of the registry is stored under its own [name]. *)
Definition keyed_by_name (reg : registry) : Prop :=
  NoDup (ODict.keys reg) /\
  forall k h, In (k, h) reg -> field h "name" = Ok k.

(** The task result stored for task [tk] of the host under key [k]. *)
Definition task_at (reg : registry) (k : value) (tk : string) : option Task :=
  match ODict.get k reg with
  | Some h => ODict.get tk (tasks h)
  | None => None
  end.

(** What a failure or unreachable event writes into a task result. *)
Definition mark_failed (rc : option Z) (t : Task) : Task :=
  mkTask (task_kwargs t) (callback_result t) (Some (py_str_Z rc)) (Some true).

(** The cells the report loop adds for one host: the three attributes,
    then the [callback_result] of each task of [callbacks]. *)
Definition cells_of (callbacks : list string) (host : Host) : result row :=
  rbind (map_result (field host) Main.fieldlist) (fun a =>
  rbind (map_result (Main.callback_cell host) callbacks) (fun b =>
  Ok (a ++ b)%list)).

(** The rows written when the cells of each host are appended to one
    list [values] that is never emptied. *)
Fixpoint accumulate (values : row) (cells : list row) : list row :=
  match cells with
  | [] => []
  | c :: cells' => (values ++ c)%list :: accumulate (values ++ c)%list cells'
  end.

(** [r] is the last of [rows] that carries the name [k], and [h] is the
    host built from it. *)
Definition last_row_for (rows : list dict_row) (k : value) (h : Host) : Prop :=
  exists pre r post,
    rows = (pre ++ r :: post)%list /\
    Azure.row_name r = Ok k /\
    Azure.new_host r = Ok h /\
    forall r', In r' post -> Azure.row_name r' <> Ok k.

(** One entry of the inventory as [generate_yaml] renders it for the host
    stored under [fst kh]. *)
Definition rendered (kh : value * Host) : value * inv_entry :=
  (fst kh,
   mkEntry (match field (snd kh) "public_ip_address" with
            | Ok ip => ip
            | Raise _ => None
            end)
           22 "ubuntu"
           ("/var/lib/jenkins/.ts/admin/rsa/azure/" ++ py_str (fst kh) ++ "/"
              ++ py_str (fst kh))).

(** ** Sample inputs *)

Module Sample.

(** A running Linux machine of the production group. *)
Definition vm1 : Host :=
  mkHost [ ("name", Some "vm1");
           ("resource_group", Some "RG-Production");
           ("status", Some "Running");
           ("operating_system", Some "Linux");
           ("public_ip_address", Some "10.0.0.4") ] [].

(** The same, stopped. *)
Definition vm2 : Host :=
  mkHost [ ("name", Some "vm2");
           ("resource_group", Some "RG-Production");
           ("status", Some "Stopped");
           ("operating_system", Some "Linux");
           ("public_ip_address", Some "10.0.0.5") ] [].

(** A host read from a file that has no resource-group column. *)
Definition vm3 : Host :=
  mkHost [ ("name", Some "vm3");
           ("status", Some "Running") ] [].

Definition two_hosts : registry := [ (Some "vm1", vm1); (Some "vm2", vm2) ].

Definition bare_hosts : registry := [ (Some "vm3", vm3) ].

(** A playbook with one task, named as its parser is. *)
Definition pb : playbook :=
  [ mkPlay (Some [ [ ("name", YStr "ram_amount");
                     ("shell", YStr "grep MemTotal /proc/meminfo") ] ]) ].

(** The same playbook with the name of the task in mixed case. *)
Definition pb_mixed : playbook :=
  [ mkPlay (Some [ [ ("name", YStr "RAM_Amount");
                     ("shell", YStr "grep MemTotal /proc/meminfo") ] ]) ].

(** A hosts file with two running Linux machines of the production group. *)
Definition running_doc : document :=
  mkDocument
    ("delimiter=," ++ String "010" EmptyString)
    ("NAME,RESOURCE GROUP,STATUS,OPERATING SYSTEM,PUBLIC IP ADDRESS"
       ++ String "010" EmptyString)
    [ ["vm1"; "rg-production"; "Running"; "Linux"; "10.0.0.4"];
      ["vm2"; "rg-production"; "Running"; "Linux"; "10.0.0.5"] ].

(** A hosts file whose only machine is stopped. *)
Definition stopped_doc : document :=
  mkDocument
    ("delimiter=," ++ String "010" EmptyString)
    ("NAME,RESOURCE GROUP,STATUS,OPERATING SYSTEM,PUBLIC IP ADDRESS"
       ++ String "010" EmptyString)
    [ ["vm1"; "rg-production"; "Stopped"; "Linux"; "10.0.0.4"] ].

(** A hosts file in which the name [vm1] comes twice. *)
Definition repeated_doc : document :=
  mkDocument
    ("delimiter=;" ++ String "010" EmptyString)
    ("Name;Status" ++ String "010" EmptyString)
    [ ["vm1"; "Stopped"]; ["vm2"; "Running"]; ["vm1"; "Running"] ].

(** The task of [pb] succeeds on both machines. *)
Definition both_ok : list event :=
  [ mkEvent RunnerOk "vm1" "ram_amount" (Some "MemTotal:        8000000 kB") (Some 0%Z);
    mkEvent RunnerOk "vm2" "ram_amount" (Some "MemTotal:       16000000 kB") (Some 0%Z) ].

(** The registry [r] as the collector holds it before any event. *)
Definition world_of (r : result registry) : world :=
  match r with
  | Ok reg => mkWorld reg [] [] None None
  | Raise _ => world0
  end.

Definition ok_event (task : string) : event :=
  mkEvent RunnerOk "vm1" task (Some "MemTotal:        8000000 kB") (Some 0%Z).

Definition failed_event : event :=
  mkEvent RunnerFailed "vm1" "ram_amount" (Some "") (Some 1%Z).

(** The world after the task of [pb] succeeded on [vm1]. *)
Definition after_ok : world :=
  fst (ResultsCollector.handle (ok_event "ram_amount")
         (world_of (Azure.attach_all pb two_hosts))).

End Sample.

(** ** Further notions and sample inputs *)

(** The registry without the three result fields of its tasks: the hosts,
    their attributes, and for each task its key and the mapping it was
    built from. *)
Definition shape (reg : registry)
  : list (option string * (ODict.t string (option string) * list (string * task_def))) :=
  map (fun kh =>
         (fst kh,
          (host_attrs (snd kh),
           map (fun kt => (fst kt, task_kwargs (snd kt))) (tasks (snd kh)))))
      reg.

(** The task result a success event writes. *)
Definition mark_ok (r : option string) (rc : option Z) (t : Task) : Task :=
  mkTask (task_kwargs t) r (Some (py_str_Z rc)) (Some false).

Module Sample2.

(** [n] times the digit 9. *)
Fixpoint nines (n : nat) : string :=
  match n with
  | O => EmptyString
  | S n' => String "9" (nines n')
  end.

(** A success event whose output holds an amount beyond the doubles. *)
Definition huge_event : event :=
  mkEvent RunnerOk "vm1" "ram_amount" (Some (nines 400 ++ " kB")) (Some 0%Z).

(** The host without an address, with the task of [Sample.pb] attached. *)
Definition bare_world : world :=
  Sample.world_of (Azure.attach_all Sample.pb Sample.bare_hosts).

Definition bare_unreachable : event :=
  mkEvent RunnerUnreachable "vm3" "ram_amount" None None.

Definition ready_world : world :=
  Sample.world_of (Azure.attach_all Sample.pb Sample.two_hosts).

Definition unreachable_vm1 : event :=
  mkEvent RunnerUnreachable "vm1" "ram_amount" None None.

(** The task dictionary of [Sample.pb] before any event. *)
Definition ram_task : ODict.t string Task :=
  [ ("ram_amount",
     mkTask [ ("name", YStr "ram_amount");
              ("shell", YStr "grep MemTotal /proc/meminfo") ]
            None None None) ].

(** The two sample hosts, each with that dictionary. *)
Definition with_ram : registry :=
  [ (Some "vm1", mkHost (host_attrs Sample.vm1) ram_task);
    (Some "vm2", mkHost (host_attrs Sample.vm2) ram_task) ].

(** The hosts of [Sample.running_doc] with the task of [Sample.pb]. *)
Definition running_hosts : registry :=
  [ (Some "vm1",
     mkHost [ ("name", Some "vm1"); ("resource_group", Some "rg-production");
              ("status", Some "Running"); ("operating_system", Some "Linux");
              ("public_ip_address", Some "10.0.0.4") ]
            ram_task);
    (Some "vm2",
     mkHost [ ("name", Some "vm2"); ("resource_group", Some "rg-production");
              ("status", Some "Running"); ("operating_system", Some "Linux");
              ("public_ip_address", Some "10.0.0.5") ]
            ram_task) ].

End Sample2.

(** The body of the loop over the tasks of the play, on the task
    dictionary of one host. *)
Definition task_step (d : ODict.t string Task) (task : task_def)
  : result (ODict.t string Task) :=
  rbind (Azure.new_task task) (fun t =>
  rbind (Azure.task_key task) (fun k => Ok (ODict.set k t d))).

(** A hosts file whose header has no name column. *)
Definition nameless_doc : document :=
  mkDocument
    ("delimiter=," ++ String "010" EmptyString)
    ("HOST,STATUS" ++ String "010" EmptyString)
    [ ["vm1"; "Running"] ].

(** A hosts file with a record longer than its header. *)
Definition long_doc : document :=
  mkDocument
    ("delimiter=," ++ String "010" EmptyString)
    ("NAME,STATUS" ++ String "010" EmptyString)
    [ ["vm1"; "Running"]; ["vm2"; "Running"; "Linux"] ].

(** A character that is neither a space nor one of [A] to [Z]. *)
Definition attribute_char (c : ascii) : bool :=
  negb (Ascii.eqb c " ") && negb (Str.between 65 90 (Str.code c)).

(** A character of a column heading written in capitals: [A] to [Z], a
    digit or a space. *)
Definition heading_char (c : ascii) : bool :=
  Str.between 65 90 (Str.code c) || Str.is_digit c || Ascii.eqb c " ".

(* ================================================================== *)
(** * Part II. Properties                                              *)
(* ================================================================== *)

Unset Implicit Arguments.



(** ** Strings *)

Section StringFacts.

Lemma app_assoc_s (a b c : string) : (a ++ b) ++ c = a ++ (b ++ c).
Proof. induction a as [|x a IH]; simpl; [reflexivity | now rewrite IH]. Qed.

Lemma length_app_s (a b : string) :
  String.length (a ++ b) = String.length a + String.length b.
Proof. induction a as [|x a IH]; simpl; [reflexivity | now rewrite IH]. Qed.

Lemma substring_prefix (a b : string) :
  substring 0 (String.length a) (a ++ b) = a.
Proof.
  induction a as [|x a IH]; simpl.
  - destruct b; reflexivity.
  - now rewrite IH.
Qed.

Lemma consumed_app (a b : string) : Re.consumed (a ++ b) b = a.
Proof.
  unfold Re.consumed. rewrite length_app_s.
  replace (String.length a + String.length b - String.length b)
    with (String.length a) by lia.
  apply substring_prefix.
Qed.

(** No character is both a digit and a white space. *)
Lemma digit_not_space (c : ascii) : Str.is_digit c = true -> Str.is_space c = false.
Proof.
  destruct c as [[] [] [] [] [] [] [] []]; vm_compute; congruence.
Qed.

End StringFacts.

(** ** The matcher against the language of a pattern *)

Section MatcherFacts.
Import Re.

Lemma greedy_sound {A : Type} (cs : cset) (s : string) (k : string -> option A) (a : A) :
  greedy cs s k = Some a ->
  exists s1 rest, s = s1 ++ rest /\ Str.all (in_cset cs) s1 = true /\ k rest = Some a.
Proof.
  induction s as [|x s IH]; simpl; intros E.
  - exists EmptyString, EmptyString. auto.
  - destruct (in_cset cs x) eqn:Hx.
    + destruct (greedy cs s k) as [a'|] eqn:G.
      * injection E as ->. destruct (IH eq_refl) as (s1 & rest & -> & Hall & Hk).
        exists (String x s1), rest. simpl. rewrite Hx, Hall. auto.
      * exists EmptyString, (String x s). auto.
    + exists EmptyString, (String x s). auto.
Qed.

Lemma greedy_complete {A : Type} (cs : cset) (s1 rest : string) (k : string -> option A) :
  Str.all (in_cset cs) s1 = true ->
  k rest <> None ->
  greedy cs (s1 ++ rest) k <> None.
Proof.
  intros Hall Hk. induction s1 as [|x s1 IH]; simpl in *.
  - destruct rest as [|y rest]; simpl; [assumption|].
    destruct (in_cset cs y); [|assumption].
    destruct (greedy cs rest k); [discriminate | assumption].
  - apply andb_true_iff in Hall as [Hx Hall]. rewrite Hx.
    specialize (IH Hall). destruct (greedy cs (s1 ++ rest) k); [discriminate | contradiction].
Qed.

(** On a run of [cs] that stops, the repetition takes the whole run. *)
Lemma greedy_run {A : Type} (cs : cset) (s1 rest : string) (k : string -> option A) (a : A) :
  Str.all (in_cset cs) s1 = true ->
  stops cs rest ->
  k rest = Some a ->
  greedy cs (s1 ++ rest) k = Some a.
Proof.
  intros Hall Hstop Hk. induction s1 as [|x s1 IH]; simpl in *.
  - destruct rest as [|y rest]; simpl in *; [assumption|].
    now rewrite Hstop.
  - apply andb_true_iff in Hall as [Hx Hall]. rewrite Hx.
    now rewrite (IH Hall).
Qed.

Lemma rmatch_sound {A : Type} (r : regex) :
  forall (s : string) (cap : option string)
         (k : option string -> string -> option A) (a : A),
    rmatch r s cap k = Some a ->
    exists mid rest cap', s = mid ++ rest /\ lang r mid /\ k cap' rest = Some a.
Proof.
  induction r as [|cs|cs|cs|r1 IH1 r2 IH2|r1 IH1]; simpl; intros s cap k a E.
  - exists EmptyString, s, cap. auto.
  - destruct s as [|x s]; [discriminate|].
    destruct (in_cset cs x) eqn:Hx; [|discriminate].
    exists (String x EmptyString), s, cap. repeat split; eauto.
  - destruct (greedy_sound _ _ _ _ E) as (s1 & rest & -> & Hall & Hk).
    exists s1, rest, cap. auto.
  - destruct s as [|x s]; [discriminate|].
    destruct (in_cset cs x) eqn:Hx; [|discriminate].
    destruct (greedy_sound _ _ _ _ E) as (s1 & rest & -> & Hall & Hk).
    exists (String x s1), rest, cap. simpl. rewrite Hx, Hall.
    repeat split; auto. discriminate.
  - destruct (IH1 _ _ _ _ E) as (m1 & rest1 & cap1 & -> & L1 & E2).
    destruct (IH2 _ _ _ _ E2) as (m2 & rest2 & cap2 & -> & L2 & Hk).
    exists (m1 ++ m2), rest2, cap2. rewrite app_assoc_s. repeat split; eauto.
  - destruct (IH1 _ _ _ _ E) as (m1 & rest1 & cap1 & -> & L1 & Hk).
    exists m1, rest1, (Some (consumed (m1 ++ rest1) rest1)). auto.
Qed.

Lemma rmatch_complete {A : Type} (r : regex) :
  forall (mid rest : string) (cap : option string)
         (k : option string -> string -> option A),
    lang r mid ->
    (forall cap', k cap' rest <> None) ->
    rmatch r (mid ++ rest) cap k <> None.
Proof.
  induction r as [|cs|cs|cs|r1 IH1 r2 IH2|r1 IH1]; simpl; intros mid rest cap k L Hk.
  - subst mid. apply Hk.
  - destruct L as (x & Hx & ->). simpl. rewrite Hx. apply Hk.
  - apply greedy_complete; auto.
  - destruct L as (Hne & Hall). destruct mid as [|x mid]; [congruence|].
    simpl in *. apply andb_true_iff in Hall as [Hx Hall]. rewrite Hx.
    apply greedy_complete; auto.
  - destruct L as (s1 & s2 & -> & L1 & L2). rewrite app_assoc_s.
    apply IH1; [assumption|]. intros cap'. apply IH2; assumption.
  - apply IH1; [assumption|]. intros _. apply Hk.
Qed.

(** [re.match] succeeds exactly when an occurrence starts the text. *)
Lemma re_match_starts (r : regex) (s : string) :
  re_match r s <> None <-> starts r s.
Proof.
  unfold re_match, starts. split.
  - destruct (rmatch r s None (fun cap _ => Some cap)) as [m|] eqn:E;
      [|intros N; now elim N].
    intros _. destruct (rmatch_sound _ _ _ _ _ E) as (mid & rest & _ & -> & L & _).
    eauto.
  - intros (mid & post & -> & L). apply rmatch_complete; [assumption|]. discriminate.
Qed.

(** [re.search] finds nothing exactly when the pattern occurs nowhere. *)
Lemma search_none_iff (r : regex) (s : string) :
  search r s = None <-> ~ occurs r s.
Proof.
  induction s as [|x s IH]; simpl.
  - destruct (re_match r EmptyString) as [m|] eqn:E.
    + split; [discriminate|]. intros N. exfalso. apply N.
      assert (S : starts r EmptyString) by (apply re_match_starts; congruence).
      destruct S as (mid & post & Es & L). exists EmptyString, mid, post. auto.
    + split; [|reflexivity]. intros _ (pre & mid & post & Es & L).
      destruct pre; [|discriminate]. simpl in Es.
      assert (S : starts r EmptyString) by (exists mid, post; auto).
      apply re_match_starts in S. congruence.
  - destruct (re_match r (String x s)) as [m|] eqn:E.
    + split; [discriminate|]. intros N. exfalso. apply N.
      assert (S : starts r (String x s)) by (apply re_match_starts; congruence).
      destruct S as (mid & post & Es & L). exists EmptyString, mid, post. auto.
    + rewrite IH. split.
      * intros N (pre & mid & post & Es & L). destruct pre as [|y pre].
        -- simpl in Es. assert (S : starts r (String x s)) by (exists mid, post; auto).
           apply re_match_starts in S. congruence.
        -- simpl in Es. injection Es as -> ->. apply N. exists pre, mid, post. auto.
      * intros N (pre & mid & post & -> & L). apply N.
        exists (String x pre), mid, post. auto.
Qed.

(** [re.search] passes over a prefix in which no occurrence starts. *)
Lemma search_skip (r : regex) (pre t : string) :
  (forall p1 p2, pre = p1 ++ p2 -> p2 <> EmptyString -> ~ starts r (p2 ++ t)) ->
  search r (pre ++ t) = search r t.
Proof.
  induction pre as [|x pre IH]; intros Hfirst; [reflexivity|].
  simpl. destruct (re_match r (String x (pre ++ t))) as [m|] eqn:E.
  - exfalso. apply (Hfirst EmptyString (String x pre) eq_refl); [discriminate|].
    apply re_match_starts. simpl. congruence.
  - apply IH. intros p1 p2 -> Hne. apply (Hfirst (String x p1) p2 eq_refl Hne).
Qed.

Lemma no_match_before_spec (r : regex) (pre t : string) :
  no_match_before r pre t = true ->
  forall p1 p2, pre = p1 ++ p2 -> p2 <> EmptyString -> ~ starts r (p2 ++ t).
Proof.
  induction pre as [|x pre IH]; simpl; intros Hc p1 p2 E Hne.
  - destruct p1; [|discriminate]. simpl in E. congruence.
  - destruct (re_match r (String x (pre ++ t))) as [m|] eqn:M; [discriminate|].
    destruct p1 as [|y p1]; simpl in E.
    + subst p2. intros S. apply re_match_starts in S. simpl in S. congruence.
    + injection E as -> E. now apply (IH Hc p1 p2).
Qed.

End MatcherFacts.

(** ** The output parsers *)

Section ParserFacts.
Import Re ansible_callbacks.
Local Open Scope result_scope.

Lemma space_not_digit (c : ascii) : Str.is_space c = true -> Str.is_digit c = false.
Proof.
  intros Hs. destruct (Str.is_digit c) eqn:Hd; [|reflexivity].
  apply digit_not_space in Hd. congruence.
Qed.

Lemma stops_digit_tail (ws tail : string) :
  Str.all Str.is_space ws = true ->
  stops CDigit (ws ++ String "k" tail).
Proof.
  destruct ws as [|c ws]; simpl; intros Hws; [reflexivity|].
  apply andb_true_iff in Hws as [Hc _]. now apply space_not_digit.
Qed.

(** At a run of digits followed by white space and [kB], the pattern of
    [ram_amount] matches and group 1 is the run. *)
Lemma ram_match_here (ds ws post : string) :
  ds <> EmptyString ->
  Str.all Str.is_digit ds = true ->
  Str.all Str.is_space ws = true ->
  re_match RAM_AMOUNT_RE (ds ++ ws ++ "kB" ++ post) = Some (Some ds).
Proof.
  intros Hne Hds Hws. destruct ds as [|d ds]; [congruence|].
  simpl in Hds. apply andb_true_iff in Hds as [Hd Hds].
  unfold re_match, RAM_AMOUNT_RE. simpl rmatch. simpl append at 1.
  cbv beta. simpl in_cset. rewrite Hd.
  apply greedy_run; [exact Hds | now apply stops_digit_tail |].
  change (String d (ds ++ ws ++ String "k" (String "B" post)))
    with (String d ds ++ (ws ++ String "k" (String "B" post))).
  rewrite consumed_app.
  apply greedy_run; [exact Hws | reflexivity | reflexivity].
Qed.

(** The integer [round] returns is a nearest one: it is within one half of
    [m / 2^(-e)]. *)
Lemma round_half_even_nearest (m e : Z) :
  (0 <= m)%Z -> (e < 0)%Z ->
  (2 * Z.abs (m - Float.round_half_even m e * 2 ^ (- e)) <= 2 ^ (- e))%Z.
Proof.
  intros Hm He. unfold Float.round_half_even.
  destruct (0 <=? e)%Z eqn:E; [apply Z.leb_le in E; lia|].
  set (d := (2 ^ (- e))%Z).
  assert (Hd : (0 < d)%Z) by (apply Z.pow_pos_nonneg; lia).
  pose proof (Z.div_mod m d ltac:(lia)) as Hdm.
  pose proof (Z.mod_pos_bound m d Hd) as Hr.
  set (q := (m / d)%Z) in *. set (r := (m mod d)%Z) in *.
  clearbody q r. clearbody d.
  assert (E0 : (m - q * d = r)%Z) by lia.
  assert (E1 : (m - (q + 1) * d = r - d)%Z) by lia.
  destruct (2 * r ?= d)%Z eqn:C.
  - apply Z.compare_eq in C.
    destruct (Z.even q); rewrite ?E0, ?E1; clear - Hr C; lia.
  - rewrite Z.compare_lt_iff in C. rewrite E0. clear - Hr C. lia.
  - rewrite Z.compare_gt_iff in C. rewrite E1. clear - Hr C. lia.
Qed.

End ParserFacts.

(** ** Claims on the output parsers *)

Section ParserClaims.
Import Re ansible_callbacks.
Local Open Scope result_scope.

(** C2, as the specification states it, fails: on the text [16384 kB] the
    RAM-amount parser returns [0 GB] (16384 times 10^-6 rounds to 0), not
    [16 GB]. *)
Lemma ram_amount_16384_kB_is_0_GB :
  ram_amount "16384 kB" = Ok (Some "0 GB") /\
  ram_amount "16384 kB" <> Ok (Some "16 GB").
Proof.
  assert (E : ram_amount "16384 kB" = Ok (Some "0 GB")) by (vm_compute; reflexivity).
  split; [exact E|]. rewrite E. discriminate.
Qed.

(** C2, amended.  When the first occurrence of the pattern in the text is
    the digits [ds], white space [ws] and [kB], the RAM-amount parser
    converts [int(ds)] to a double, multiplies it by [10 ** -6], rounds the
    product to a nearest integer [n] and returns the text of [n] followed by
    [ GB]; when [ds] is 16384 that is [0 GB], and when [ds] is 2000000 it is
    [2 GB].  ([ds] has at most 4300 digits, the most [int] takes in every
    version of the interpreter.) *)
Theorem ram_amount_first_occurrence (pre ds ws post : string) :
  ds <> EmptyString ->
  String.length ds <= 4300 ->
  Str.all Str.is_digit ds = true ->
  Str.all Str.is_space ws = true ->
  (forall p1 p2, pre = p1 ++ p2 -> p2 <> EmptyString ->
                 ~ starts RAM_AMOUNT_RE (p2 ++ ds ++ ws ++ "kB" ++ post)) ->
  ram_amount (pre ++ ds ++ ws ++ "kB" ++ post)
  = (x <- Float.of_int (Str.to_int ds) ;;
     n <- Float.round (Float.mul x Float.ten_pow_m6) ;;
     Ok (Some (Str.of_Z n ++ " GB")))
  /\ (forall x m e n,
        Float.of_int (Str.to_int ds) = Ok x ->
        Float.mul x Float.ten_pow_m6 = S754_finite false m e ->
        (e < 0)%Z ->
        Float.round (Float.mul x Float.ten_pow_m6) = Ok n ->
        (2 * Z.abs (Z.pos m - n * 2 ^ (- e)) <= 2 ^ (- e))%Z)
  /\ (ds = "16384" ->
      ram_amount (pre ++ ds ++ ws ++ "kB" ++ post) = Ok (Some "0 GB"))
  /\ (ds = "2000000" ->
      ram_amount (pre ++ ds ++ ws ++ "kB" ++ post) = Ok (Some "2 GB")).
Proof.
  intros Hne _ Hds Hws Hfirst.
  assert (E : ram_amount (pre ++ ds ++ ws ++ "kB" ++ post)
              = (s <- kb_to_gb ds ;; Ok (Some s))).
  { unfold ram_amount. rewrite search_skip by exact Hfirst.
    assert (M : re_match RAM_AMOUNT_RE (ds ++ ws ++ "kB" ++ post) = Some (Some ds))
      by now apply ram_match_here.
    destruct ds as [|d ds]; [congruence|].
    simpl append in *. simpl search. rewrite M. reflexivity. }
  rewrite E. split; [|split; [|split]].
  - unfold kb_to_gb. destruct (Float.of_int (Str.to_int ds)) as [x|e]; simpl; [|reflexivity].
    destruct (Float.round (Float.mul x Float.ten_pow_m6)); reflexivity.
  - intros x m e n _ Hm He Hn. rewrite Hm in Hn. simpl in Hn. injection Hn as <-.
    apply round_half_even_nearest; lia.
  - intros ->. vm_compute. reflexivity.
  - intros ->. vm_compute. reflexivity.
Qed.

(** C2, amended, on a line of /proc/meminfo that follows other text. *)
Lemma ram_amount_first_occurrence_witness :
  ram_amount ("MemTotal: " ++ "2000000" ++ " " ++ "kB" ++ " of RAM, 16384 kB free")
  = Ok (Some "2 GB").
Proof.
  refine (proj2 (proj2 (proj2
    (ram_amount_first_occurrence "MemTotal: " "2000000" " " " of RAM, 16384 kB free"
       _ _ _ _ _))) eq_refl).
  - discriminate.
  - simpl. lia.
  - reflexivity.
  - reflexivity.
  - apply no_match_before_spec. vm_compute. reflexivity.
Defined.

(** C4.  A text in which the pattern of a parser occurs nowhere makes that
    parser return [None]; this holds for each of the four parsers. *)
Theorem parsers_absent_without_pattern (stdout : string) :
  (~ occurs RAM_AMOUNT_RE stdout -> ram_amount stdout = Ok None) /\
  (~ occurs CPU_NUMBER_RE stdout -> cpu_number stdout = Ok None) /\
  (~ occurs PEAK_RAM_RE stdout -> peak_ram_usage stdout = Ok None) /\
  (~ occurs PEAK_CPU_RE stdout -> peak_cpu_usage stdout = Ok None).
Proof.
  unfold ram_amount, cpu_number, peak_ram_usage, peak_cpu_usage.
  repeat split; intros N; apply search_none_iff in N; now rewrite N.
Qed.

(** C4 on the text of a failed command, in which no pattern occurs. *)
Lemma parsers_absent_without_pattern_witness :
  ram_amount "sh: 1: free: not found" = Ok None /\
  cpu_number "sh: 1: free: not found" = Ok None /\
  peak_ram_usage "sh: 1: free: not found" = Ok None /\
  peak_cpu_usage "sh: 1: free: not found" = Ok None.
Proof.
  pose proof (parsers_absent_without_pattern "sh: 1: free: not found")
    as (H1 & H2 & H3 & H4).
  refine (conj (H1 _) (conj (H2 _) (conj (H3 _) (H4 _))));
    apply search_none_iff; vm_compute; reflexivity.
Defined.

(** A text in which the pattern of a parser occurs makes the parsers that
    cannot raise return a string. *)
Lemma parsers_present_with_pattern (stdout : string) :
  (occurs CPU_NUMBER_RE stdout -> exists s, cpu_number stdout = Ok (Some s)) /\
  (occurs PEAK_RAM_RE stdout -> exists s, peak_ram_usage stdout = Ok (Some s)) /\
  (occurs PEAK_CPU_RE stdout -> exists s, peak_cpu_usage stdout = Ok (Some s)).
Proof.
  unfold cpu_number, peak_ram_usage, peak_cpu_usage.
  repeat split; intros O.
  - destruct (search CPU_NUMBER_RE stdout) eqn:S; [eauto|].
    apply search_none_iff in S. contradiction.
  - destruct (search PEAK_RAM_RE stdout) eqn:S; [eauto|].
    apply search_none_iff in S. contradiction.
  - destruct (search PEAK_CPU_RE stdout) eqn:S; [eauto|].
    apply search_none_iff in S. contradiction.
Qed.

End ParserClaims.

(** ** Dictionaries *)

Section ODictFacts.
Context {K V : Type} `{EqDec K}.

Lemma in_get (k : K) (d : ODict.t K V) (v : V) :
  NoDup (ODict.keys d) -> In (k, v) d -> ODict.get k d = Some v.
Proof.
  induction d as [|[k' v'] d IH]; simpl; [contradiction|].
  intros ND [E|I].
  - injection E as -> ->. destruct (eq_dec k k); [reflexivity | congruence].
  - inversion ND as [|? ? Hn ND']; subst.
    destruct (eq_dec k k') as [->|N].
    + exfalso. apply Hn. change (In (fst (k', v)) (map fst d)). now apply in_map.
    + now apply IH.
Qed.

(** Assigning to a key that is not there appends. *)
Lemma set_fresh (k : K) (v : V) (d : ODict.t K V) :
  ~ In k (ODict.keys d) -> ODict.set k v d = (d ++ [(k, v)])%list.
Proof.
  induction d as [|[k' v'] d IH]; simpl; intros N; [reflexivity|].
  destruct (eq_dec k k') as [->|Ne].
  - exfalso. apply N. now left.
  - rewrite IH; [reflexivity|]. intros I. apply N. now right.
Qed.

Lemma keys_update (k : K) (f : V -> V) (d : ODict.t K V) :
  ODict.keys (ODict.update k f d) = ODict.keys d.
Proof.
  induction d as [|[k' v'] d IH]; simpl; [reflexivity|].
  destruct (eq_dec k k'); simpl; [reflexivity | now rewrite IH].
Qed.

Lemma update_update (k : K) (f g : V -> V) (d : ODict.t K V) :
  ODict.update k f (ODict.update k g d) = ODict.update k (fun x => f (g x)) d.
Proof.
  induction d as [|[k' v'] d IH]; simpl; [reflexivity|].
  destruct (eq_dec k k') as [E|N]; simpl.
  - destruct (eq_dec k k'); [reflexivity | contradiction].
  - destruct (eq_dec k k'); [contradiction | now rewrite IH].
Qed.

Lemma get_update_same (k : K) (f : V -> V) (d : ODict.t K V) :
  ODict.get k (ODict.update k f d) = option_map f (ODict.get k d).
Proof.
  induction d as [|[k' v'] d IH]; simpl; [reflexivity|].
  destruct (eq_dec k k') as [->|N]; simpl.
  - destruct (eq_dec k' k'); [reflexivity | congruence].
  - destruct (eq_dec k k'); [congruence | assumption].
Qed.

Lemma get_update_other (k k0 : K) (f : V -> V) (d : ODict.t K V) :
  k0 <> k -> ODict.get k0 (ODict.update k f d) = ODict.get k0 d.
Proof.
  intros N. induction d as [|[k' v'] d IH]; simpl; [reflexivity|].
  destruct (eq_dec k k') as [->|N']; simpl.
  - destruct (eq_dec k0 k'); [congruence | reflexivity].
  - destruct (eq_dec k0 k'); [reflexivity | assumption].
Qed.

Lemma get_set_same (k : K) (v : V) (d : ODict.t K V) :
  ODict.get k (ODict.set k v d) = Some v.
Proof.
  induction d as [|[k' v'] d IH]; simpl.
  - destruct (eq_dec k k); [reflexivity | congruence].
  - destruct (eq_dec k k') as [->|N]; simpl.
    + destruct (eq_dec k' k'); [reflexivity | congruence].
    + destruct (eq_dec k k'); [congruence | assumption].
Qed.

Lemma get_set_other (k k0 : K) (v : V) (d : ODict.t K V) :
  k0 <> k -> ODict.get k0 (ODict.set k v d) = ODict.get k0 d.
Proof.
  intros N. induction d as [|[k' v'] d IH]; simpl.
  - destruct (eq_dec k0 k); [congruence | reflexivity].
  - destruct (eq_dec k k') as [->|N']; simpl.
    + destruct (eq_dec k0 k'); [congruence | reflexivity].
    + destruct (eq_dec k0 k'); [reflexivity | assumption].
Qed.

End ODictFacts.

(** ** Host.has_fields and Azure.filter_hosts *)

Section FilterFacts.
Context `{ReModule}.
Local Open Scope list_scope.

Lemma has_fields_cons (h : Host) (k v : string) (rest : list (string * string)) :
  has_fields h ((k, v) :: rest) =
  rbind (getattr h (Str.lower k)) (fun a =>
  rbind (attr_lower a) (fun s =>
  rbind (re_match (Str.lower v) s) (fun m =>
  if m then has_fields h rest else Ok false))).
Proof. reflexivity. Qed.

(** [has_fields] returns [True] exactly when every predicate holds. *)
Lemma has_fields_true_iff (h : Host) (fs : list (string * string)) :
  has_fields h fs = Ok true <-> Forall (satisfies h) fs.
Proof.
  induction fs as [|[k v] fs IH].
  - simpl. split; auto.
  - rewrite has_fields_cons. split.
    + intros E.
      destruct (getattr h (Str.lower k)) as [[[s|]|t]|e] eqn:G; simpl in E; try discriminate.
      destruct (re_match (Str.lower v) (Str.lower s)) as [[|]|e] eqn:M;
        simpl in E; try discriminate.
      constructor; [exists s; auto | now apply IH].
    + intros F. inversion F as [|? ? (s & G & M) F']; subst. simpl in G, M.
      rewrite G. simpl. rewrite M. simpl. now apply IH.
Qed.


(** [has_fields] raises at the first predicate it reaches that names an
    attribute the host lacks. *)
Lemma has_fields_lacks (h : Host) (pre post : list (string * string)) (k v : string) :
  Forall (satisfies h) pre ->
  lacks h (Str.lower k) ->
  has_fields h (pre ++ (k, v) :: post) = Raise (AttributeError (Str.lower k)).
Proof.
  intros F L. induction pre as [|[k0 v0] pre IH].
  - simpl app. rewrite has_fields_cons. unfold lacks in L. now rewrite L.
  - inversion F as [|? ? (s & G & M) F']; subst. simpl in G, M.
    simpl app. rewrite has_fields_cons, G. simpl. rewrite M. simpl. now apply IH.
Qed.

(** [has_fields] returns [False] as soon as a predicate does not match,
    whatever the predicates after it name. *)
Lemma has_fields_stops (h : Host) (pre post : list (string * string)) (k v s : string) :
  Forall (satisfies h) pre ->
  getattr h (Str.lower k) = Ok (AValue (Some s)) ->
  re_match (Str.lower v) (Str.lower s) = Ok false ->
  has_fields h (pre ++ (k, v) :: post) = Ok false.
Proof.
  intros F G M. induction pre as [|[k0 v0] pre IH].
  - simpl app. rewrite has_fields_cons, G. simpl. now rewrite M.
  - inversion F as [|? ? (s0 & G0 & M0) F']; subst. simpl in G0, M0.
    simpl app. rewrite has_fields_cons, G0. simpl. rewrite M0. simpl. now apply IH.
Qed.

Lemma filter_hosts_some (reg : registry) (fs : list (string * string)) :
  Azure.filter_hosts reg (Some fs) = fold_result (filter_step fs) (ODict.values reg) [].
Proof. reflexivity. Qed.

Lemma filter_loop (fs : list (string * string)) (reg : registry) :
  forall acc : registry,
    NoDup (ODict.keys acc ++ ODict.keys reg) ->
    (forall k h, In (k, h) reg -> field h "name" = Ok k) ->
    (forall k h, In (k, h) reg -> exists b, has_fields h fs = Ok b) ->
    fold_result (filter_step fs) (ODict.values reg) acc
    = Ok (acc ++ filter (selected fs) reg).
Proof.
  induction reg as [|[k h] reg IH]; intros acc ND Hname Htot; simpl.
  - now rewrite app_nil_r.
  - destruct (Htot k h (or_introl eq_refl)) as [b Hb].
    unfold filter_step at 1. unfold selected at 1. simpl. rewrite Hb. simpl.
    assert (ND' : NoDup (ODict.keys (acc ++ [(k, h)]) ++ ODict.keys reg)).
    { unfold ODict.keys in *. rewrite map_app. simpl. now rewrite <- app_assoc. }
    destruct b.
    + rewrite (Hname k h (or_introl eq_refl)). simpl.
      rewrite set_fresh.
      * rewrite IH; auto.
        -- now rewrite <- app_assoc.
        -- intros k' h' I. apply Hname. now right.
        -- intros k' h' I. apply (Htot k' h'). now right.
      * intros I. simpl in ND. apply NoDup_remove_2 in ND. apply ND.
        apply in_or_app. now left.
    + apply IH.
      * simpl in ND. now apply NoDup_remove_1 in ND.
      * intros k' h' I. apply Hname. now right.
      * intros k' h' I. apply (Htot k' h'). now right.
Qed.



(** An exception raised by [has_fields] on a host of the registry leaves
    [filter_hosts] without a result. *)
Lemma filter_hosts_raises (reg : registry) (fs : list (string * string)) (h : Host) (e : exn) :
  In h (ODict.values reg) ->
  has_fields h fs = Raise e ->
  exists e', Azure.filter_hosts reg (Some fs) = Raise e'.
Proof.
  intros I R. rewrite filter_hosts_some.
  generalize (@nil (value * Host)). revert I.
  induction (ODict.values reg) as [|h0 l IH]; intros I acc; [contradiction|].
  simpl. destruct (filter_step fs acc h0) as [acc'|e0] eqn:S; simpl.
  - destruct I as [->|I].
    + unfold filter_step in S. rewrite R in S. discriminate.
    + now apply IH.
  - now exists e0.
Qed.



End FilterFacts.

(** ** Claims on filtering *)

Section FilterClaims.
Local Open Scope list_scope.

(** C5, as the specification states it, fails: on a host read from a file
    without a resource-group column, filtering by the predicates of the main
    program raises [AttributeError] and returns no result set. *)
Lemma filter_hosts_missing_attribute_raises :
  @Azure.filter_hosts fragment_re Sample.bare_hosts (Some Main.FIELDS)
  = Raise (AttributeError "resource_group").
Proof. vm_compute. reflexivity. Qed.

(** C5, amended.  For a host of the registry that lacks the attribute named
    by a predicate: when every predicate before that one in the mapping
    holds, [has_fields] raises [AttributeError] and [filter_hosts] raises as
    well, so filtering is not total; when a predicate before it does not
    match, [has_fields] returns [False] without reaching it. *)
Theorem filter_hosts_missing_attribute `{ReModule}
        (reg : registry) (h : Host) (pre post : list (string * string)) (k v : string) :
  In h (ODict.values reg) ->
  lacks h (Str.lower k) ->
  (Forall (satisfies h) pre ->
   has_fields h (pre ++ (k, v) :: post) = Raise (AttributeError (Str.lower k)) /\
   exists e, Azure.filter_hosts reg (Some (pre ++ (k, v) :: post)) = Raise e) /\
  (forall pre1 pre2 k0 v0 s,
     pre = pre1 ++ (k0, v0) :: pre2 ->
     Forall (satisfies h) pre1 ->
     getattr h (Str.lower k0) = Ok (AValue (Some s)) ->
     re_match (Str.lower v0) (Str.lower s) = Ok false ->
     has_fields h (pre ++ (k, v) :: post) = Ok false).
Proof.
  intros I L. split.
  - intros F. pose proof (has_fields_lacks h pre post k v F L) as R.
    split; [exact R|]. now apply (filter_hosts_raises reg _ h _ I R).
  - intros pre1 pre2 k0 v0 s -> F G M. rewrite <- app_assoc. simpl.
    now apply (has_fields_stops h pre1 _ k0 v0 s).
Qed.

(** C5, amended, on the host without a resource group: the status
    predicate placed first holds, the resource-group predicate raises. *)
Lemma filter_hosts_missing_attribute_witness :
  @has_fields fragment_re Sample.vm3
    ([("status", "running")] ++ ("resource_group", "rg-production") :: [])
  = Raise (AttributeError "resource_group") /\
  exists e, @Azure.filter_hosts fragment_re Sample.bare_hosts
              (Some ([("status", "running")] ++ ("resource_group", "rg-production") :: []))
            = Raise e.
Proof.
  refine (proj1 (@filter_hosts_missing_attribute fragment_re Sample.bare_hosts
                   Sample.vm3 [("status", "running")] [] "resource_group" "rg-production"
                   _ _) _).
  - simpl. now left.
  - reflexivity.
  - repeat constructor. exists "Running". split; reflexivity.
Defined.







End FilterClaims.

(** ** The result collector *)

Section CollectorFacts.
Import ResultsCollector.

Lemma task_at_assigned_same (result : event) (f : Task -> Task) (reg : registry) :
  task_at (assigned result f reg) (Some (ev_host result)) (ev_task result)
  = option_map f (task_at reg (Some (ev_host result)) (ev_task result)).
Proof.
  unfold task_at, assigned. rewrite get_update_same.
  destruct (ODict.get _ reg) as [h|]; simpl; [|reflexivity].
  apply get_update_same.
Qed.

Lemma task_at_assigned_other (result : event) (f : Task -> Task) (reg : registry)
      (k : value) (tk : string) :
  (k, tk) <> (Some (ev_host result), ev_task result) ->
  task_at (assigned result f reg) k tk = task_at reg k tk.
Proof.
  intros N. unfold task_at, assigned.
  destruct (eq_dec k (Some (ev_host result))) as [->|Nk].
  - rewrite get_update_same.
    destruct (ODict.get _ reg) as [h|]; simpl; [|reflexivity].
    apply get_update_other. intros E. apply N. now rewrite E.
  - now rewrite get_update_other.
Qed.

Lemma attrs_assigned (result : event) (f : Task -> Task) (reg : registry) (k : value) :
  option_map host_attrs (ODict.get k (assigned result f reg))
  = option_map host_attrs (ODict.get k reg).
Proof.
  unfold assigned. destruct (eq_dec k (Some (ev_host result))) as [->|Nk].
  - rewrite get_update_same.
    now destruct (ODict.get _ reg).
  - now rewrite get_update_other.
Qed.

Lemma keys_assigned (result : event) (f : Task -> Task) (reg : registry) :
  ODict.keys (assigned result f reg) = ODict.keys reg.
Proof. apply keys_update. Qed.

Lemma bind_run {A B : Type} (c : M A) (f : A -> M B) (w : world) :
  bind c f w = match c w with
               | (w', Ok a) => f a w'
               | (w', Raise e) => (w', Raise e)
               end.
Proof. reflexivity. Qed.

Lemma get_host_run (result : event) (w : world) :
  get_host result w
  = (w, match ODict.get (Some (ev_host result)) (hosts w) with
        | Some h => Ok h
        | None => Raise (KeyError (ev_host result))
        end).
Proof.
  unfold get_host. rewrite bind_run. unfold gets.
  now destruct (ODict.get _ (hosts w)).
Qed.

Lemma get_task_run (result : event) (w : world) :
  get_task result w
  = (w, match ODict.get (Some (ev_host result)) (hosts w) with
        | Some h =>
            match ODict.get (ev_task result) (tasks h) with
            | Some t => Ok t
            | None => Raise (KeyError (ev_task result))
            end
        | None => Raise (KeyError (ev_host result))
        end).
Proof.
  unfold get_task. rewrite bind_run, get_host_run.
  destruct (ODict.get _ (hosts w)) as [h|]; [|reflexivity].
  now destruct (ODict.get _ (tasks h)).
Qed.

Lemma assign_run (result : event) (f : Task -> Task) (w : world) :
  assign result f w = (with_hosts (assigned result f) w, Ok tt).
Proof. reflexivity. Qed.

(** The world a failure or unreachable event leaves: the task result of the
    event is marked, when it exists; lines go to [stderr]; nothing else. *)
Lemma failure_world (result : event) (w : world) :
  ev_kind result = RunnerFailed \/ ev_kind result = RunnerUnreachable ->
  exists err,
    fst (handle result w)
    = mkWorld
        (match task_at (hosts w) (Some (ev_host result)) (ev_task result) with
         | Some _ =>
             assigned result (set_task_failed (Some true))
               (assigned result (set_exit_status (Some (py_str_Z (ev_rc result))))
                  (hosts w))
         | None => hosts w
         end)
        err (parsed w) (inventory_yml w) (report_csv w).
Proof.
  destruct w as [hs err ps inv rep].
  intros [K|K]; unfold handle; rewrite K.
  - unfold v2_runner_on_failed. rewrite bind_run, get_task_run.
    unfold task_at. cbn [hosts].
    destruct (ODict.get _ hs) as [h|]; [|eexists; reflexivity].
    destruct (ODict.get _ (tasks h)) as [t|]; [|eexists; reflexivity].
    rewrite bind_run, assign_run, bind_run, assign_run, bind_run.
    unfold lift, print_err, modify.
    destruct (task_name t); eexists; reflexivity.
  - unfold v2_runner_on_unreachable. rewrite bind_run, get_host_run.
    unfold task_at. cbn [hosts].
    destruct (ODict.get _ hs) as [h|] eqn:G; [|eexists; reflexivity].
    rewrite bind_run, get_task_run. cbn [hosts]. rewrite G.
    destruct (ODict.get _ (tasks h)) as [t|]; [|eexists; reflexivity].
    rewrite bind_run, assign_run, bind_run, assign_run, bind_run.
    unfold lift, print_err, modify.
    destruct (field h "name"); [|eexists; reflexivity].
    rewrite bind_run.
    destruct (field h "public_ip_address"); eexists; reflexivity.
Qed.

End CollectorFacts.

(** ** Claims on the result collector *)

Section CollectorClaims.
Import ResultsCollector.

(** C7.  A failure event and an unreachable event call no parser; they
    leave the [callback_result] of every task result as it was, leave every
    task result other than the one of the event, every host attribute and
    the set of hosts as they were; and in the task result of the event, when
    it exists, they write [exit_status] and set [task_failed] to [True]. *)
Theorem failure_events_frame (result : event) (w : world) :
  ev_kind result = RunnerFailed \/ ev_kind result = RunnerUnreachable ->
  parsed (fst (handle result w)) = parsed w /\
  (forall k tk,
     option_map callback_result (task_at (hosts (fst (handle result w))) k tk)
     = option_map callback_result (task_at (hosts w) k tk)) /\
  (forall k tk,
     (k, tk) <> (Some (ev_host result), ev_task result) ->
     task_at (hosts (fst (handle result w))) k tk = task_at (hosts w) k tk) /\
  (forall k,
     option_map host_attrs (ODict.get k (hosts (fst (handle result w))))
     = option_map host_attrs (ODict.get k (hosts w))) /\
  ODict.keys (hosts (fst (handle result w))) = ODict.keys (hosts w) /\
  (forall t,
     task_at (hosts w) (Some (ev_host result)) (ev_task result) = Some t ->
     task_at (hosts (fst (handle result w))) (Some (ev_host result)) (ev_task result)
     = Some (mark_failed (ev_rc result) t)).
Proof.
  intros K. destruct (failure_world result w K) as [err ->]. cbn [parsed hosts].
  split; [reflexivity|].
  destruct (task_at (hosts w) (Some (ev_host result)) (ev_task result)) as [t0|] eqn:T.
  - assert (Same : task_at
                     (assigned result (set_task_failed (Some true))
                        (assigned result
                           (set_exit_status (Some (py_str_Z (ev_rc result)))) (hosts w)))
                     (Some (ev_host result)) (ev_task result)
                   = Some (mark_failed (ev_rc result) t0)).
    { rewrite !task_at_assigned_same, T. reflexivity. }
    repeat split.
    + intros k tk.
      destruct (eq_dec (k, tk) (Some (ev_host result), ev_task result)) as [E|N].
      * injection E as -> ->. rewrite Same, T. reflexivity.
      * now rewrite !task_at_assigned_other.
    + intros k tk N. now rewrite !task_at_assigned_other.
    + intros k. now rewrite !attrs_assigned.
    + now rewrite !keys_assigned.
    + intros t [= <-]. exact Same.
  - repeat split; discriminate.
Qed.

(** C7 on the task of [vm1] after it succeeded: a later failure event keeps
    the [8 GB] the success event stored, and marks the task failed. *)
Lemma failure_events_frame_witness :
  option_map callback_result
    (task_at (hosts (fst (handle Sample.failed_event Sample.after_ok)))
       (Some "vm1") "ram_amount")
  = Some (Some "8 GB") /\
  option_map task_failed
    (task_at (hosts (fst (handle Sample.failed_event Sample.after_ok)))
       (Some "vm1") "ram_amount")
  = Some (Some true).
Proof.
  destruct (failure_events_frame Sample.failed_event Sample.after_ok
              (or_introl eq_refl)) as (_ & Hcb & _ & _ & _ & Hmark).
  split.
  - rewrite Hcb. vm_compute. reflexivity.
  - pose proof (Hmark _ eq_refl) as X.
    cbn [ev_host ev_task Sample.failed_event] in X. rewrite X. reflexivity.
Defined.

(** C3 on a playbook that declares its task as [RAM_Amount]:
    [load_playbook] stores the task result under [ram_amount]; the success
    event, which carries the declared name, finds no task result and raises
    [KeyError]; and an event that carried the lower-case key would find the
    task result but no parser, since the parser is looked up under the
    declared name.  With the name declared as [ram_amount] both lookups
    succeed. *)
Lemma mixed_case_task_name_breaks_lookup :
  option_map callback_result
    (task_at (hosts (Sample.world_of (Azure.attach_all Sample.pb_mixed Sample.two_hosts)))
       (Some "vm1") "ram_amount") = Some None /\
  handle (Sample.ok_event "RAM_Amount")
         (Sample.world_of (Azure.attach_all Sample.pb_mixed Sample.two_hosts))
  = (Sample.world_of (Azure.attach_all Sample.pb_mixed Sample.two_hosts),
     Raise (KeyError "RAM_Amount")) /\
  handle (Sample.ok_event "ram_amount")
         (Sample.world_of (Azure.attach_all Sample.pb_mixed Sample.two_hosts))
  = (Sample.world_of (Azure.attach_all Sample.pb_mixed Sample.two_hosts),
     Raise (AttributeError "RAM_Amount")) /\
  snd (handle (Sample.ok_event "ram_amount")
         (Sample.world_of (Azure.attach_all Sample.pb Sample.two_hosts))) = Ok tt /\
  option_map callback_result
    (task_at (hosts Sample.after_ok) (Some "vm1") "ram_amount") = Some (Some "8 GB").
Proof. vm_compute. repeat split. Qed.

End CollectorClaims.


(** ** The report *)

Section ReportFacts.
Import Main.
Local Open Scope list_scope.

Lemma write_rows_cons (callbacks : list string) (host : Host) (hs : list Host)
      (values : row) (w : world) :
  write_rows callbacks (host :: hs) values w
  = match map_result (field host) fieldlist with
    | Ok a =>
        match map_result (callback_cell host) callbacks with
        | Ok b =>
            write_rows callbacks hs ((values ++ a) ++ b)
              (with_report (fun f => match f with
                                     | Some l => Some (l ++ [(values ++ a) ++ b])
                                     | None => None
                                     end) w)
        | Raise e => (w, Raise e)
        end
    | Raise e => (w, Raise e)
    end.
Proof.
  cbn [write_rows]. rewrite bind_run. unfold lift.
  destruct (map_result (field host) fieldlist) as [a|e]; [|reflexivity].
  rewrite bind_run.
  destruct (map_result (callback_cell host) callbacks) as [b|e]; reflexivity.
Qed.

(** The loop of the report writes one row per host, and the row of a host
    holds the cells of every host up to it. *)
Lemma write_rows_accumulate (callbacks : list string) (hs : list Host) :
  forall (cells : list row) (values : row) (w : world) (written : list row),
    map_result (cells_of callbacks) hs = Ok cells ->
    report_csv w = Some written ->
    write_rows callbacks hs values w
    = (with_report (fun _ => Some (written ++ accumulate values cells)) w, Ok tt).
Proof.
  induction hs as [|host hs IH]; intros cells values w written Hc Hw.
  - injection Hc as <-. simpl. rewrite app_nil_r.
    destruct w as [a b c d e]. simpl in Hw. subst e. reflexivity.
  - simpl in Hc. unfold cells_of at 1 in Hc. rewrite write_rows_cons.
    destruct (map_result (field host) fieldlist) as [a|e]; [|discriminate].
    destruct (map_result (callback_cell host) callbacks) as [b|e]; [|discriminate].
    simpl in Hc.
    destruct (map_result (cells_of callbacks) hs) as [cs|e]; [|discriminate].
    injection Hc as <-.
    rewrite (IH cs ((values ++ a) ++ b) _ (written ++ [(values ++ a) ++ b]) eq_refl).
    + destruct w as [x1 x2 x3 x4 x5]. simpl in Hw. subst x5.
      unfold with_report. simpl. rewrite <- !app_assoc. reflexivity.
    + destruct w as [x1 x2 x3 x4 x5]. simpl in Hw. subst x5. reflexivity.
Qed.

Lemma accumulate_length (values : row) (cells : list row) :
  List.length (accumulate values cells) = List.length cells.
Proof.
  revert values. induction cells as [|c cells IH]; intros values; simpl;
    [reflexivity | now rewrite IH].
Qed.

End ReportFacts.

(** ** What the events of a run leave alone *)

Section RunFacts.
Import Main ResultsCollector.

Lemma handle_ok_world (result : event) (w : world) :
  ev_kind result = RunnerOk ->
  exists f ps,
    fst (handle result w)
    = mkWorld (ODict.update (Some (ev_host result)) f (hosts w))
        (stderr w) ps (inventory_yml w) (report_csv w).
Proof.
  destruct w as [hs err ps inv rep]. intros K. unfold handle. rewrite K.
  assert (Id : hs = ODict.update (Some (ev_host result)) (fun h => h) hs).
  { clear. induction hs as [|[k h] hs IH]; simpl; [reflexivity|].
    destruct (eq_dec (Some (ev_host result)) k); [reflexivity | now rewrite <- IH]. }
  assert (Stay : forall ps', exists f ps0,
             mkWorld hs err ps' inv rep
             = mkWorld (ODict.update (Some (ev_host result)) f hs) err ps0 inv rep).
  { intros ps'. exists (fun h => h), ps'. now rewrite <- Id. }
  unfold v2_runner_on_ok. rewrite bind_run, get_task_run. cbn [hosts].
  destruct (ODict.get _ hs) as [h|]; [|apply Stay].
  destruct (ODict.get _ (tasks h)) as [t|]; [|apply Stay].
  rewrite bind_run. unfold lift at 1.
  destruct (task_name t) as [name|e]; [|apply Stay].
  rewrite bind_run. unfold lift at 1.
  destruct (module_getattr name) as [cb|e]; [|apply Stay].
  rewrite bind_run. unfold call_parser. rewrite bind_run. unfold modify at 1, lift at 1.
  destruct (cb (py_str (ev_stdout result))) as [r|e]; [|apply Stay].
  rewrite bind_run, assign_run, bind_run, assign_run, assign_run.
  unfold with_hosts, with_parsed, assigned. cbn.
  rewrite !update_update. eexists _, _. reflexivity.
Qed.

(** No event adds or removes a host, and none touches the files. *)
Lemma handle_preserves (result : event) (w : world) :
  ODict.keys (hosts (fst (handle result w))) = ODict.keys (hosts w) /\
  inventory_yml (fst (handle result w)) = inventory_yml w /\
  report_csv (fst (handle result w)) = report_csv w.
Proof.
  destruct (ev_kind result) eqn:K.
  - destruct (handle_ok_world result w K) as (f & ps & ->). cbn [hosts inventory_yml report_csv].
    split; [apply keys_update | split; reflexivity].
  - destruct (failure_world result w (or_introl K)) as (err & ->). cbn [hosts inventory_yml report_csv].
    split; [|split; reflexivity].
    destruct (task_at _ _ _); [now rewrite !keys_assigned | reflexivity].
  - destruct (failure_world result w (or_intror K)) as (err & ->). cbn [hosts inventory_yml report_csv].
    split; [|split; reflexivity].
    destruct (task_at _ _ _); [now rewrite !keys_assigned | reflexivity].
Qed.

Lemma executor_run_preserves (events : list event) :
  forall w : world,
    snd (executor_run events w) = Ok tt /\
    ODict.keys (hosts (fst (executor_run events w))) = ODict.keys (hosts w) /\
    inventory_yml (fst (executor_run events w)) = inventory_yml w /\
    report_csv (fst (executor_run events w)) = report_csv w.
Proof.
  induction events as [|ev events IH]; intros w.
  - repeat split.
  - change (executor_run (ev :: events) w)
      with (executor_run events (fst (handle ev w))).
    destruct (IH (fst (handle ev w))) as (R & Kk & I & Rp).
    destruct (handle_preserves ev w) as (Kk' & I' & Rp').
    rewrite R, Kk, I, Rp. repeat split; assumption.
Qed.

End RunFacts.

(** ** Claims on the main program *)

Section MainClaims.
Import Main.
Local Open Scope list_scope.

(** The methods of [Azure] print to [stderr] and write the inventory;
    they touch neither the hosts of the collector nor the report. *)
Lemma load_from_csv_run (f : option document) (w : world) :
  exists err r,
    Azure.load_from_csv f w
    = (mkWorld (hosts w) err (parsed w) (inventory_yml w) (report_csv w), r).
Proof.
  destruct w as [hs err ps inv rep].
  unfold Azure.load_from_csv, try_except_IOError, Azure.open_r, bind, lift, ret,
    raise, print_err, sys_exit, modify, raise.
  destruct f as [doc|]; simpl; [|eexists _, _; reflexivity].
  destruct (Azure.delimiter_of (line1 doc)) as [d|[]]; simpl;
    try (eexists _, _; reflexivity).
  destruct (Azure.fieldlist_of d (line2 doc)) as [fl|[]]; simpl;
    try (eexists _, _; reflexivity).
  destruct (Azure.DictReader fl d (records doc)) as [rows|[]]; simpl;
    try (eexists _, _; reflexivity).
  destruct (Azure.hosts_of_rows rows) as [r|[]]; simpl; eexists _, _; reflexivity.
Qed.

Lemma load_playbook_run (f : option playbook) (reg : registry) (w : world) :
  exists err r,
    Azure.load_playbook f reg w
    = (mkWorld (hosts w) err (parsed w) (inventory_yml w) (report_csv w), r).
Proof.
  destruct w as [hs err ps inv rep].
  unfold Azure.load_playbook, try_except_IOError, Azure.open_r, bind, lift, ret,
    raise, print_err, sys_exit, modify, raise.
  destruct f as [pb|]; simpl; [|eexists _, _; reflexivity].
  destruct (Azure.attach_all pb reg) as [r|[]]; simpl; eexists _, _; reflexivity.
Qed.

Lemma generate_yaml_run `{ReModule} (writable : bool) (reg : registry)
      (fields : option (list (string * string))) (w : world) :
  exists err inv r,
    Azure.generate_yaml writable reg fields w
    = (mkWorld (hosts w) err (parsed w) inv (report_csv w), r).
Proof.
  destruct w as [hs err ps inv rep].
  unfold Azure.generate_yaml, try_except_IOError, Azure.open_inventory, Azure.dump,
    bind, lift, ret, raise, print_err, sys_exit, modify, raise.
  destruct writable; simpl; [|eexists _, _, _; reflexivity].
  destruct (Azure.filter_hosts reg fields) as [sel|[]]; simpl;
    try (eexists _, _, _; reflexivity).
  destruct (Azure.ansible_dict_of sel) as [d|[]]; simpl;
    eexists _, _, _; reflexivity.
Qed.

(** The program up to the selection of the hosts writes no report. *)
Lemma select_files `{ReModule} (az : option document) (pb : option playbook)
      (iw : bool) (w : world) :
  report_csv (fst (select az pb iw w)) = report_csv w.
Proof.
  destruct w as [hs err ps inv rep]. unfold select. rewrite bind_run.
  destruct (load_from_csv_run az (mkWorld hs err ps inv rep)) as (e1 & r1 & E1).
  cbn [hosts parsed inventory_yml report_csv] in E1. rewrite E1.
  destruct r1 as [h0|e]; [|reflexivity].
  rewrite bind_run.
  destruct (load_playbook_run pb h0 (mkWorld hs e1 ps inv rep)) as (e2 & r2 & E2).
  cbn [hosts parsed inventory_yml report_csv] in E2. rewrite E2.
  destruct r2 as [h1|e]; [|reflexivity].
  destruct (generate_yaml_run iw h1 (Some FIELDS) (mkWorld hs e2 ps inv rep))
    as (e3 & i3 & r3 & E3).
  cbn [hosts parsed inventory_yml report_csv] in E3. rewrite E3.
  reflexivity.
Qed.

(** C8.  When the selection of the hosts comes out empty, the program
    ends by [sys.exit(0)], whatever events the run delivers, and no report
    file exists afterwards. *)
Theorem empty_selection_exits_cleanly `{ReModule}
        (az : option document) (pb : option playbook) (iw : bool)
        (events : list event) (rw : bool) (w w' : world) :
  report_csv w = None ->
  select az pb iw w = (w', Ok []) ->
  snd (main az pb iw events rw w) = Raise (SystemExit 0) /\
  exit_code (snd (main az pb iw events rw w)) = 0%Z /\
  report_csv (fst (main az pb iw events rw w)) = None.
Proof.
  intros Hrep Hsel.
  assert (Hrep' : report_csv w' = None).
  { pose proof (select_files az pb iw w) as R. rewrite Hsel in R. simpl in R. congruence. }
  assert (E : exists wf, main az pb iw events rw w = (wf, Raise (SystemExit 0)) /\
                         report_csv wf = None).
  { unfold main. rewrite bind_run, Hsel, bind_run. unfold modify at 1.
    rewrite bind_run.
    set (w1 := with_hosts (fun _ => []) w').
    destruct (executor_run_preserves events w1) as (R & Kk & _ & Rp).
    destruct (executor_run events w1) as [w2 r]. simpl in R, Kk, Rp. subst r.
    assert (Hh : hosts w2 = []).
    { destruct (hosts w2) as [|x l]; [reflexivity | discriminate]. }
    unfold write_report. rewrite bind_run. unfold gets. rewrite Hh.
    exists w2. split; [reflexivity | congruence]. }
  destruct E as (wf & -> & Hf). repeat split. exact Hf.
Qed.

(** C8 on a hosts file whose only machine is stopped. *)
Lemma empty_selection_exits_cleanly_witness :
  exit_code (snd (@main fragment_re (Some Sample.stopped_doc) (Some Sample.pb) true
                    Sample.both_ok true world0)) = 0%Z /\
  report_csv (fst (@main fragment_re (Some Sample.stopped_doc) (Some Sample.pb) true
                     Sample.both_ok true world0)) = None.
Proof.
  refine (proj2 (@empty_selection_exits_cleanly fragment_re
            (Some Sample.stopped_doc) (Some Sample.pb) true Sample.both_ok true
            world0 (mkWorld [] [] [] (Some [[]]) None) _ _)).
  - reflexivity.
  - vm_compute. reflexivity.
Defined.

(** C1 on a hosts file with two selected machines: the report has one data
    row per machine, but the row written for the second machine starts with
    the cells of the first; it has eight cells under a header of four. *)
Lemma report_rows_accumulate :
  report_csv (fst (@main fragment_re (Some Sample.running_doc) (Some Sample.pb) true
                     Sample.both_ok true world0))
  = Some [ [Some "NAME"; Some "RESOURCE GROUP"; Some "PUBLIC IP ADDRESS";
            Some "RAM AMOUNT"];
           [Some "vm1"; Some "rg-production"; Some "10.0.0.4"; Some "8 GB"];
           [Some "vm1"; Some "rg-production"; Some "10.0.0.4"; Some "8 GB";
            Some "vm2"; Some "rg-production"; Some "10.0.0.5"; Some "16 GB"] ].
Proof. vm_compute. reflexivity. Qed.

End MainClaims.

(** ** Claims on the registry *)

Section RegistryClaims.
Local Open Scope list_scope.

Lemma fold_result_app {A S : Type} (f : S -> A -> result S) (l1 l2 : list A) (s : S) :
  fold_result f (l1 ++ l2) s = rbind (fold_result f l1 s) (fold_result f l2).
Proof.
  revert s. induction l1 as [|x l1 IH]; intros s; simpl; [reflexivity|].
  destruct (f s x); simpl; [apply IH | reflexivity].
Qed.

Lemma in_keys_set {K V : Type} `{EqDec K} (k k0 : K) (v : V) (d : ODict.t K V) :
  In k (ODict.keys (ODict.set k0 v d)) <-> k = k0 \/ In k (ODict.keys d).
Proof.
  induction d as [|[k' v'] d IH]; simpl.
  - intuition.
  - destruct (eq_dec k0 k') as [->|N]; simpl.
    + intuition.
    + rewrite IH. intuition.
Qed.

Lemma NoDup_keys_set {K V : Type} `{EqDec K} (k0 : K) (v : V) (d : ODict.t K V) :
  NoDup (ODict.keys d) -> NoDup (ODict.keys (ODict.set k0 v d)).
Proof.
  induction d as [|[k' v'] d IH]; simpl; intros ND.
  - constructor; [intros [] | constructor].
  - inversion ND as [|? ? Hn ND']; subst.
    destruct (eq_dec k0 k') as [->|N]; simpl.
    + now constructor.
    + constructor; [|now apply IH].
      intros I. apply in_keys_set in I. destruct I as [E|I]; [congruence | contradiction].
Qed.

Lemma hosts_of_rows_snoc (rows : list dict_row) (r : dict_row) :
  Azure.hosts_of_rows (rows ++ [r])
  = rbind (Azure.hosts_of_rows rows) (fun acc => row_step acc r).
Proof.
  unfold Azure.hosts_of_rows. rewrite fold_result_app.
  match goal with
  | |- context [fold_result ?f rows ?s] => destruct (fold_result f rows s) as [acc|e]
  end; simpl; [|reflexivity].
  unfold row_step. destruct (Azure.row_name r); simpl; [|reflexivity].
  destruct (Azure.new_host r); reflexivity.
Qed.

Lemma snoc_cases {A : Type} (l : list A) :
  l = [] \/ exists l' a, l = l' ++ [a].
Proof.
  induction l as [|x l IH] using rev_ind; [now left | right; eauto].
Qed.

Lemma last_row_for_snoc_same (rows : list dict_row) (r : dict_row) (k : value) (h0 h : Host) :
  Azure.row_name r = Ok k -> Azure.new_host r = Ok h0 ->
  last_row_for (rows ++ [r]) k h <-> h = h0.
Proof.
  intros Hn Hh. split.
  - intros (pre & r' & post & E & Hn' & Hh' & Hlast).
    destruct (snoc_cases post) as [->|(post' & p & ->)].
    + apply app_inj_tail in E as [_ ->]. congruence.
    + exfalso. rewrite app_comm_cons, app_assoc in E.
      apply app_inj_tail in E as [_ ->].
      apply (Hlast p); [|assumption]. apply in_or_app. right. now left.
  - intros ->. exists rows, r, []. repeat split; auto.
Qed.

Lemma last_row_for_snoc_other (rows : list dict_row) (r : dict_row) (k k0 : value) (h : Host) :
  Azure.row_name r = Ok k0 -> k <> k0 ->
  last_row_for (rows ++ [r]) k h <-> last_row_for rows k h.
Proof.
  intros Hn N. split.
  - intros (pre & r' & post & E & Hn' & Hh' & Hlast).
    destruct (snoc_cases post) as [->|(post' & p & ->)].
    + apply app_inj_tail in E as [_ ->]. congruence.
    + rewrite app_comm_cons, app_assoc in E.
      apply app_inj_tail in E as [-> ->].
      exists pre, r', post'. repeat split; auto.
      intros x I. apply Hlast. apply in_or_app. now left.
  - intros (pre & r' & post & -> & Hn' & Hh' & Hlast).
    exists pre, r', (post ++ [r]). repeat split; auto.
    + now rewrite <- app_assoc.
    + intros x I. apply in_app_or in I as [I|[<-|[]]]; [now apply Hlast | congruence].
Qed.

(** The registry built from the rows: its keys are the names of the rows,
    each once, and each key holds the host of the last row of that name. *)
Lemma hosts_of_rows_last (rows : list dict_row) :
  forall reg : registry,
    Azure.hosts_of_rows rows = Ok reg ->
    NoDup (ODict.keys reg) /\
    (forall k, In k (ODict.keys reg) <-> exists r, In r rows /\ Azure.row_name r = Ok k) /\
    (forall k h, ODict.get k reg = Some h <-> last_row_for rows k h).
Proof.
  induction rows as [|r rows IH] using rev_ind; intros reg E.
  - injection E as <-. split; [constructor|]. split.
    + intros k. split; [intros [] | intros (r & [] & _)].
    + intros k h. split; [discriminate|].
      intros (pre & r & post & E & _). now destruct pre.
  - rewrite hosts_of_rows_snoc in E.
    destruct (Azure.hosts_of_rows rows) as [reg0|e]; [|discriminate].
    destruct (IH reg0 eq_refl) as (ND & Hkeys & Hget).
    simpl in E. unfold row_step in E.
    destruct (Azure.row_name r) as [k0|e] eqn:Hn; [|discriminate].
    destruct (Azure.new_host r) as [h0|e] eqn:Hh; [|discriminate].
    simpl in E. injection E as <-.
    split; [now apply NoDup_keys_set|]. split.
    + intros k. rewrite in_keys_set, Hkeys. split.
      * intros [->|(r' & I & Hr')].
        -- exists r. split; [apply in_or_app; right; now left | assumption].
        -- exists r'. split; [apply in_or_app; now left | assumption].
      * intros (r' & I & Hr'). apply in_app_or in I as [I|[<-|[]]].
        -- right. now exists r'.
        -- left. congruence.
    + intros k h. destruct (eq_dec k k0) as [->|N].
      * rewrite get_set_same, (last_row_for_snoc_same rows r k0 h0 h Hn Hh).
        split; congruence.
      * rewrite (get_set_other k0 k h0 reg0 N), Hget.
        symmetry. now apply last_row_for_snoc_other with (k0 := k0).
Qed.

(** The comprehension returns a registry when every row has a name, no
    field in excess and no field called [tasks]. *)
Lemma hosts_of_rows_total (rows : list dict_row) :
  (forall r, In r rows -> exists k h, Azure.row_name r = Ok k /\ Azure.new_host r = Ok h) ->
  exists reg, Azure.hosts_of_rows rows = Ok reg.
Proof.
  induction rows as [|r rows IH] using rev_ind; intros Hall.
  - now exists [].
  - destruct IH as (reg0 & E0).
    { intros r' I. apply Hall. apply in_or_app. now left. }
    destruct (Hall r) as (k & h & Hn & Hh); [apply in_or_app; right; now left|].
    rewrite hosts_of_rows_snoc, E0. simpl. unfold row_step. rewrite Hn, Hh.
    simpl. eauto.
Qed.

(** C10.  When every row has a name, no field in excess and no field
    called [tasks], [load_from_csv] returns a registry; and whenever it
    returns one, the keys of the registry are the distinct values of the name
    column, each once, and each key holds the host built from the last row
    that carries it: of several rows with one name only the last is kept. *)
Theorem load_from_csv_last_row_wins (doc : document) (w : world) :
  (forall delimiter fieldlist rows,
     Azure.delimiter_of (line1 doc) = Ok delimiter ->
     Azure.fieldlist_of delimiter (line2 doc) = Ok fieldlist ->
     Azure.DictReader fieldlist delimiter (records doc) = Ok rows ->
     (forall r, In r rows ->
                exists k h, Azure.row_name r = Ok k /\ Azure.new_host r = Ok h) ->
     exists reg, Azure.load_from_csv (Some doc) w = (w, Ok reg)) /\
  (forall w' reg,
     Azure.load_from_csv (Some doc) w = (w', Ok reg) ->
     exists delimiter fieldlist rows,
       Azure.delimiter_of (line1 doc) = Ok delimiter /\
       Azure.fieldlist_of delimiter (line2 doc) = Ok fieldlist /\
       Azure.DictReader fieldlist delimiter (records doc) = Ok rows /\
       NoDup (ODict.keys reg) /\
       (forall k, In k (ODict.keys reg) <->
                  exists r, In r rows /\ Azure.row_name r = Ok k) /\
       (forall k h, ODict.get k reg = Some h <-> last_row_for rows k h)).
Proof.
  unfold Azure.load_from_csv, try_except_IOError, Azure.open_r, bind, lift, ret,
    raise, print_err, sys_exit, modify, raise.
  split.
  - intros d fl rows E1 E2 E3 Hall. rewrite E1, E2, E3.
    destruct (hosts_of_rows_total rows Hall) as (reg & ->). now exists reg.
  - intros w' reg.
    destruct (Azure.delimiter_of (line1 doc)) as [d|[]] eqn:E1; simpl; try discriminate.
    destruct (Azure.fieldlist_of d (line2 doc)) as [fl|[]] eqn:E2; simpl;
      try discriminate.
    destruct (Azure.DictReader fl d (records doc)) as [rows|[]] eqn:E3; simpl;
      try discriminate.
    destruct (Azure.hosts_of_rows rows) as [r|[]] eqn:E; simpl; try discriminate.
    intros [= <- <-]. exists d, fl, rows.
    split; [reflexivity|]. split; [exact E2|]. split; [exact E3|].
    now apply hosts_of_rows_last.
Qed.

(** C10 on a hosts file in which [vm1] comes first as stopped and last as
    running: the registry holds [vm1] once, with the running row. *)
Lemma load_from_csv_last_row_wins_witness :
  NoDup (ODict.keys
           [ (Some "vm1", mkHost [("name", Some "vm1"); ("status", Some "Running")] []);
             (Some "vm2", mkHost [("name", Some "vm2"); ("status", Some "Running")] []) ]) /\
  last_row_for
    [ mkRow [("name", Some "vm1"); ("status", Some "Stopped")] None;
      mkRow [("name", Some "vm2"); ("status", Some "Running")] None;
      mkRow [("name", Some "vm1"); ("status", Some "Running")] None ]
    (Some "vm1")
    (mkHost [("name", Some "vm1"); ("status", Some "Running")] []).
Proof.
  destruct (proj2 (load_from_csv_last_row_wins Sample.repeated_doc world0) world0
              [ (Some "vm1", mkHost [("name", Some "vm1"); ("status", Some "Running")] []);
                (Some "vm2", mkHost [("name", Some "vm2"); ("status", Some "Running")] []) ])
    as (d & fl & rows & E1 & E2 & E3 & ND & _ & Hget).
  - vm_compute. reflexivity.
  - split; [exact ND|].
    assert (Ed : d = ";") by (vm_compute in E1; congruence). subst d.
    assert (Ef : fl = ["name"; "status"]) by (vm_compute in E2; congruence). subst fl.
    assert (Er : rows = [ mkRow [("name", Some "vm1"); ("status", Some "Stopped")] None;
                          mkRow [("name", Some "vm2"); ("status", Some "Running")] None;
                          mkRow [("name", Some "vm1"); ("status", Some "Running")] None ])
      by (vm_compute in E3; congruence).
    subst rows. apply Hget. reflexivity.
Defined.

End RegistryClaims.

(** ** Claims on the inventory *)

Section InventoryClaims.
Context `{ReModule}.
Local Open Scope list_scope.

(** When the loop of [filter_hosts] returns, it returns the hosts for which
    [has_fields] returned [True], in their order. *)
Lemma filter_loop_ok (fs : list (string * string)) (reg : registry) :
  forall acc sel : registry,
    NoDup (ODict.keys acc ++ ODict.keys reg) ->
    (forall k h, In (k, h) reg -> field h "name" = Ok k) ->
    fold_result (filter_step fs) (ODict.values reg) acc = Ok sel ->
    sel = acc ++ filter (selected fs) reg.
Proof.
  induction reg as [|[k h] reg IH]; intros acc sel ND Hname E; simpl in *.
  - injection E as <-. now rewrite app_nil_r.
  - unfold filter_step at 1 in E. unfold selected at 1. simpl.
    destruct (has_fields h fs) as [b|e]; [|discriminate]. simpl in E.
    assert (ND' : NoDup (ODict.keys (acc ++ [(k, h)]) ++ ODict.keys reg)).
    { unfold ODict.keys in *. rewrite map_app. simpl. now rewrite <- app_assoc. }
    destruct b.
    + rewrite (Hname k h (or_introl eq_refl)) in E. simpl in E.
      rewrite set_fresh in E.
      * rewrite (IH _ _ ND' (fun k' h' I => Hname k' h' (or_intror I)) E).
        now rewrite <- app_assoc.
      * intros I. apply NoDup_remove_2 in ND. apply ND.
        apply in_or_app. now left.
    + apply IH; [|intros k' h' I; apply Hname; now right | exact E].
      now apply NoDup_remove_1 in ND.
Qed.

Lemma keyed_by_name_filter (p : value * Host -> bool) (reg : registry) :
  keyed_by_name reg -> keyed_by_name (filter p reg).
Proof.
  intros [ND Hname]. split.
  - clear Hname. induction reg as [|[k h] reg IH]; simpl; [constructor|].
    inversion ND as [|? ? Hn ND']; subst.
    destruct (p (k, h)); [|now apply IH].
    simpl. constructor; [|now apply IH].
    intros I. apply Hn. unfold ODict.keys in *.
    apply in_map_iff in I as ([k' h'] & E & I). simpl in E. subst k'.
    apply filter_In in I as [I _].
    change k with (fst (k, h')). now apply in_map.
  - intros k h I. apply filter_In in I as [I _]. now apply Hname.
Qed.

(** What [filter_hosts] returns on a registry keyed by name is keyed by
    name, and all of it comes from the registry. *)
Lemma filter_hosts_keyed (reg sel : registry) (fields : option (list (string * string))) :
  keyed_by_name reg ->
  Azure.filter_hosts reg fields = Ok sel ->
  keyed_by_name sel /\ forall kh, In kh sel -> In kh reg.
Proof.
  intros WF E. destruct fields as [fs|].
  - rewrite filter_hosts_some in E. destruct WF as [ND Hname].
    apply (filter_loop_ok fs reg [] sel ND Hname) in E. simpl in E. subst sel.
    split; [now apply keyed_by_name_filter|].
    intros kh I. now apply filter_In in I as [I _].
  - injection E as <-. auto.
Qed.

Lemma ansible_loop (sel : registry) :
  forall acc : inventory_doc,
    NoDup (ODict.keys acc ++ ODict.keys sel) ->
    (forall k h, In (k, h) sel -> field h "name" = Ok k) ->
    (forall k h, In (k, h) sel -> exists ip, field h "public_ip_address" = Ok ip) ->
    fold_result entry_step (ODict.values sel) acc = Ok (acc ++ map rendered sel).
Proof.
  induction sel as [|[k h] sel IH]; intros acc ND Hname Hip; simpl.
  - now rewrite app_nil_r.
  - destruct (Hip k h (or_introl eq_refl)) as [ip Eip].
    unfold entry_step at 1, Azure.entry_of, rendered at 1. simpl.
    rewrite Eip, (Hname k h (or_introl eq_refl)). simpl.
    rewrite set_fresh.
    + rewrite IH.
      * now rewrite <- app_assoc.
      * unfold ODict.keys in *. rewrite map_app. simpl. now rewrite <- app_assoc.
      * intros k' h' I. apply Hname. now right.
      * intros k' h' I. apply (Hip k' h'). now right.
    + intros I. simpl in ND. apply NoDup_remove_2 in ND. apply ND.
      apply in_or_app. now left.
Qed.

Lemma keys_rendered (sel : registry) :
  ODict.keys (map rendered sel) = ODict.keys sel.
Proof.
  unfold ODict.keys. rewrite map_map. apply map_ext. now intros [k h].
Qed.

(** C9.  On a registry keyed by name, when the inventory file can be
    opened and the selected hosts have a public address, [generate_yaml]
    returns the hosts [filter_hosts] selects and leaves a file that holds
    one mapping, with one entry per selected host, under the host's name and
    in the order of the selection; the entry of a host holds its public
    address, the port 22, the user [ubuntu] and the key file
    [/var/lib/jenkins/.ts/admin/rsa/azure/<name>/<name>]. *)
Theorem generate_yaml_renders
        (reg sel : registry) (fields : option (list (string * string))) (w : world) :
  keyed_by_name reg ->
  Azure.filter_hosts reg fields = Ok sel ->
  (forall k h, In (k, h) sel -> exists ip, field h "public_ip_address" = Ok ip) ->
  Azure.generate_yaml true reg fields w
  = (with_inventory (fun _ => Some [map rendered sel]) w, Ok sel) /\
  ODict.keys (map rendered sel) = ODict.keys sel /\
  (forall k h,
     In (k, h) sel ->
     exists ip,
       field h "public_ip_address" = Ok ip /\
       ODict.get k (map rendered sel)
       = Some (mkEntry ip 22 "ubuntu"
                 ("/var/lib/jenkins/.ts/admin/rsa/azure/" ++ py_str k ++ "/"
                    ++ py_str k)%string)).
Proof.
  intros WF Hsel Hip.
  destruct (filter_hosts_keyed reg sel fields WF Hsel) as [[ND Hname] _].
  assert (Hdict : Azure.ansible_dict_of sel = Ok (map rendered sel)).
  { unfold Azure.ansible_dict_of.
    change (fold_result entry_step (ODict.values sel) [] = Ok ([] ++ map rendered sel)).
    now apply ansible_loop. }
  split; [|split].
  - destruct w as [hs err ps inv rep].
    unfold Azure.generate_yaml, try_except_IOError, Azure.open_inventory, Azure.dump,
      bind, lift, ret, modify. simpl. rewrite Hsel, Hdict. reflexivity.
  - apply keys_rendered.
  - intros k h I. destruct (Hip k h I) as [ip Eip]. exists ip. split; [assumption|].
    apply in_get.
    + now rewrite keys_rendered.
    + apply in_map_iff. exists (k, h). split; [|assumption].
      unfold rendered. simpl. now rewrite Eip.
Qed.

End InventoryClaims.

Section InventoryWitness.
Local Open Scope list_scope.

(** C9 on the two production hosts and the predicates of the main program:
    the running host is returned and rendered. *)
Lemma generate_yaml_renders_witness :
  @Azure.generate_yaml fragment_re true Sample.two_hosts (Some Main.FIELDS) world0
  = (with_inventory
       (fun _ => Some [map rendered [(Some "vm1", Sample.vm1)]]) world0,
     Ok [(Some "vm1", Sample.vm1)]).
Proof.
  refine (proj1 (@generate_yaml_renders fragment_re Sample.two_hosts
                   [(Some "vm1", Sample.vm1)] (Some Main.FIELDS) world0 _ _ _)).
  - split.
    + repeat constructor; simpl; intuition discriminate.
    + intros k h [E|[E|[]]]; injection E as <- <-; reflexivity.
  - vm_compute. reflexivity.
  - intros k h [E|[]]. injection E as <- <-. eexists. reflexivity.
Defined.

End InventoryWitness.

(* ================================================================== *)
(** * Part III. Further properties of the code                         *)
(* ================================================================== *)

(** ** The parsers on a text that holds their pattern *)

Section ParserOccurrences.
Import Re ansible_callbacks.
Local Open Scope result_scope.

(** A literal pattern consumes itself. *)
Lemma rmatch_lit {A : Type} (l rest : string) (cap : option string)
      (k : option string -> string -> option A) :
  rmatch (lit l) (l ++ rest) cap k = k cap rest.
Proof.
  induction l as [|c l IH]; simpl; [reflexivity|].
  rewrite Ascii.eqb_refl. exact IH.
Qed.

(** A label, white space and a run of [cs] that stops: the pattern
    [label\s*(cs+)] matches there and group 1 is the whole run. *)
Lemma labelled_match_here (label : string) (cs : cset) (ws g post : string) :
  (forall c, in_cset cs c = true -> Str.is_space c = false) ->
  g <> EmptyString ->
  Str.all Str.is_space ws = true ->
  Str.all (in_cset cs) g = true ->
  stops cs post ->
  re_match (RSeq (lit label) (RSeq (RStar CSpace) (RGroup (RPlus cs))))
           (label ++ ws ++ g ++ post)
  = Some (Some g).
Proof.
  intros Hsep Hne Hws Hg Hstop. destruct g as [|d g]; [congruence|].
  simpl in Hg. apply andb_true_iff in Hg as [Hd Hg].
  unfold re_match. cbn [rmatch]. rewrite rmatch_lit.
  apply greedy_run; [exact Hws | simpl; now apply Hsep |].
  cbn [rmatch]. simpl append. cbv iota beta. rewrite Hd.
  apply greedy_run; [exact Hg | exact Hstop |].
  change (String d (g ++ post)) with (String d g ++ post).
  now rewrite consumed_app.
Qed.

Lemma digit_or_dot_not_space (c : ascii) :
  in_cset (COr CDigit (CLit ".")) c = true -> Str.is_space c = false.
Proof.
  destruct c as [[] [] [] [] [] [] [] []]; vm_compute; congruence.
Qed.

(** X1.  When the first occurrence of the pattern of [cpu_number] in the
    text is [CPU(s):], white space [ws] and the whole run of digits [ds],
    the parser returns [ds] followed by [ CPU(s)]: the digits are passed on
    as they stand, and what follows in the text plays no part. *)
Theorem cpu_number_first_occurrence (pre ws ds post : string) :
  ds <> EmptyString ->
  Str.all Str.is_space ws = true ->
  Str.all Str.is_digit ds = true ->
  stops CDigit post ->
  (forall p1 p2, pre = p1 ++ p2 -> p2 <> EmptyString ->
                 ~ starts CPU_NUMBER_RE (p2 ++ "CPU(s):" ++ ws ++ ds ++ post)) ->
  cpu_number (pre ++ "CPU(s):" ++ ws ++ ds ++ post) = Ok (Some (ds ++ " CPU(s)")).
Proof.
  intros Hne Hws Hds Hstop Hfirst. unfold cpu_number.
  rewrite search_skip by exact Hfirst.
  assert (M : re_match CPU_NUMBER_RE ("CPU(s):" ++ ws ++ ds ++ post) = Some (Some ds)).
  { apply (labelled_match_here "CPU(s):" CDigit); auto.
    intros c. apply digit_not_space. }
  simpl append in *. simpl search. rewrite M. reflexivity.
Qed.

(** X1 on the output of lscpu. *)
Lemma cpu_number_first_occurrence_witness :
  cpu_number ("Architecture: x86_64 " ++ "CPU(s):" ++ "      " ++ "16"
                ++ " On-line CPU(s) list: 0-15")
  = Ok (Some "16 CPU(s)").
Proof.
  refine (cpu_number_first_occurrence "Architecture: x86_64 " "      " "16"
            " On-line CPU(s) list: 0-15" _ _ _ _ _).
  - discriminate.
  - reflexivity.
  - reflexivity.
  - reflexivity.
  - apply no_match_before_spec. vm_compute. reflexivity.
Defined.

(** X2.  When the first occurrence of the pattern of a peak-usage parser
    in the text is its label ([MEM] or [CPU]), white space [ws] and the
    whole run [g] of digits and dots, the parser returns [g] followed by
    [%]: the run is passed on verbatim, whether or not it reads as a
    number. *)
Theorem peak_usage_first_occurrence (pre ws g post : string) :
  g <> EmptyString ->
  Str.all Str.is_space ws = true ->
  Str.all (in_cset (COr CDigit (CLit "."))) g = true ->
  stops (COr CDigit (CLit ".")) post ->
  ((forall p1 p2, pre = p1 ++ p2 -> p2 <> EmptyString ->
                  ~ starts PEAK_RAM_RE (p2 ++ "MEM" ++ ws ++ g ++ post)) ->
   peak_ram_usage (pre ++ "MEM" ++ ws ++ g ++ post) = Ok (Some (g ++ "%"))) /\
  ((forall p1 p2, pre = p1 ++ p2 -> p2 <> EmptyString ->
                  ~ starts PEAK_CPU_RE (p2 ++ "CPU" ++ ws ++ g ++ post)) ->
   peak_cpu_usage (pre ++ "CPU" ++ ws ++ g ++ post) = Ok (Some (g ++ "%"))).
Proof.
  intros Hne Hws Hg Hstop. split; intros Hfirst.
  - unfold peak_ram_usage. rewrite search_skip by exact Hfirst.
    assert (M : re_match PEAK_RAM_RE ("MEM" ++ ws ++ g ++ post) = Some (Some g)).
    { apply (labelled_match_here "MEM" (COr CDigit (CLit "."))); auto.
      apply digit_or_dot_not_space. }
    simpl append in *. simpl search. rewrite M. reflexivity.
  - unfold peak_cpu_usage. rewrite search_skip by exact Hfirst.
    assert (M : re_match PEAK_CPU_RE ("CPU" ++ ws ++ g ++ post) = Some (Some g)).
    { apply (labelled_match_here "CPU" (COr CDigit (CLit "."))); auto.
      apply digit_or_dot_not_space. }
    simpl append in *. simpl search. rewrite M. reflexivity.
Qed.

(** X2 on a line of ps, and on a run of dots that is no number. *)
Lemma peak_usage_first_occurrence_witness :
  peak_ram_usage ("%" ++ "MEM" ++ " " ++ "23.5" ++ " other text") = Ok (Some "23.5%") /\
  peak_cpu_usage ("%" ++ "CPU" ++ "  " ++ "1.2.3" ++ " idle") = Ok (Some "1.2.3%").
Proof.
  split.
  - refine (proj1 (peak_usage_first_occurrence "%" " " "23.5" " other text" _ _ _ _) _).
    + discriminate.
    + reflexivity.
    + reflexivity.
    + reflexivity.
    + apply no_match_before_spec. vm_compute. reflexivity.
  - refine (proj2 (peak_usage_first_occurrence "%" "  " "1.2.3" " idle" _ _ _ _) _).
    + discriminate.
    + reflexivity.
    + reflexivity.
    + reflexivity.
    + apply no_match_before_spec. vm_compute. reflexivity.
Defined.

End ParserOccurrences.

(** ** The collector, event by event *)

Section CollectorRuns.
Import ResultsCollector.
Local Open Scope list_scope.

Lemma update_same_values {K V : Type} `{EqDec K} (k : K) (f : V -> V) (d : ODict.t K V) :
  (forall v, f v = v) -> ODict.update k f d = d.
Proof.
  intros Hf. induction d as [|[k' v'] d IH]; simpl; [reflexivity|].
  destruct (eq_dec k k'); [now rewrite Hf | now rewrite IH].
Qed.

Lemma update_ext {K V : Type} `{EqDec K} (k : K) (f g : V -> V) (d : ODict.t K V) :
  (forall v, f v = g v) -> ODict.update k f d = ODict.update k g d.
Proof.
  intros Hf. induction d as [|[k' v'] d IH]; simpl; [reflexivity|].
  destruct (eq_dec k k'); [now rewrite Hf | now rewrite IH].
Qed.

Lemma assigned_same_tasks (result : event) (f : Task -> Task) (reg : registry) :
  (forall t, f t = t) -> assigned result f reg = reg.
Proof.
  intros Hf. unfold assigned. apply update_same_values. intros [a ts]. simpl.
  now rewrite (update_same_values _ f ts Hf).
Qed.

Lemma assigned_assigned (result : event) (f g : Task -> Task) (reg : registry) :
  assigned result f (assigned result g reg) = assigned result (fun t => f (g t)) reg.
Proof.
  unfold assigned. rewrite update_update. apply update_ext. intros [a ts]. simpl.
  now rewrite update_update.
Qed.

(** [v2_runner_on_ok], step by step. *)
Lemma v2_runner_on_ok_run (result : event) (w : world) :
  v2_runner_on_ok result w
  = match ODict.get (Some (ev_host result)) (hosts w) with
    | None => (w, Raise (KeyError (ev_host result)))
    | Some h =>
        match ODict.get (ev_task result) (tasks h) with
        | None => (w, Raise (KeyError (ev_task result)))
        | Some t =>
            match task_name t with
            | Raise e => (w, Raise e)
            | Ok name =>
                match module_getattr name with
                | Raise e => (w, Raise e)
                | Ok f =>
                    match f (py_str (ev_stdout result)) with
                    | Raise e =>
                        (with_parsed
                           (fun l => l ++ [(yaml_str name, py_str (ev_stdout result))]) w,
                         Raise e)
                    | Ok r =>
                        (with_hosts
                           (assigned result (mark_ok r (ev_rc result)))
                           (with_parsed
                              (fun l => l ++ [(yaml_str name, py_str (ev_stdout result))])
                              w),
                         Ok tt)
                    end
                end
            end
        end
    end.
Proof.
  destruct w as [hs err ps inv rep].
  unfold v2_runner_on_ok. rewrite bind_run, get_task_run. cbn [hosts].
  destruct (ODict.get _ hs) as [h|]; [|reflexivity].
  destruct (ODict.get _ (tasks h)) as [t|]; [|reflexivity].
  rewrite bind_run. unfold lift at 1.
  destruct (task_name t) as [name|e]; [|reflexivity].
  rewrite bind_run. unfold lift at 1.
  destruct (module_getattr name) as [cb|e]; [|reflexivity].
  rewrite bind_run. unfold call_parser. rewrite bind_run. unfold modify at 1, lift at 1.
  destruct (cb (py_str (ev_stdout result))) as [r|e]; [|reflexivity].
  rewrite bind_run, assign_run, bind_run, assign_run, assign_run.
  unfold with_hosts, with_parsed. cbn [hosts stderr parsed inventory_yml report_csv].
  rewrite !assigned_assigned. reflexivity.
Qed.

(** [v2_runner_on_failed], step by step. *)
Lemma v2_runner_on_failed_run (result : event) (w : world) :
  v2_runner_on_failed result w
  = match ODict.get (Some (ev_host result)) (hosts w) with
    | None => (w, Raise (KeyError (ev_host result)))
    | Some h =>
        match ODict.get (ev_task result) (tasks h) with
        | None => (w, Raise (KeyError (ev_task result)))
        | Some t =>
            match task_name t with
            | Raise e =>
                (with_hosts (assigned result (mark_failed (ev_rc result))) w, Raise e)
            | Ok name =>
                (with_stderr (fun l => l ++ ["Error: " ++ yaml_str name ++ " failed"]%string)
                   (with_hosts (assigned result (mark_failed (ev_rc result))) w),
                 Ok tt)
            end
        end
    end.
Proof.
  destruct w as [hs err ps inv rep].
  unfold v2_runner_on_failed. rewrite bind_run, get_task_run. cbn [hosts].
  destruct (ODict.get _ hs) as [h|]; [|reflexivity].
  destruct (ODict.get _ (tasks h)) as [t|]; [|reflexivity].
  rewrite bind_run, assign_run, bind_run, assign_run, bind_run.
  unfold lift, print_err, modify, with_hosts, with_stderr.
  cbn [hosts stderr parsed inventory_yml report_csv].
  rewrite assigned_assigned.
  destruct (task_name t); reflexivity.
Qed.

(** [v2_runner_on_unreachable], step by step. *)
Lemma v2_runner_on_unreachable_run (result : event) (w : world) :
  v2_runner_on_unreachable result w
  = match ODict.get (Some (ev_host result)) (hosts w) with
    | None => (w, Raise (KeyError (ev_host result)))
    | Some h =>
        match ODict.get (ev_task result) (tasks h) with
        | None => (w, Raise (KeyError (ev_task result)))
        | Some t =>
            match field h "name" with
            | Raise e =>
                (with_hosts (assigned result (mark_failed (ev_rc result))) w, Raise e)
            | Ok name =>
                match field h "public_ip_address" with
                | Raise e =>
                    (with_hosts (assigned result (mark_failed (ev_rc result))) w, Raise e)
                | Ok ip =>
                    (with_stderr
                       (fun l => l ++ ["Error: " ++ py_str name ++ " (" ++ py_str ip
                                         ++ ") unreachable"]%string)
                       (with_hosts (assigned result (mark_failed (ev_rc result))) w),
                     Ok tt)
                end
            end
        end
    end.
Proof.
  destruct w as [hs err ps inv rep].
  unfold v2_runner_on_unreachable. rewrite bind_run, get_host_run. cbn [hosts].
  destruct (ODict.get _ hs) as [h|] eqn:G; [|reflexivity].
  rewrite bind_run, get_task_run. cbn [hosts]. rewrite G.
  destruct (ODict.get _ (tasks h)) as [t|]; [|reflexivity].
  rewrite bind_run, assign_run, bind_run, assign_run, bind_run.
  unfold lift, print_err, modify, with_hosts, with_stderr.
  cbn [hosts stderr parsed inventory_yml report_csv].
  rewrite assigned_assigned.
  destruct (field h "name"); [|reflexivity].
  rewrite bind_run.
  destruct (field h "public_ip_address"); reflexivity.
Qed.

End CollectorRuns.

Section CollectorEvents.
Import ResultsCollector.
Local Open Scope list_scope.

Lemma task_at_some (reg : registry) (k : option string) (tk : string) (t : Task) :
  task_at reg k tk = Some t ->
  exists h, ODict.get k reg = Some h /\ ODict.get tk (tasks h) = Some t.
Proof.
  unfold task_at. destruct (ODict.get k reg) as [h|]; [eauto | discriminate].
Qed.

Lemma task_at_none (reg : registry) (k : option string) (tk : string) :
  task_at reg k tk = None ->
  ODict.get k reg = None \/
  exists h, ODict.get k reg = Some h /\ ODict.get tk (tasks h) = None.
Proof.
  unfold task_at. destruct (ODict.get k reg) as [h|]; [right; eauto | now left].
Qed.

(** The task result after a success event whose parser returned. *)
Lemma on_ok_task_result (result : event) (w : world) (t : Task)
      (name : string) (f : parser) (r : option string) :
  task_at (hosts w) (Some (ev_host result)) (ev_task result) = Some t ->
  ODict.get "name" (task_kwargs t) = Some (YStr name) ->
  module_getattr (YStr name) = Ok f ->
  f (py_str (ev_stdout result)) = Ok r ->
  task_at (hosts (fst (v2_runner_on_ok result w))) (Some (ev_host result)) (ev_task result)
  = Some (mark_ok r (ev_rc result) t).
Proof.
  intros T Hname Hf Hr. destruct (task_at_some _ _ _ _ T) as (h & G & Gt).
  rewrite v2_runner_on_ok_run, G, Gt. unfold task_name. rewrite Hname, Hf, Hr.
  cbn [fst hosts with_hosts with_parsed].
  rewrite task_at_assigned_same, T. reflexivity.
Qed.

(** X3.  A success event for a task whose name is that of a parser, when
    the parser returns [r] on the text of the event's output ([None] when
    the output is absent), returns normally and leaves the task result with
    [callback_result] [r], [exit_status] the text of the return code and
    [task_failed] [False]; every other task result is as before, nothing is
    printed, and exactly one parser call is recorded. *)
Theorem v2_runner_on_ok_records (result : event) (w : world) (t : Task)
        (name : string) (f : parser) (r : option string) :
  task_at (hosts w) (Some (ev_host result)) (ev_task result) = Some t ->
  ODict.get "name" (task_kwargs t) = Some (YStr name) ->
  module_getattr (YStr name) = Ok f ->
  f (py_str (ev_stdout result)) = Ok r ->
  snd (v2_runner_on_ok result w) = Ok tt /\
  task_at (hosts (fst (v2_runner_on_ok result w))) (Some (ev_host result)) (ev_task result)
  = Some (mkTask (task_kwargs t) r (Some (py_str_Z (ev_rc result))) (Some false)) /\
  (forall k tk,
     (k, tk) <> (Some (ev_host result), ev_task result) ->
     task_at (hosts (fst (v2_runner_on_ok result w))) k tk = task_at (hosts w) k tk) /\
  stderr (fst (v2_runner_on_ok result w)) = stderr w /\
  parsed (fst (v2_runner_on_ok result w))
  = parsed w ++ [(name, py_str (ev_stdout result))].
Proof.
  intros T Hname Hf Hr. destruct (task_at_some _ _ _ _ T) as (h & G & Gt).
  rewrite v2_runner_on_ok_run, G, Gt. unfold task_name. rewrite Hname, Hf, Hr.
  cbn [fst snd hosts stderr parsed with_hosts with_parsed yaml_str].
  split; [reflexivity|]. split; [|split; [|split; reflexivity]].
  - rewrite task_at_assigned_same, T. reflexivity.
  - intros k tk N. now apply task_at_assigned_other.
Qed.

(** X3 on the first success of the sample run. *)
Lemma v2_runner_on_ok_records_witness :
  task_at (hosts (fst (v2_runner_on_ok (Sample.ok_event "ram_amount") Sample2.ready_world)))
          (Some "vm1") "ram_amount"
  = Some (mkTask [ ("name", YStr "ram_amount");
                   ("shell", YStr "grep MemTotal /proc/meminfo") ]
                 (Some "8 GB") (Some "0") (Some false)).
Proof.
  refine (proj1 (proj2
    (v2_runner_on_ok_records (Sample.ok_event "ram_amount") Sample2.ready_world
       (mkTask [ ("name", YStr "ram_amount");
                 ("shell", YStr "grep MemTotal /proc/meminfo") ] None None None)
       "ram_amount" ansible_callbacks.ram_amount (Some "8 GB") _ _ _ _))).
  - reflexivity.
  - reflexivity.
  - reflexivity.
  - vm_compute. reflexivity.
Defined.

(** X4.  A success event that raises, whatever the reason (no such host or
    task, no parser of that name, a parser that raises), has written
    nothing: the registry, the diagnostics and the files are as before. *)
Theorem v2_runner_on_ok_all_or_nothing (result : event) (w : world) (e : exn) :
  snd (v2_runner_on_ok result w) = Raise e ->
  hosts (fst (v2_runner_on_ok result w)) = hosts w /\
  stderr (fst (v2_runner_on_ok result w)) = stderr w /\
  inventory_yml (fst (v2_runner_on_ok result w)) = inventory_yml w /\
  report_csv (fst (v2_runner_on_ok result w)) = report_csv w.
Proof.
  rewrite v2_runner_on_ok_run.
  destruct (ODict.get _ (hosts w)) as [h|]; [|now intros _].
  destruct (ODict.get _ (tasks h)) as [t|]; [|now intros _].
  destruct (task_name t) as [name|e1]; [|now intros _].
  destruct (module_getattr name) as [f|e1]; [|now intros _].
  destruct (f (py_str (ev_stdout result))) as [r|e1]; [discriminate | now intros _].
Qed.

(** X4 on an output whose amount is beyond the doubles: [ram_amount]
    raises [OverflowError] and the task result stays as it was. *)
Lemma v2_runner_on_ok_all_or_nothing_witness :
  snd (v2_runner_on_ok Sample2.huge_event Sample2.ready_world) = Raise OverflowError /\
  hosts (fst (v2_runner_on_ok Sample2.huge_event Sample2.ready_world))
  = hosts Sample2.ready_world.
Proof.
  assert (E : snd (v2_runner_on_ok Sample2.huge_event Sample2.ready_world)
              = Raise OverflowError) by (vm_compute; reflexivity).
  split; [exact E|].
  exact (proj1 (v2_runner_on_ok_all_or_nothing Sample2.huge_event Sample2.ready_world
                  OverflowError E)).
Defined.

(** X5.  An event for a host the registry does not hold, or for a task the
    host does not hold, raises [KeyError] with the missing key, whatever its
    kind, and leaves the world as it was. *)
Theorem unknown_host_or_task_raises (result : event) (w : world) :
  task_at (hosts w) (Some (ev_host result)) (ev_task result) = None ->
  (ODict.get (Some (ev_host result)) (hosts w) = None /\
   handle result w = (w, Raise (KeyError (ev_host result)))) \/
  (ODict.get (Some (ev_host result)) (hosts w) <> None /\
   handle result w = (w, Raise (KeyError (ev_task result)))).
Proof.
  intros T. unfold handle.
  destruct (task_at_none _ _ _ T) as [G|(h & G & Gt)]; [left | right];
    (split; [congruence|]);
    destruct (ev_kind result);
    rewrite ?v2_runner_on_ok_run, ?v2_runner_on_failed_run, ?v2_runner_on_unreachable_run,
      G, ?Gt; reflexivity.
Qed.

(** X5 on the task declared [RAM_Amount]: its failure event finds nothing
    under that name. *)
Lemma unknown_host_or_task_raises_witness :
  handle (mkEvent RunnerFailed "vm1" "RAM_Amount" None (Some 2%Z)) Sample2.ready_world
  = (Sample2.ready_world, Raise (KeyError "RAM_Amount")).
Proof.
  destruct (unknown_host_or_task_raises
              (mkEvent RunnerFailed "vm1" "RAM_Amount" None (Some 2%Z))
              Sample2.ready_world eq_refl) as [[G _]|[_ E]].
  - vm_compute in G. discriminate G.
  - exact E.
Defined.

(** X6.  Whichever of a success and a failure event for one task comes
    last decides [exit_status] and [task_failed]; the [callback_result] is
    the one of the success event in both orders, since a failure event does
    not touch it. *)
Theorem last_event_wins (ok failed : event) (w : world) (t : Task)
        (name : string) (f : parser) (r : option string) :
  ev_host failed = ev_host ok ->
  ev_task failed = ev_task ok ->
  task_at (hosts w) (Some (ev_host ok)) (ev_task ok) = Some t ->
  ODict.get "name" (task_kwargs t) = Some (YStr name) ->
  module_getattr (YStr name) = Ok f ->
  f (py_str (ev_stdout ok)) = Ok r ->
  task_at (hosts (fst (v2_runner_on_failed failed (fst (v2_runner_on_ok ok w)))))
          (Some (ev_host ok)) (ev_task ok)
  = Some (mkTask (task_kwargs t) r (Some (py_str_Z (ev_rc failed))) (Some true)) /\
  task_at (hosts (fst (v2_runner_on_ok ok (fst (v2_runner_on_failed failed w)))))
          (Some (ev_host ok)) (ev_task ok)
  = Some (mkTask (task_kwargs t) r (Some (py_str_Z (ev_rc ok))) (Some false)).
Proof.
  intros Eh Et T Hname Hf Hr. split.
  - pose proof (on_ok_task_result ok w t name f r T Hname Hf Hr) as T1.
    unfold mark_ok in T1.
    set (w1 := fst (v2_runner_on_ok ok w)) in *.
    destruct (task_at_some _ _ _ _ T1) as (h1 & G1 & Gt1).
    rewrite v2_runner_on_failed_run, Eh, Et, G1, Gt1.
    assert (A : task_at (hosts (with_hosts (assigned failed (mark_failed (ev_rc failed))) w1))
                        (Some (ev_host ok)) (ev_task ok)
                = Some (mkTask (task_kwargs t) r (Some (py_str_Z (ev_rc failed))) (Some true))).
    { cbn [hosts with_hosts].
      pose proof (task_at_assigned_same failed (mark_failed (ev_rc failed)) (hosts w1))
        as X.
      rewrite Eh, Et in X. rewrite X, T1. reflexivity. }
    destruct (task_name _); exact A.
  - destruct (task_at_some _ _ _ _ T) as (h & G & Gt).
    assert (T1 : task_at (hosts (fst (v2_runner_on_failed failed w)))
                         (Some (ev_host ok)) (ev_task ok)
                 = Some (mark_failed (ev_rc failed) t)).
    { rewrite v2_runner_on_failed_run, Eh, Et, G, Gt.
      assert (A : task_at (assigned failed (mark_failed (ev_rc failed)) (hosts w))
                          (Some (ev_host ok)) (ev_task ok)
                  = Some (mark_failed (ev_rc failed) t)).
      { pose proof (task_at_assigned_same failed (mark_failed (ev_rc failed)) (hosts w))
          as X.
        rewrite Eh, Et in X. rewrite X, T. reflexivity. }
      destruct (task_name t); exact A. }
    exact (on_ok_task_result ok (fst (v2_runner_on_failed failed w))
             (mark_failed (ev_rc failed) t) name f r T1 Hname Hf Hr).
Qed.

(** X6 on the sample task: succeeded with [8 GB], then failed with code 1. *)
Lemma last_event_wins_witness :
  task_at (hosts (fst (v2_runner_on_failed Sample.failed_event
                         (fst (v2_runner_on_ok (Sample.ok_event "ram_amount")
                                 Sample2.ready_world)))))
          (Some "vm1") "ram_amount"
  = Some (mkTask [ ("name", YStr "ram_amount");
                   ("shell", YStr "grep MemTotal /proc/meminfo") ]
                 (Some "8 GB") (Some "1") (Some true)).
Proof.
  refine (proj1
    (last_event_wins (Sample.ok_event "ram_amount") Sample.failed_event
       Sample2.ready_world
       (mkTask [ ("name", YStr "ram_amount");
                 ("shell", YStr "grep MemTotal /proc/meminfo") ] None None None)
       "ram_amount" ansible_callbacks.ram_amount (Some "8 GB") _ _ _ _ _ _)).
  - reflexivity.
  - reflexivity.
  - reflexivity.
  - reflexivity.
  - reflexivity.
  - vm_compute. reflexivity.
Defined.

End CollectorEvents.

Section CollectorInvariants.
Import ResultsCollector Main.
Local Open Scope list_scope.

Lemma shape_assigned (result : event) (g : Task -> Task) (reg : registry) :
  (forall t, task_kwargs (g t) = task_kwargs t) ->
  shape (assigned result g reg) = shape reg.
Proof.
  intros Hg. unfold shape, assigned.
  induction reg as [|[k h] reg IH]; simpl; [reflexivity|].
  destruct (eq_dec (Some (ev_host result)) k); simpl; [|now rewrite IH].
  f_equal. f_equal. f_equal.
  induction (tasks h) as [|[tk t] ts IHt]; simpl; [reflexivity|].
  destruct (eq_dec (ev_task result) tk); simpl; [now rewrite Hg | now rewrite IHt].
Qed.

(** What one event leaves of the world: the registry up to the result
    fields of one task, and the files. *)
Lemma handle_shape (result : event) (w : world) :
  shape (hosts (fst (handle result w))) = shape (hosts w) /\
  inventory_yml (fst (handle result w)) = inventory_yml w /\
  report_csv (fst (handle result w)) = report_csv w.
Proof.
  unfold handle. destruct (ev_kind result).
  - rewrite v2_runner_on_ok_run.
    destruct (ODict.get _ (hosts w)) as [h|]; [|now repeat split].
    destruct (ODict.get _ (tasks h)) as [t|]; [|now repeat split].
    destruct (task_name t) as [name|e]; [|now repeat split].
    destruct (module_getattr name) as [f|e]; [|now repeat split].
    destruct (f (py_str (ev_stdout result))) as [r|e]; [|now repeat split].
    cbn [fst hosts with_hosts with_parsed inventory_yml report_csv].
    split; [|split; reflexivity]. now apply shape_assigned.
  - rewrite v2_runner_on_failed_run.
    destruct (ODict.get _ (hosts w)) as [h|]; [|now repeat split].
    destruct (ODict.get _ (tasks h)) as [t|]; [|now repeat split].
    destruct (task_name t);
      cbn [fst hosts with_hosts with_stderr inventory_yml report_csv];
      (split; [now apply shape_assigned | split; reflexivity]).
  - rewrite v2_runner_on_unreachable_run.
    destruct (ODict.get _ (hosts w)) as [h|]; [|now repeat split].
    destruct (ODict.get _ (tasks h)) as [t|]; [|now repeat split].
    destruct (field h "name"); [destruct (field h "public_ip_address")|];
      cbn [fst hosts with_hosts with_stderr inventory_yml report_csv];
      (split; [now apply shape_assigned | split; reflexivity]).
Qed.

(** X7.  Whatever events the engine delivers, in whatever order, the run
    changes nothing of the registry but the three result fields of tasks:
    the hosts, their order and attributes, the tasks of each host and the
    mapping each task was built from are as before; no file is touched; and
    [executor.run()] itself never raises. *)
Theorem executor_run_keeps_shape (events : list event) (w : world) :
  snd (executor_run events w) = Ok tt /\
  shape (hosts (fst (executor_run events w))) = shape (hosts w) /\
  inventory_yml (fst (executor_run events w)) = inventory_yml w /\
  report_csv (fst (executor_run events w)) = report_csv w.
Proof.
  revert w. induction events as [|ev events IH]; intros w.
  - repeat split.
  - change (executor_run (ev :: events) w)
      with (executor_run events (fst (handle ev w))).
    destruct (IH (fst (handle ev w))) as (R & S & I & Rp).
    destruct (handle_shape ev w) as (S' & I' & Rp').
    rewrite R, S, I, Rp. repeat split; assumption.
Qed.

(** X8.  An unreachable event for a host that has a name but no
    [public_ip_address] attribute marks the task failed and then raises
    [AttributeError] while building the diagnostic: the task result is
    written, and no line is printed. *)
Theorem unreachable_without_address (result : event) (w : world) (h : Host) (t : Task)
        (name : option string) :
  ODict.get (Some (ev_host result)) (hosts w) = Some h ->
  ODict.get (ev_task result) (tasks h) = Some t ->
  field h "name" = Ok name ->
  ODict.get "public_ip_address" (host_attrs h) = None ->
  snd (v2_runner_on_unreachable result w) = Raise (AttributeError "public_ip_address") /\
  task_at (hosts (fst (v2_runner_on_unreachable result w)))
          (Some (ev_host result)) (ev_task result)
  = Some (mark_failed (ev_rc result) t) /\
  stderr (fst (v2_runner_on_unreachable result w)) = stderr w.
Proof.
  intros G Gt Hn Hip.
  assert (F : field h "public_ip_address" = Raise (AttributeError "public_ip_address"))
    by (unfold field; now rewrite Hip).
  rewrite v2_runner_on_unreachable_run, G, Gt, Hn, F.
  cbn [fst snd hosts with_hosts stderr].
  split; [reflexivity|]. split; [|reflexivity].
  rewrite task_at_assigned_same. unfold task_at. now rewrite G, Gt.
Qed.

(** X8 on the host read from a file without an address column. *)
Lemma unreachable_without_address_witness :
  snd (v2_runner_on_unreachable Sample2.bare_unreachable Sample2.bare_world)
  = Raise (AttributeError "public_ip_address") /\
  option_map task_failed
    (task_at (hosts (fst (v2_runner_on_unreachable Sample2.bare_unreachable
                            Sample2.bare_world)))
       (Some "vm3") "ram_amount")
  = Some (Some true).
Proof.
  destruct (unreachable_without_address Sample2.bare_unreachable Sample2.bare_world
              (mkHost [("name", Some "vm3"); ("status", Some "Running")]
                 [("ram_amount",
                   mkTask [ ("name", YStr "ram_amount");
                            ("shell", YStr "grep MemTotal /proc/meminfo") ]
                          None None None)])
              (mkTask [ ("name", YStr "ram_amount");
                        ("shell", YStr "grep MemTotal /proc/meminfo") ] None None None)
              (Some "vm3") eq_refl eq_refl eq_refl eq_refl) as (E & T & _).
  split; [exact E|].
  cbn [ev_host ev_task Sample2.bare_unreachable] in T. rewrite T. reflexivity.
Defined.

(** X9.  A failure event for a task that exists returns normally and
    prints one line, [Error: <task name> failed]; an unreachable event for
    a task that exists on a host with a name and an address returns normally
    and prints one line, [Error: <name> (<address>) unreachable]. *)
Theorem failure_diagnostics (result : event) (w : world) (h : Host) (t : Task) :
  ODict.get (Some (ev_host result)) (hosts w) = Some h ->
  ODict.get (ev_task result) (tasks h) = Some t ->
  (forall name,
     ODict.get "name" (task_kwargs t) = Some name ->
     snd (v2_runner_on_failed result w) = Ok tt /\
     stderr (fst (v2_runner_on_failed result w))
     = stderr w ++ [("Error: " ++ yaml_str name ++ " failed")%string]) /\
  (forall name ip,
     field h "name" = Ok name ->
     field h "public_ip_address" = Ok ip ->
     snd (v2_runner_on_unreachable result w) = Ok tt /\
     stderr (fst (v2_runner_on_unreachable result w))
     = stderr w ++ [("Error: " ++ py_str name ++ " (" ++ py_str ip
                       ++ ") unreachable")%string]).
Proof.
  intros G Gt. split.
  - intros name Hn. rewrite v2_runner_on_failed_run, G, Gt.
    unfold task_name. rewrite Hn. split; reflexivity.
  - intros name ip Hn Hip. rewrite v2_runner_on_unreachable_run, G, Gt, Hn, Hip.
    split; reflexivity.
Qed.

(** X9 on the first sample host. *)
Lemma failure_diagnostics_witness :
  stderr (fst (v2_runner_on_failed Sample.failed_event Sample2.ready_world))
  = ["Error: ram_amount failed"%string] /\
  stderr (fst (v2_runner_on_unreachable Sample2.unreachable_vm1 Sample2.ready_world))
  = ["Error: vm1 (10.0.0.4) unreachable"%string].
Proof.
  pose (t := mkTask [ ("name", YStr "ram_amount");
                      ("shell", YStr "grep MemTotal /proc/meminfo") ] None None None).
  pose (h := mkHost (host_attrs Sample.vm1) [("ram_amount", t)]).
  split.
  - destruct (failure_diagnostics Sample.failed_event Sample2.ready_world h t
                eq_refl eq_refl) as (F & _).
    exact (proj2 (F (YStr "ram_amount") eq_refl)).
  - destruct (failure_diagnostics Sample2.unreachable_vm1 Sample2.ready_world h t
                eq_refl eq_refl) as (_ & U).
    exact (proj2 (U (Some "vm1") (Some "10.0.0.4") eq_refl eq_refl)).
Defined.

End CollectorInvariants.

(** ** Loading the hosts file and the playbook *)

Section LoadingFacts.
Local Open Scope list_scope.

Lemma hosts_of_rows_raises (rows : list dict_row) (e : exn) :
  Azure.hosts_of_rows rows = Raise e -> e = TypeError \/ e = KeyError "name".
Proof.
  unfold Azure.hosts_of_rows. generalize (@nil (option string * Host)).
  induction rows as [|r rows IH]; intros acc; simpl; [discriminate|].
  unfold Azure.row_name at 1, Azure.new_host at 1.
  destruct (ODict.get "name" (row_fields r)); simpl; [|intros [= <-]; now right].
  destruct (row_rest r); simpl; [intros [= <-]; now left|].
  destruct (ODict.mem "tasks" (row_fields r)); simpl; [intros [= <-]; now left|].
  apply IH.
Qed.

(** [load_from_csv] on a file that opens: the world stays, and the result
    is that of the steps in turn. *)
Lemma load_from_csv_opened (doc : document) (w : world) :
  Azure.load_from_csv (Some doc) w
  = (w, rbind (Azure.delimiter_of (line1 doc)) (fun d =>
        rbind (Azure.fieldlist_of d (line2 doc)) (fun fl =>
        rbind (Azure.DictReader fl d (records doc)) Azure.hosts_of_rows))).
Proof.
  unfold Azure.load_from_csv, try_except_IOError, Azure.open_r, bind, lift, ret.
  unfold Azure.delimiter_of.
  destruct (Str.split "=" (Str.strip Str.is_space (line1 doc))) as [|x [|d l]];
    try reflexivity.
  cbn [rbind]. unfold Azure.fieldlist_of, Azure.DictReader.
  destruct d as [|c d]; [reflexivity|]. cbn [rbind].
  destruct (String.length (String c d) =? 1)%nat; [|reflexivity]. cbn [rbind].
  match goal with
  | |- context [Azure.hosts_of_rows ?rows] =>
      destruct (Azure.hosts_of_rows rows) as [reg|e] eqn:E
  end; [reflexivity|].
  destruct (hosts_of_rows_raises _ _ E) as [-> | ->]; reflexivity.
Qed.

Lemma dict_of_keys (fl rec : list string) :
  forall (d : ODict.t string (option string)) (k : string),
    In k (ODict.keys (row_fields (Azure.dict_of fl rec d))) ->
    In k fl \/ In k (ODict.keys d).
Proof.
  revert rec. induction fl as [|f fl IH]; intros rec d k.
  - destruct rec; simpl; auto.
  - destruct rec as [|x rec].
    + cbn [Azure.dict_of row_fields].
      generalize (f :: fl). intros l. revert d.
      induction l as [|a l IHl]; intros d; simpl; [auto|].
      intros I. destruct (IHl _ I) as [I'|I']; [left; now right|].
      apply in_keys_set in I'. destruct I' as [->|I']; [left; now left | now right].
    + cbn [Azure.dict_of]. intros I. destruct (IH _ _ _ I) as [I'|I'].
      * left. now right.
      * apply in_keys_set in I'. destruct I' as [->|I']; [left; now left | now right].
Qed.

Lemma dict_of_rest (fl rec : list string) :
  forall d : ODict.t string (option string),
    List.length fl < List.length rec ->
    row_rest (Azure.dict_of fl rec d) <> None.
Proof.
  revert rec. induction fl as [|f fl IH]; intros rec d L.
  - destruct rec; simpl in *; [lia | discriminate].
  - destruct rec as [|x rec]; simpl in L; [lia|].
    cbn [Azure.dict_of]. apply IH. lia.
Qed.

(** A step that raises on [x] whatever the accumulator makes the loop
    raise when [x] is in the list. *)
Lemma fold_result_raises {A S : Type} (f : S -> A -> result S) (l : list A) (x : A) :
  In x l ->
  (forall s, exists e, f s x = Raise e) ->
  forall s, exists e, fold_result f l s = Raise e.
Proof.
  intros I Hx. induction l as [|y l IH]; intros s; [contradiction|].
  simpl. destruct (f s y) as [s'|e] eqn:E; simpl; [|eauto].
  destruct I as [->|I]; [|now apply IH].
  destruct (Hx s) as [e' E']. congruence.
Qed.

(** What the dictionary comprehension builds is keyed by name, and its
    hosts have no task. *)
Lemma hosts_of_rows_keyed (rows : list dict_row) (reg : registry) :
  Azure.hosts_of_rows rows = Ok reg ->
  keyed_by_name reg /\ (forall k h, In (k, h) reg -> tasks h = []).
Proof.
  intros E.
  destruct (hosts_of_rows_last rows reg E) as (ND & _ & Hget).
  assert (Hrow : forall k h, In (k, h) reg ->
                 exists r, Azure.row_name r = Ok k /\ Azure.new_host r = Ok h).
  { intros k h I. apply (in_get k reg h ND) in I. apply Hget in I.
    destruct I as (pre & r & post & _ & Hn & Hh & _). eauto. }
  split; [split; [exact ND|]|].
  - intros k h I. destruct (Hrow k h I) as (r & Hn & Hh).
    unfold Azure.row_name in Hn. unfold Azure.new_host in Hh.
    destruct (row_rest r); [discriminate|].
    destruct (ODict.mem "tasks" (row_fields r)); [discriminate|].
    injection Hh as <-. unfold field. simpl.
    destruct (ODict.get "name" (row_fields r)); [assumption | discriminate].
  - intros k h I. destruct (Hrow k h I) as (r & _ & Hh).
    unfold Azure.new_host in Hh.
    destruct (row_rest r); [discriminate|].
    destruct (ODict.mem "tasks" (row_fields r)); [discriminate|].
    now injection Hh as <-.
Qed.

(** A [load_from_csv] that returns has read the file and left the world as
    it was; the registry is what the comprehension built from the rows. *)
Lemma load_from_csv_rows (az : option document) (w w' : world) (reg : registry) :
  Azure.load_from_csv az w = (w', Ok reg) ->
  w' = w /\ exists rows, Azure.hosts_of_rows rows = Ok reg.
Proof.
  destruct az as [doc|]; [|discriminate].
  rewrite load_from_csv_opened. intros [= <- E]. split; [reflexivity|].
  destruct (Azure.delimiter_of (line1 doc)) as [d|]; [|discriminate].
  cbn [rbind] in E.
  destruct (Azure.fieldlist_of d (line2 doc)) as [fl|]; [|discriminate].
  cbn [rbind] in E.
  destruct (Azure.DictReader fl d (records doc)) as [rows|]; [|discriminate].
  cbn [rbind] in E. now exists rows.
Qed.

(** X10.  Every registry [load_from_csv] returns is keyed by name: no key
    comes twice, every host stands under the value of its own [name]
    attribute, and every host has an empty task dictionary; loading prints
    nothing and writes no file. *)
Theorem load_from_csv_keyed (doc : document) (w w' : world) (reg : registry) :
  Azure.load_from_csv (Some doc) w = (w', Ok reg) ->
  w' = w /\
  keyed_by_name reg /\
  (forall k h, In (k, h) reg -> tasks h = []).
Proof.
  intros E. destruct (load_from_csv_rows _ _ _ _ E) as (-> & rows & Er).
  split; [reflexivity|]. exact (hosts_of_rows_keyed rows reg Er).
Qed.

(** X10 on the file in which [vm1] comes twice. *)
Lemma load_from_csv_keyed_witness :
  keyed_by_name
    [ (Some "vm1", mkHost [("name", Some "vm1"); ("status", Some "Running")] []);
      (Some "vm2", mkHost [("name", Some "vm2"); ("status", Some "Running")] []) ].
Proof.
  refine (proj1 (proj2 (load_from_csv_keyed Sample.repeated_doc world0 world0 _ _))).
  vm_compute. reflexivity.
Defined.

(** X11.  When the header has no [name] column and the file has a record
    that is not empty, [load_from_csv] raises [KeyError] for [name]; the
    world is as before. *)
Theorem load_from_csv_without_name (doc : document) (w : world)
        (d : string) (fl rec : list string) :
  Azure.delimiter_of (line1 doc) = Ok d ->
  String.length d = 1 ->
  Azure.fieldlist_of d (line2 doc) = Ok fl ->
  ~ In "name"%string fl ->
  In rec (records doc) -> rec <> [] ->
  Azure.load_from_csv (Some doc) w = (w, Raise (KeyError "name")).
Proof.
  intros Ed Ld Ef Hno Irec Hne. rewrite load_from_csv_opened, Ed. cbn [rbind].
  rewrite Ef. cbn [rbind]. unfold Azure.DictReader. rewrite Ld. cbn [Nat.eqb rbind].
  f_equal.
  assert (Hrows : forall rows : list (list string),
             rows <> [] ->
             Azure.hosts_of_rows (map (fun r => Azure.dict_of fl r []) rows)
             = Raise (KeyError "name")).
  { intros [|r rows] Hr; [congruence|]. unfold Azure.hosts_of_rows. simpl.
    unfold Azure.row_name at 1.
    destruct (ODict.get "name" (row_fields (Azure.dict_of fl r []))) eqn:G;
      [|reflexivity].
    exfalso. assert (I : In "name"%string (ODict.keys (row_fields (Azure.dict_of fl r [])))).
    { change "name"%string with (fst ("name"%string, o)). apply in_map.
      revert G. generalize (row_fields (Azure.dict_of fl r [])). clear.
      intros l. induction l as [|[k v] l IH]; simpl; [discriminate|].
      destruct (eq_dec "name"%string k) as [<-|N].
      - intros [= ->]. now left.
      - intros G. right. now apply IH. }
    apply dict_of_keys in I. destruct I as [I|[]]. contradiction. }
  apply Hrows. intros E.
  assert (I : In rec (filter (fun r => negb (Azure.is_nil r)) (records doc))).
  { apply filter_In. split; [assumption|]. destruct rec; [congruence | reflexivity]. }
  rewrite E in I. contradiction.
Qed.

(** X11 on a file whose header reads HOST,STATUS. *)
Lemma load_from_csv_without_name_witness :
  Azure.load_from_csv (Some nameless_doc) world0 = (world0, Raise (KeyError "name")).
Proof.
  refine (load_from_csv_without_name nameless_doc world0 "," ["host"; "status"]%string
            ["vm1"; "Running"]%string _ _ _ _ _ _).
  - reflexivity.
  - reflexivity.
  - reflexivity.
  - simpl. intuition discriminate.
  - simpl. now left.
  - discriminate.
Defined.

(** X12.  A record with more cells than the header has columns makes
    [load_from_csv] raise, with [TypeError] or, when the name column is
    missing as well, [KeyError]: it returns no registry, whatever the other
    records are, and the world is as before. *)
Theorem load_from_csv_long_record (doc : document) (w : world)
        (d : string) (fl rec : list string) :
  Azure.delimiter_of (line1 doc) = Ok d ->
  Azure.fieldlist_of d (line2 doc) = Ok fl ->
  In rec (records doc) ->
  List.length fl < List.length rec ->
  exists e,
    Azure.load_from_csv (Some doc) w = (w, Raise e) /\
    (e = TypeError \/ e = KeyError "name").
Proof.
  intros Ed Ef Irec L. rewrite load_from_csv_opened, Ed. cbn [rbind].
  rewrite Ef. cbn [rbind]. unfold Azure.DictReader.
  destruct (String.length d =? 1)%nat; cbn [rbind]; [|exists TypeError; auto].
  assert (I : In (Azure.dict_of fl rec [])
                 (map (fun r => Azure.dict_of fl r [])
                    (filter (fun r => negb (Azure.is_nil r)) (records doc)))).
  { apply (in_map (fun r => Azure.dict_of fl r [])). apply filter_In.
    split; [assumption|]. destruct rec; [simpl in L; lia | reflexivity]. }
  destruct (fold_result_raises
              (fun acc r =>
                 rbind (Azure.row_name r) (fun k =>
                 rbind (Azure.new_host r) (fun h => Ok (ODict.set k h acc))))
              _ _ I) with (s := @nil (option string * Host)) as [e E].
  { intros s. destruct (Azure.row_name (Azure.dict_of fl rec [])); simpl; [|eauto].
    unfold Azure.new_host.
    destruct (row_rest (Azure.dict_of fl rec [])) eqn:R; simpl; [eauto|].
    exfalso. now apply (dict_of_rest fl rec [] L). }
  exists e. fold (Azure.hosts_of_rows
                    (map (fun r => Azure.dict_of fl r [])
                       (filter (fun r => negb (Azure.is_nil r)) (records doc)))) in E.
  rewrite E. split; [reflexivity|]. now apply (hosts_of_rows_raises _ _ E).
Qed.

(** X12 on a file whose second record has one cell too many. *)
Lemma load_from_csv_long_record_witness :
  exists e,
    Azure.load_from_csv (Some long_doc) world0 = (world0, Raise e) /\
    (e = TypeError \/ e = KeyError "name").
Proof.
  refine (load_from_csv_long_record long_doc world0 "," ["name"; "status"]%string
            ["vm2"; "Running"; "Linux"]%string _ _ _ _).
  - reflexivity.
  - reflexivity.
  - simpl. right. now left.
  - simpl. lia.
Defined.

End LoadingFacts.

Section PlaybookFacts.
Local Open Scope list_scope.

Lemma attach_fold (ts : list task_def) :
  forall h : Host,
    fold_result
      (fun h task =>
         rbind (Azure.new_task task) (fun t =>
         rbind (Azure.task_key task) (fun k =>
         Ok (mkHost (host_attrs h) (ODict.set k t (tasks h))))))
      ts h
    = rbind (fold_result task_step ts (tasks h))
            (fun d => Ok (mkHost (host_attrs h) d)).
Proof.
  induction ts as [|task ts IH]; intros [a d]; simpl; [reflexivity|].
  unfold task_step at 1.
  destruct (Azure.new_task task) as [t|e]; simpl; [|reflexivity].
  destruct (Azure.task_key task) as [k|e]; simpl; [|reflexivity].
  apply IH.
Qed.

Lemma attach_tasks_fold (pb : playbook) (h : Host) :
  Azure.attach_tasks pb h
  = rbind (Azure.tasks_of pb) (fun ts =>
    rbind (fold_result task_step ts (tasks h))
          (fun d => Ok (mkHost (host_attrs h) d))).
Proof.
  unfold Azure.attach_tasks. destruct (Azure.tasks_of pb) as [ts|e]; simpl;
    [apply attach_fold | reflexivity].
Qed.

Lemma task_fold_keys_grow (ts : list task_def) :
  forall (d d' : ODict.t string Task) (tk : string),
    fold_result task_step ts d = Ok d' ->
    In tk (ODict.keys d) -> In tk (ODict.keys d').
Proof.
  induction ts as [|task ts IH]; intros d d' tk E I; simpl in E.
  - now injection E as <-.
  - destruct (task_step d task) as [d1|e] eqn:S; [|discriminate]. simpl in E.
    apply (IH _ _ _ E). unfold task_step in S.
    destruct (Azure.new_task task); [|discriminate]. simpl in S.
    destruct (Azure.task_key task); [|discriminate]. simpl in S.
    injection S as <-. apply in_keys_set. now right.
Qed.

(** Every entry of the task dictionary after the loop was there before or
    is a fresh result built from a task of the play, under its key. *)
Lemma task_fold_fresh (ts : list task_def) :
  forall (d d' : ODict.t string Task),
    fold_result task_step ts d = Ok d' ->
    (forall tk t,
       ODict.get tk d' = Some t ->
       ODict.get tk d = Some t \/
       (t = mkTask (task_kwargs t) None None None /\
        In (task_kwargs t) ts /\ Azure.task_key (task_kwargs t) = Ok tk)) /\
    (forall def, In def ts ->
                 exists tk, Azure.task_key def = Ok tk /\ In tk (ODict.keys d')).
Proof.
  induction ts as [|task ts IH]; intros d d' E; simpl in E.
  - injection E as <-. split; [auto | intros def []].
  - destruct (task_step d task) as [d1|e] eqn:S; [|discriminate]. simpl in E.
    unfold task_step in S. unfold Azure.new_task in S.
    destruct (ODict.mem "callback_result" task || ODict.mem "exit_status" task
              || ODict.mem "task_failed" task); [discriminate|].
    simpl in S. destruct (Azure.task_key task) as [k|] eqn:K; [|discriminate].
    simpl in S. injection S as <-.
    destruct (IH _ _ E) as (Hfresh & Hcover). split.
    + intros tk t G. destruct (Hfresh tk t G) as [G1|(Et & I & Kt)].
      * destruct (eq_dec tk k) as [->|N].
        -- rewrite get_set_same in G1. injection G1 as <-. right. simpl.
           repeat split; [now left | exact K].
        -- rewrite (get_set_other k tk _ d N) in G1. now left.
      * right. repeat split; [assumption | now right | assumption].
    + intros def [<-|I].
      * exists k. split; [exact K|].
        apply (task_fold_keys_grow ts _ _ k E). apply in_keys_set. now left.
      * now apply Hcover.
Qed.

Lemma attach_all_uniform (pb : playbook) (ts : list task_def) (td : ODict.t string Task) :
  Azure.tasks_of pb = Ok ts ->
  fold_result task_step ts [] = Ok td ->
  forall reg : registry,
    (forall k h, In (k, h) reg -> tasks h = []) ->
    Azure.attach_all pb reg
    = Ok (map (fun kh => (fst kh, mkHost (host_attrs (snd kh)) td)) reg).
Proof.
  intros Ets Etd reg. induction reg as [|[k h] reg IH]; intros Hempty; simpl;
    [reflexivity|].
  rewrite attach_tasks_fold, Ets. simpl.
  rewrite (Hempty k h (or_introl eq_refl)), Etd. simpl.
  rewrite IH; [reflexivity|]. intros k' h' I. apply (Hempty k' h'). now right.
Qed.

Lemma keyed_by_name_attached (td : ODict.t string Task) (reg : registry) :
  keyed_by_name reg ->
  keyed_by_name (map (fun kh => (fst kh, mkHost (host_attrs (snd kh)) td)) reg).
Proof.
  intros [ND Hname]. split.
  - unfold ODict.keys in *. rewrite map_map. simpl. exact ND.
  - intros k h I. apply in_map_iff in I as ([k0 h0] & E & I). simpl in E.
    injection E as <- <-. unfold field. simpl. apply (Hname _ _ I).
Qed.

(** A [load_playbook] that returns has read the playbook, run the loops
    and left the world as it was. *)
Lemma load_playbook_returns (pbf : option playbook) (reg reg' : registry)
      (w w' : world) :
  Azure.load_playbook pbf reg w = (w', Ok reg') ->
  w' = w /\ exists pb, pbf = Some pb /\ Azure.attach_all pb reg = Ok reg'.
Proof.
  destruct pbf as [pb|]; [|discriminate]. intros E.
  unfold Azure.load_playbook, try_except_IOError, Azure.open_r, bind, lift, ret in E.
  destruct (Azure.attach_all pb reg) as [r|[]] eqn:A; try discriminate.
  injection E as <- <-. split; [reflexivity|]. exists pb. split; [reflexivity | exact A].
Qed.

(** On hosts without tasks, the loops give every host the dictionary the
    inner loop builds from the empty one. *)
Lemma attach_all_folded (pb : playbook) (reg reg' : registry) :
  (forall k h, In (k, h) reg -> tasks h = []) ->
  Azure.attach_all pb reg = Ok reg' ->
  reg = [] /\ reg' = [] \/
  exists ts td,
    Azure.tasks_of pb = Ok ts /\
    fold_result task_step ts [] = Ok td /\
    reg' = map (fun kh => (fst kh, mkHost (host_attrs (snd kh)) td)) reg.
Proof.
  intros Hempty A. destruct reg as [|[k h] reg].
  - simpl in A. injection A as <-. now left.
  - right.
    assert (X : exists ts td, Azure.tasks_of pb = Ok ts /\
                              fold_result task_step ts [] = Ok td).
    { simpl in A. rewrite attach_tasks_fold in A.
      destruct (Azure.tasks_of pb) as [ts|e]; [|discriminate]. simpl in A.
      rewrite (Hempty k h (or_introl eq_refl)) in A.
      destruct (fold_result task_step ts []) as [td|e] eqn:Etd; [|discriminate].
      exists ts, td. split; [reflexivity | exact Etd]. }
    destruct X as (ts & td & Ets & Etd). exists ts, td.
    rewrite (attach_all_uniform pb ts td Ets Etd _ Hempty) in A.
    injection A as <-. repeat split; assumption.
Qed.

(** X13.  On hosts that have no task yet, as [load_from_csv] leaves them,
    a [load_playbook] that returns has given every host one and the same
    task dictionary and changed nothing else of the registry: the hosts,
    their order and their attributes are as before.  Every entry of that
    dictionary is a fresh result (the three result fields [None]) built from
    a task of the first play and stored under that task's name in lower
    case, and every task of the play has its entry.  A registry keyed by
    name stays so.  Nothing is printed and no file is written. *)
Theorem load_playbook_attaches (pb : playbook) (reg reg' : registry) (w w' : world) :
  (forall k h, In (k, h) reg -> tasks h = []) ->
  Azure.load_playbook (Some pb) reg w = (w', Ok reg') ->
  w' = w /\
  (reg = [] /\ reg' = [] \/
   exists ts td,
     Azure.tasks_of pb = Ok ts /\
     reg' = map (fun kh => (fst kh, mkHost (host_attrs (snd kh)) td)) reg /\
     (forall tk t,
        ODict.get tk td = Some t ->
        t = mkTask (task_kwargs t) None None None /\
        In (task_kwargs t) ts /\
        Azure.task_key (task_kwargs t) = Ok tk) /\
     (forall def, In def ts ->
                  exists tk, Azure.task_key def = Ok tk /\ In tk (ODict.keys td))) /\
  (keyed_by_name reg -> keyed_by_name reg').
Proof.
  intros Hempty E.
  destruct (load_playbook_returns _ _ _ _ _ E) as (-> & pb' & [= <-] & A).
  split; [reflexivity|].
  destruct (attach_all_folded pb reg reg' Hempty A)
    as [[-> ->]|(ts & td & Ets & Etd & ->)].
  - split; [now left | auto].
  - destruct (task_fold_fresh ts [] td Etd) as (Hfresh & Hcover). split.
    + right. exists ts, td. split; [assumption|]. split; [reflexivity|].
      split; [|assumption].
      intros tk t G. destruct (Hfresh tk t G) as [G0|F]; [discriminate | exact F].
    + intros K. exact (keyed_by_name_attached td _ K).
Qed.

(** X13 on the two sample hosts and the sample playbook: both hosts get the
    one task [ram_amount] with empty result fields. *)
Lemma load_playbook_attaches_witness :
  world0 = world0 /\
  (Sample.two_hosts = [] /\ Sample2.with_ram = [] \/
   exists ts td,
     Azure.tasks_of Sample.pb = Ok ts /\
     Sample2.with_ram
     = map (fun kh => (fst kh, mkHost (host_attrs (snd kh)) td)) Sample.two_hosts /\
     (forall tk t,
        ODict.get tk td = Some t ->
        t = mkTask (task_kwargs t) None None None /\
        In (task_kwargs t) ts /\
        Azure.task_key (task_kwargs t) = Ok tk) /\
     (forall def, In def ts ->
                  exists tk, Azure.task_key def = Ok tk /\ In tk (ODict.keys td))) /\
  (keyed_by_name Sample.two_hosts -> keyed_by_name Sample2.with_ram).
Proof.
  apply (load_playbook_attaches Sample.pb Sample.two_hosts Sample2.with_ram
                                world0 world0).
  - intros k h [E|[E|[]]]; injection E as <- <-; reflexivity.
  - vm_compute. reflexivity.
Defined.

End PlaybookFacts.

Section FilterComposition.
Context `{ReModule}.
Local Open Scope list_scope.

(** The predicates are evaluated in order, and the evaluation stops at the
    first that fails or raises. *)
Lemma has_fields_app (h : Host) (fs1 fs2 : list (string * string)) :
  has_fields h (fs1 ++ fs2)
  = rbind (has_fields h fs1) (fun b => if b then has_fields h fs2 else Ok false).
Proof.
  induction fs1 as [|[k v] fs1 IH]; [reflexivity|].
  simpl app. rewrite !has_fields_cons.
  destruct (getattr h (Str.lower k)) as [a|e]; simpl; [|reflexivity].
  destruct (attr_lower a) as [s|e]; simpl; [|reflexivity].
  destruct (re_match (Str.lower v) s) as [[]|e]; simpl; [exact IH | reflexivity..].
Qed.

Lemma selected_app (fs1 fs2 : list (string * string)) (kh : value * Host) :
  selected (fs1 ++ fs2) kh = selected fs1 kh && selected fs2 kh.
Proof.
  unfold selected. rewrite has_fields_app.
  destruct (has_fields (snd kh) fs1) as [[]|e]; reflexivity.
Qed.

Lemma filter_selected_app (fs1 fs2 : list (string * string)) (reg : registry) :
  filter (selected (fs1 ++ fs2)) reg
  = filter (selected fs2) (filter (selected fs1) reg).
Proof.
  induction reg as [|kh reg IH]; simpl; [reflexivity|].
  rewrite selected_app. destruct (selected fs1 kh); simpl; [|exact IH].
  destruct (selected fs2 kh); now rewrite IH.
Qed.

(** A loop of [filter_hosts] that ends has evaluated the predicates on
    every host. *)
Lemma filter_loop_evaluated (fs : list (string * string)) (hs : list Host) :
  forall acc sel : registry,
    fold_result (filter_step fs) hs acc = Ok sel ->
    forall h, In h hs -> exists b, has_fields h fs = Ok b.
Proof.
  induction hs as [|h0 hs IH]; intros acc sel E h I; [destruct I|].
  simpl in E. destruct (filter_step fs acc h0) as [acc'|e] eqn:S; [|discriminate].
  simpl in E. destruct I as [<-|I].
  - unfold filter_step in S. destruct (has_fields h0 fs) as [b|]; [|discriminate].
    now exists b.
  - exact (IH _ _ E h I).
Qed.

Lemma in_values {K V : Type} (k : K) (v : V) (d : ODict.t K V) :
  In (k, v) d -> In v (ODict.values d).
Proof.
  intros I. unfold ODict.values. change v with (snd (k, v)). now apply in_map.
Qed.

(** X14.  On a registry keyed by name, filtering by the predicates [fs1]
    followed by [fs2] in one mapping succeeds exactly when filtering by
    [fs1] and then filtering the result by [fs2] succeeds, and the hosts
    selected are the same, in the same order. *)
Theorem filter_hosts_compose
        (reg sel : registry) (fs1 fs2 : list (string * string)) :
  keyed_by_name reg ->
  (Azure.filter_hosts reg (Some (fs1 ++ fs2)) = Ok sel <->
   exists sel1,
     Azure.filter_hosts reg (Some fs1) = Ok sel1 /\
     Azure.filter_hosts sel1 (Some fs2) = Ok sel).
Proof.
  intros WF. pose proof WF as [ND Hname]. split.
  - intros E. rewrite filter_hosts_some in E.
    pose proof (filter_loop_evaluated _ _ _ _ E) as Hev.
    apply (filter_loop_ok _ reg [] sel ND Hname) in E. simpl in E.
    exists (filter (selected fs1) reg). split.
    + rewrite filter_hosts_some.
      apply (filter_loop fs1 reg [] ND Hname).
      intros k h I. destruct (Hev h (in_values k h reg I)) as [b Hb].
      rewrite has_fields_app in Hb.
      destruct (has_fields h fs1) as [b1|]; [now exists b1 | discriminate].
    + pose proof (keyed_by_name_filter (selected fs1) reg WF) as [ND1 Hname1].
      rewrite filter_hosts_some.
      rewrite (filter_loop fs2 (filter (selected fs1) reg) [] ND1 Hname1).
      * simpl. now rewrite E, filter_selected_app.
      * intros k h I. apply filter_In in I as [I S].
        destruct (Hev h (in_values k h reg I)) as [b Hb].
        rewrite has_fields_app in Hb. unfold selected in S. simpl in S.
        destruct (has_fields h fs1) as [[]|]; try discriminate.
        now exists b.
  - intros (sel1 & E1 & E2). rewrite filter_hosts_some in E1.
    pose proof (filter_loop_evaluated _ _ _ _ E1) as Hev1.
    apply (filter_loop_ok _ reg [] sel1 ND Hname) in E1. simpl in E1. subst sel1.
    pose proof (keyed_by_name_filter (selected fs1) reg WF) as [ND1 Hname1].
    rewrite filter_hosts_some in E2.
    pose proof (filter_loop_evaluated _ _ _ _ E2) as Hev2.
    apply (filter_loop_ok _ _ [] sel ND1 Hname1) in E2. simpl in E2. subst sel.
    rewrite filter_hosts_some, <- filter_selected_app.
    apply (filter_loop (fs1 ++ fs2) reg [] ND Hname).
    intros k h I. rewrite has_fields_app.
    destruct (Hev1 h (in_values k h reg I)) as [b1 Hb1]. rewrite Hb1. simpl.
    destruct b1; [|now exists false].
    apply (Hev2 h). apply (in_values k). apply filter_In. split; [exact I|].
    unfold selected. simpl. now rewrite Hb1.
Qed.

(** X15.  On a registry keyed by name, what [filter_hosts] returns is a
    sub-list of the registry, in the registry's order, and filtering it again
    by the same predicates returns it unchanged. *)
Theorem filter_hosts_stable
        (reg sel : registry) (fields : option (list (string * string))) :
  keyed_by_name reg ->
  Azure.filter_hosts reg fields = Ok sel ->
  (exists p, sel = filter p reg) /\
  Azure.filter_hosts sel fields = Ok sel.
Proof.
  intros WF E. destruct fields as [fs|].
  - pose proof WF as [ND Hname]. rewrite filter_hosts_some in E.
    apply (filter_loop_ok _ reg [] sel ND Hname) in E. simpl in E. subst sel.
    split; [now exists (selected fs)|].
    pose proof (keyed_by_name_filter (selected fs) reg WF) as [ND1 Hname1].
    rewrite filter_hosts_some.
    rewrite (filter_loop fs (filter (selected fs) reg) [] ND1 Hname1).
    + simpl. f_equal. clear. induction reg as [|kh reg IH]; simpl; [reflexivity|].
      destruct (selected fs kh) eqn:S; simpl; [rewrite S|]; now rewrite ?IH.
    + intros k h I. apply filter_In in I as [_ S]. unfold selected in S. simpl in S.
      destruct (has_fields h fs) as [b|]; [now exists b | discriminate].
  - injection E as <-. split; [|reflexivity].
    exists (fun _ => true). clear. induction reg as [|kh reg IH]; simpl; congruence.
Qed.

End FilterComposition.

Section FilterCompositionWitness.
Local Open Scope list_scope.

Lemma sample_keyed : keyed_by_name Sample.two_hosts.
Proof.
  split.
  - repeat constructor; simpl; intuition discriminate.
  - intros k h [E|[E|[]]]; injection E as <- <-; reflexivity.
Qed.

(** X14 on the two sample hosts: status and system in one mapping. *)
Lemma filter_hosts_compose_witness :
  @Azure.filter_hosts fragment_re Sample.two_hosts
    (Some ([("status", "running")] ++ [("operating_system", "linux")]))
  = Ok [(Some "vm1", Sample.vm1)] <->
  exists sel1,
    @Azure.filter_hosts fragment_re Sample.two_hosts (Some [("status", "running")])
    = Ok sel1 /\
    @Azure.filter_hosts fragment_re sel1 (Some [("operating_system", "linux")])
    = Ok [(Some "vm1", Sample.vm1)].
Proof.
  exact (@filter_hosts_compose fragment_re Sample.two_hosts
           [(Some "vm1", Sample.vm1)]
           [("status", "running")] [("operating_system", "linux")] sample_keyed).
Defined.

(** X15 on the two sample hosts and the predicates of the main program. *)
Lemma filter_hosts_stable_witness :
  (exists p, [(Some "vm1", Sample.vm1)] = filter p Sample.two_hosts) /\
  @Azure.filter_hosts fragment_re [(Some "vm1", Sample.vm1)] (Some Main.FIELDS)
  = Ok [(Some "vm1", Sample.vm1)].
Proof.
  apply (@filter_hosts_stable fragment_re Sample.two_hosts
           [(Some "vm1", Sample.vm1)] (Some Main.FIELDS) sample_keyed).
  vm_compute. reflexivity.
Defined.

End FilterCompositionWitness.

Section InventoryFailures.
Context `{ReModule}.
Local Open Scope list_scope.

(** The loop that fills [ansible_dict] raises nothing but the
    [AttributeError] of a host without address or without name. *)
Lemma entry_loop_raises (hs : list Host) :
  forall (acc : inventory_doc) (e : exn),
    fold_result entry_step hs acc = Raise e ->
    e = AttributeError "public_ip_address" \/ e = AttributeError "name".
Proof.
  induction hs as [|h hs IH]; intros acc e E; simpl in E; [discriminate|].
  unfold entry_step at 1 in E. unfold Azure.entry_of, field in E.
  destruct (ODict.get "public_ip_address" (host_attrs h)); simpl in E;
    [|injection E as <-; now left].
  destruct (ODict.get "name" (host_attrs h)); simpl in E;
    [|injection E as <-; now right].
  exact (IH _ _ E).
Qed.

(** A [generate_yaml] that returns has opened the inventory, filtered the
    hosts and dumped one mapping. *)
Lemma generate_yaml_returns (iw : bool) (reg sel : registry)
      (fields : option (list (string * string))) (w w1 : world) :
  Azure.generate_yaml iw reg fields w = (w1, Ok sel) ->
  iw = true /\
  Azure.filter_hosts reg fields = Ok sel /\
  exists d, w1 = with_inventory (fun _ => Some [d]) w.
Proof.
  destruct w as [hs err ps inv rep].
  unfold Azure.generate_yaml, try_except_IOError, Azure.open_inventory, Azure.dump,
    bind, lift, ret, modify, raise.
  destruct iw; simpl; [|discriminate].
  destruct (Azure.filter_hosts reg fields) as [s|[]]; simpl; try discriminate.
  destruct (Azure.ansible_dict_of s) as [d|[]]; simpl; try discriminate.
  intros [= <- <-]. split; [reflexivity|]. split; [reflexivity|]. now exists d.
Qed.

(** X16.  When a host of the selection has no public address, which the
    default [fields=None] allows, [generate_yaml] raises [AttributeError]:
    the exception is not the one the method handles, so nothing is printed
    and the program does not exit by [sys.exit]; the inventory file has been
    created and is left empty. *)
Theorem generate_yaml_without_address
        (reg sel : registry) (fields : option (list (string * string)))
        (h : Host) (w : world) :
  Azure.filter_hosts reg fields = Ok sel ->
  In h (ODict.values sel) ->
  ODict.get "public_ip_address" (host_attrs h) = None ->
  exists a,
    (a = "public_ip_address" \/ a = "name") /\
    Azure.generate_yaml true reg fields w
    = (with_inventory (fun _ => Some []) w, Raise (AttributeError a)).
Proof.
  intros Hsel I G.
  assert (R : exists e, Azure.ansible_dict_of sel = Raise e).
  { unfold Azure.ansible_dict_of.
    change (exists e, fold_result entry_step (ODict.values sel) [] = Raise e).
    apply (fold_result_raises entry_step _ h I).
    intros acc. exists (AttributeError "public_ip_address").
    unfold entry_step, Azure.entry_of, field. now rewrite G. }
  destruct R as [e E].
  assert (A : e = AttributeError "public_ip_address" \/ e = AttributeError "name").
  { exact (entry_loop_raises (ODict.values sel) [] e E). }
  assert (X : forall a, e = AttributeError a ->
              Azure.generate_yaml true reg fields w
              = (with_inventory (fun _ => Some []) w, Raise (AttributeError a))).
  { intros a ->. destruct w as [hs err ps inv rep].
    unfold Azure.generate_yaml, try_except_IOError, Azure.open_inventory, Azure.dump,
      bind, lift, ret, modify. simpl. rewrite Hsel. simpl. rewrite E. reflexivity. }
  destruct A as [Ea|Ea].
  - exists "public_ip_address". split; [now left | now apply X].
  - exists "name". split; [now right | now apply X].
Qed.

End InventoryFailures.

(** X16 on the host without an address, no predicate given. *)
Lemma generate_yaml_without_address_witness :
  exists a,
    (a = "public_ip_address" \/ a = "name") /\
    @Azure.generate_yaml fragment_re true Sample.bare_hosts None world0
    = (with_inventory (fun _ => Some []) world0, Raise (AttributeError a)).
Proof.
  apply (@generate_yaml_without_address fragment_re Sample.bare_hosts
           Sample.bare_hosts None Sample.vm3 world0).
  - reflexivity.
  - simpl. now left.
  - reflexivity.
Defined.

Section FatalFiles.
Context `{ReModule}.
Import Main.
Local Open Scope list_scope.

(** X17.  When one of the three files cannot be opened, the hosts file, or
    then the playbook, or then the inventory, the program prints the one
    message of that file and ends by [sys.exit(1)]: the events of the run
    are not looked at, and neither the inventory nor the report is
    written. *)
Theorem main_fatal_io
        (az : option document) (pb : option playbook) (iw : bool)
        (events : list event) (rw : bool) (w : world) :
  (az = None ->
   main az pb iw events rw w
   = (with_stderr (fun l => l ++ ["Open Azure document failed"]) w,
      Raise (SystemExit 1))) /\
  (forall w0 h0,
     Azure.load_from_csv az w = (w0, Ok h0) ->
     pb = None ->
     main az pb iw events rw w
     = (with_stderr (fun l => l ++ ["Open playbook failed"]) w,
        Raise (SystemExit 1))) /\
  (forall w0 h0 w1 h1,
     Azure.load_from_csv az w = (w0, Ok h0) ->
     Azure.load_playbook pb h0 w0 = (w1, Ok h1) ->
     iw = false ->
     main az pb iw events rw w
     = (with_stderr (fun l => l ++ ["Open inventory failed"]) w,
        Raise (SystemExit 1))).
Proof.
  split; [|split].
  - intros ->. reflexivity.
  - intros w0 h0 E0 ->.
    destruct (load_from_csv_rows _ _ _ _ E0) as (-> & _).
    unfold main, select. rewrite !bind_run, E0. reflexivity.
  - intros w0 h0 w1 h1 E0 E1 ->.
    destruct (load_from_csv_rows _ _ _ _ E0) as (-> & _).
    destruct (load_playbook_returns _ _ _ _ _ E1) as (-> & _).
    unfold main, select. rewrite !bind_run, E0. rewrite bind_run, E1.
    reflexivity.
Qed.

End FatalFiles.

(** X17 on the sample files, the playbook missing. *)
Lemma main_fatal_io_witness :
  @Main.main fragment_re (Some Sample.running_doc) None true Sample.both_ok true world0
  = (with_stderr (fun l => (l ++ ["Open playbook failed"])%list) world0,
     Raise (SystemExit 1)).
Proof.
  refine (proj1 (proj2 (@main_fatal_io fragment_re (Some Sample.running_doc) None
                          true Sample.both_ok true world0))
                world0 _ _ eq_refl).
  vm_compute. reflexivity.
Defined.

Section ReportRuns.
Import Main.
Local Open Scope list_scope.

Lemma accumulate_nth (cells : list row) :
  forall (values : row) (i : nat),
    (i < List.length cells)%nat ->
    nth_error (accumulate values cells) i
    = Some (values ++ List.concat (firstn (S i) cells)).
Proof.
  induction cells as [|c cells IH]; intros values i Hi; simpl in Hi; [lia|].
  destruct i as [|i].
  - simpl. now rewrite app_nil_r.
  - change (nth_error (accumulate (values ++ c) cells) i
            = Some (values ++ c ++ List.concat (firstn (S i) cells))).
    rewrite IH by lia. now rewrite <- app_assoc.
Qed.

Lemma map_result_length {A B : Type} (f : A -> result B) (l : list A) :
  forall ys, map_result f l = Ok ys -> List.length ys = List.length l.
Proof.
  induction l as [|x l IH]; intros ys E; simpl in E.
  - now injection E as <-.
  - destruct (f x); [|discriminate]. simpl in E.
    destruct (map_result f l) as [ys'|]; [|discriminate]. simpl in E.
    injection E as <-. simpl. now rewrite (IH ys' eq_refl).
Qed.

(** The report stage on a registry that is not empty, when the cells of
    every host can be computed: the header, then the rows of the loop. *)
Lemma write_report_run (w : world) (k0 : value) (h0 : Host) (rest : registry)
      (cells : list row) :
  hosts w = (k0, h0) :: rest ->
  map_result (cells_of (ODict.keys (tasks h0))) (ODict.values (hosts w)) = Ok cells ->
  write_report true w
  = (with_report
       (fun _ => Some (map (fun k => Some (header_cell k))
                           (fieldlist ++ ODict.keys (tasks h0))
                       :: accumulate [] cells)) w,
     Ok tt).
Proof.
  intros Hh Hc. destruct w as [hs err ps inv rep]. simpl in Hh. subst hs.
  cbn [hosts] in Hc.
  unfold write_report. rewrite bind_run. unfold gets. cbn [hosts].
  rewrite bind_run. unfold open_report, modify.
  rewrite bind_run. unfold lift. simpl ODict.get.
  destruct (eq_dec k0 k0) as [_|N]; [|congruence].
  rewrite bind_run. unfold writerow at 1, modify.
  erewrite write_rows_accumulate; [|exact Hc | reflexivity].
  reflexivity.
Qed.

(** X18.  On a registry that is not empty, when the three attributes of
    every host and the result of every callback of the first host can be
    read, the report stage writes the header and then one row per host; the
    row of the host at position [i] holds the cells of the hosts at
    positions [0] to [i], one after the other, so that only the row of the
    first host holds the cells of that host alone. *)
Theorem write_report_rows (w : world) (k0 : value) (h0 : Host) (rest : registry)
        (cells : list row) :
  hosts w = (k0, h0) :: rest ->
  map_result (cells_of (ODict.keys (tasks h0))) (ODict.values (hosts w)) = Ok cells ->
  write_report true w
  = (with_report
       (fun _ => Some (map (fun k => Some (header_cell k))
                           (fieldlist ++ ODict.keys (tasks h0))
                       :: accumulate [] cells)) w,
     Ok tt) /\
  List.length (accumulate [] cells) = List.length (hosts w) /\
  (forall i, (i < List.length (hosts w))%nat ->
             nth_error (accumulate [] cells) i = Some (List.concat (firstn (S i) cells))).
Proof.
  intros Hh Hc.
  pose proof (map_result_length _ _ _ Hc) as L.
  unfold ODict.values in L. rewrite length_map in L.
  split; [exact (write_report_run w k0 h0 rest cells Hh Hc)|].
  split; [now rewrite accumulate_length|].
  intros i Hi. rewrite accumulate_nth by lia. reflexivity.
Qed.

(** X18 on the two sample machines before any event: the second row
    holds the cells of both. *)
Lemma write_report_rows_witness :
  nth_error
    (accumulate []
       [ [Some "vm1"; Some "RG-Production"; Some "10.0.0.4"; None];
         [Some "vm2"; Some "RG-Production"; Some "10.0.0.5"; None] ]) 1
  = Some (List.concat (firstn 2
       [ [Some "vm1"; Some "RG-Production"; Some "10.0.0.4"; None];
         [Some "vm2"; Some "RG-Production"; Some "10.0.0.5"; None] ])).
Proof.
  refine (proj2 (proj2
    (write_report_rows Sample2.ready_world (Some "vm1")
       (mkHost (host_attrs Sample.vm1) Sample2.ram_task)
       [(Some "vm2", mkHost (host_attrs Sample.vm2) Sample2.ram_task)]
       _ _ _)) 1%nat _).
  - vm_compute. reflexivity.
  - vm_compute. reflexivity.
  - vm_compute. lia.
Defined.

End ReportRuns.

Section ProgramRuns.
Context `{ReModule}.
Import Main ResultsCollector.
Local Open Scope list_scope.

(** What every callback preserves, the whole run preserves. *)
Lemma executor_run_invariant (P : world -> Prop) :
  (forall ev w, P w -> P (fst (handle ev w))) ->
  forall events w, P w -> P (fst (executor_run events w)).
Proof.
  intros Hstep events. induction events as [|ev events IH]; intros w Pw; [exact Pw|].
  change (executor_run (ev :: events) w)
    with (executor_run events (fst (handle ev w))).
  apply IH, Hstep, Pw.
Qed.

(** [__main__] from the run of the playbook on, for a given selection. *)
Lemma main_run (az : option document) (pb : option playbook) (iw : bool)
      (events : list event) (rw : bool) (w w1 : world) (sel : registry) :
  select az pb iw w = (w1, Ok sel) ->
  main az pb iw events rw w
  = write_report rw (fst (executor_run events (with_hosts (fun _ => sel) w1))).
Proof.
  intros Hsel. unfold main. rewrite bind_run, Hsel. rewrite bind_run.
  unfold modify at 1. rewrite bind_run.
  destruct (executor_run_preserves events (with_hosts (fun _ => sel) w1)) as (R & _).
  destruct (executor_run events (with_hosts (fun _ => sel) w1)) as [w3 r].
  simpl in R. subst r. reflexivity.
Qed.

(** X19.  When the selection is not empty and the report file cannot be
    opened, the program ends with the [IOError] of [open], which nothing
    around it handles: the exit status is 1, no message of the program's
    own is printed after the run, and no report is written. *)
Theorem report_unwritable
        (az : option document) (pb : option playbook) (iw : bool)
        (events : list event) (w w1 : world) (sel : registry) :
  select az pb iw w = (w1, Ok sel) ->
  sel <> [] ->
  snd (main az pb iw events false w) = Raise IOError /\
  exit_code (snd (main az pb iw events false w)) = 1%Z /\
  report_csv (fst (main az pb iw events false w)) = report_csv w /\
  stderr (fst (main az pb iw events false w))
  = stderr (fst (executor_run events (with_hosts (fun _ => sel) w1))).
Proof.
  intros Hsel Hne. rewrite (main_run az pb iw events false w w1 sel Hsel).
  destruct (executor_run_preserves events (with_hosts (fun _ => sel) w1))
    as (_ & K & _ & Rp).
  pose proof (select_files az pb iw w) as Rs. rewrite Hsel in Rs. simpl in Rs.
  destruct (executor_run events (with_hosts (fun _ => sel) w1)) as [w3 r].
  cbn [fst] in *. cbn [with_hosts hosts report_csv] in K, Rp.
  assert (E : write_report false w3 = (w3, Raise IOError)).
  { unfold write_report. rewrite bind_run. unfold gets.
    destruct (hosts w3) as [|[k0 h0] rest].
    - destruct sel; [now contradiction Hne | discriminate].
    - reflexivity. }
  rewrite E. simpl. repeat split. congruence.
Qed.

Lemma getattr_field (h : Host) (a s : string) :
  getattr h a = Ok (AValue (Some s)) -> field h a = Ok (Some s).
Proof.
  unfold getattr, field. destruct (String.eqb a "tasks"); [discriminate|].
  destruct (ODict.get a (host_attrs h)); [|discriminate]. now intros [= ->].
Qed.

(** A host the predicates of the main program select has a resource group
    and a public address. *)
Lemma selected_fields (h : Host) :
  has_fields h FIELDS = Ok true ->
  exists rg ip,
    field h "resource_group" = Ok (Some rg) /\
    field h "public_ip_address" = Ok (Some ip).
Proof.
  intros E. apply has_fields_true_iff in E. unfold FIELDS in E.
  inversion E as [|? ? S1 E1]; subst.
  inversion E1 as [|? ? S2 E2]; subst.
  inversion E2 as [|? ? S3 E3]; subst.
  inversion E3 as [|? ? S4 E4]; subst.
  destruct S1 as (rg & G1 & _). destruct S4 as (ip & G4 & _).
  exists rg, ip. split; apply getattr_field; [exact G1 | exact G4].
Qed.

(** What the three steps before the run leave when they return: a registry
    keyed by name whose hosts share one task dictionary, and its selection. *)
Lemma select_returns (az : option document) (pb : option playbook) (iw : bool)
      (w w1 : world) (sel : registry) :
  select az pb iw w = (w1, Ok sel) ->
  exists h1 td,
    keyed_by_name h1 /\
    (forall k h, In (k, h) h1 -> tasks h = td) /\
    Azure.filter_hosts h1 (Some FIELDS) = Ok sel.
Proof.
  unfold select. rewrite bind_run.
  destruct (Azure.load_from_csv az w) as [w0 [h0|e]] eqn:E0; [|discriminate].
  destruct (load_from_csv_rows _ _ _ _ E0) as (-> & rows & Er).
  destruct (hosts_of_rows_keyed rows h0 Er) as (WF0 & Hempty).
  rewrite bind_run.
  destruct (Azure.load_playbook pb h0 w) as [w0 [h1|e]] eqn:E1; [|discriminate].
  destruct (load_playbook_returns _ _ _ _ _ E1) as (-> & p & -> & A).
  intros E2. destruct (generate_yaml_returns _ _ _ _ _ _ E2) as (_ & Hf & _).
  assert (X : exists td,
            h1 = map (fun kh => (fst kh, mkHost (host_attrs (snd kh)) td)) h0).
  { destruct (attach_all_folded p h0 h1 Hempty A)
      as [[-> ->]|(ts & td & _ & _ & ->)]; [now exists [] | now exists td]. }
  destruct X as [td ->]. eexists. exists td. split; [|split; [|exact Hf]].
  - now apply keyed_by_name_attached.
  - intros k h I. apply in_map_iff in I as (kh & [= <- <-] & _). reflexivity.
Qed.

Lemma shape_hosts (r1 : registry) :
  forall r2 : registry,
    shape r1 = shape r2 ->
    Forall2 (fun kh' kh =>
               fst kh' = fst kh /\
               host_attrs (snd kh') = host_attrs (snd kh) /\
               ODict.keys (tasks (snd kh')) = ODict.keys (tasks (snd kh)))
            r1 r2.
Proof.
  induction r1 as [|kh1 r1 IH]; intros [|kh2 r2] E; try discriminate;
    constructor.
  - simpl in E. injection E as E1 E2 E3 E4. repeat split; try assumption.
    apply (f_equal (map fst)) in E3. rewrite !map_map in E3. exact E3.
  - apply IH. simpl in E. now injection E.
Qed.

Lemma Forall2_In_l {A B : Type} (R : A -> B -> Prop) (l1 : list A) (l2 : list B) :
  Forall2 R l1 l2 -> forall x, In x l1 -> exists y, In y l2 /\ R x y.
Proof.
  induction 1 as [|a b l1 l2 Rab F IH]; intros x I; [destruct I|].
  destruct I as [<-|I].
  - exists b. split; [now left | assumption].
  - destruct (IH x I) as (y & Iy & Ry). exists y. split; [now right | assumption].
Qed.

Lemma in_keys_get {K V : Type} `{EqDec K} (k : K) (d : ODict.t K V) :
  In k (ODict.keys d) -> exists v, ODict.get k d = Some v.
Proof.
  induction d as [|[k' v'] d IH]; simpl; [contradiction|].
  intros I. destruct (eq_dec k k') as [_|N]; [now exists v'|].
  destruct I as [E|I]; [congruence | now apply IH].
Qed.

Lemma map_result_total {A B : Type} (f : A -> result B) (P : B -> Prop) (l : list A) :
  (forall x, In x l -> exists y, f x = Ok y /\ P y) ->
  exists ys, map_result f l = Ok ys /\ Forall P ys.
Proof.
  induction l as [|x l IH]; intros Hall.
  - exists []. split; [reflexivity | constructor].
  - destruct (Hall x (or_introl eq_refl)) as (y & Ey & Py).
    destruct IH as (ys & Eys & Pys); [intros x' I; apply Hall; now right|].
    exists (y :: ys). simpl. rewrite Ey, Eys. split; [reflexivity | now constructor].
Qed.

(** The cells of a host that has the three attributes, for the callbacks
    its own task dictionary lists. *)
Lemma cells_total (cbs : list string) (h : Host) (k rg ip : value) :
  field h "name" = Ok k ->
  field h "resource_group" = Ok rg ->
  field h "public_ip_address" = Ok ip ->
  ODict.keys (tasks h) = cbs ->
  exists c, cells_of cbs h = Ok c /\
            List.length c = List.length (fieldlist ++ cbs).
Proof.
  intros Fn Fg Fi Hk.
  destruct (map_result_total (callback_cell h) (fun _ => True) cbs) as (b & Eb & _).
  { intros cb I. unfold callback_cell. subst cbs.
    destruct (in_keys_get cb (tasks h) I) as [t ->]. eauto. }
  unfold cells_of, fieldlist. simpl map_result. rewrite Fn, Fg, Fi. simpl.
  rewrite Eb. simpl. eexists. split; [reflexivity|].
  simpl. now rewrite (map_result_length _ _ _ Eb).
Qed.

(** X20.  When the three steps before the run return a selection that is
    not empty and the report file can be opened, the program ends normally,
    whatever events the run delivers: the report holds the header and one
    row per selected host, built from as many cells per host as the header
    has columns.  (The engine is taken to absorb what a callback raises.) *)
Theorem main_writes_report
        (az : option document) (pb : option playbook) (iw : bool)
        (events : list event) (w w1 : world) (sel : registry) :
  select az pb iw w = (w1, Ok sel) ->
  sel <> [] ->
  exists header cells,
    snd (main az pb iw events true w) = Ok tt /\
    report_csv (fst (main az pb iw events true w))
    = Some (header :: accumulate [] cells) /\
    List.length cells = List.length sel /\
    Forall (fun c => List.length c = List.length header) cells.
Proof.
  intros Hsel Hne. rewrite (main_run az pb iw events true w w1 sel Hsel).
  destruct (select_returns az pb iw w w1 sel Hsel) as (h1 & td & WF1 & Htd & Hf).
  destruct (filter_hosts_keyed h1 sel (Some FIELDS) WF1 Hf) as [[_ Hname] Hsub].
  assert (Hfields : forall k h, In (k, h) sel -> has_fields h FIELDS = Ok true).
  { pose proof WF1 as [ND1 Hname1]. pose proof Hf as Hf'.
    rewrite filter_hosts_some in Hf'.
    apply (filter_loop_ok _ h1 [] sel ND1 Hname1) in Hf'. simpl in Hf'.
    intros k h I. rewrite Hf' in I. apply filter_In in I as [_ S].
    unfold selected in S. cbn [snd] in S.
    destruct (has_fields h FIELDS) as [[]|]; [reflexivity | discriminate..]. }
  pose proof (executor_run_invariant
                (fun w' => shape (hosts w') = shape sel)
                (fun ev w' P => eq_trans (proj1 (handle_shape ev w')) P)
                events (with_hosts (fun _ => sel) w1) eq_refl) as S3.
  cbv beta in S3.
  destruct (executor_run events (with_hosts (fun _ => sel) w1)) as [w3 r].
  cbn [fst] in *. apply shape_hosts in S3.
  assert (Hh : exists k0 h0 rest, hosts w3 = (k0, h0) :: rest /\
                                  ODict.keys (tasks h0) = ODict.keys td).
  { destruct S3 as [|[k0 h0] [k0' h0'] l1 l2 (_ & _ & K) F];
      [now contradiction Hne|].
    exists k0, h0, l1. split; [reflexivity|]. simpl in K. rewrite K.
    now rewrite (Htd k0' h0' (Hsub _ (or_introl eq_refl))). }
  destruct Hh as (k0 & h0 & rest & Hh & Hk0).
  destruct (map_result_total (cells_of (ODict.keys (tasks h0)))
              (fun c => List.length c
                        = List.length (fieldlist ++ ODict.keys (tasks h0)))
              (ODict.values (hosts w3))) as (cells & Hc & Hlen).
  { intros h' I. unfold ODict.values in I.
    apply in_map_iff in I as ([k' h''] & E & I). simpl in E. subst h''.
    destruct (Forall2_In_l _ _ _ S3 _ I) as ([k h] & Is & _ & Ha & Hk).
    simpl in Ha, Hk.
    destruct (selected_fields h (Hfields k h Is)) as (rg & ip & Fg & Fi).
    apply (cells_total _ h' k (Some rg) (Some ip)).
    - unfold field. rewrite Ha. exact (Hname k h Is).
    - unfold field. rewrite Ha. exact Fg.
    - unfold field. rewrite Ha. exact Fi.
    - rewrite Hk, Hk0. now rewrite (Htd k h (Hsub _ Is)). }
  rewrite (write_report_run w3 k0 h0 rest cells Hh Hc).
  exists (map (fun k => Some (header_cell k)) (fieldlist ++ ODict.keys (tasks h0))),
    cells.
  split; [reflexivity|]. split; [destruct w3; reflexivity|]. split.
  - rewrite (map_result_length _ _ _ Hc). unfold ODict.values. rewrite length_map.
    exact (Forall2_length S3).
  - rewrite length_map. exact Hlen.
Qed.

End ProgramRuns.

(** X19 on the sample files, the report not writable. *)
Lemma report_unwritable_witness :
  snd (@Main.main fragment_re (Some Sample.running_doc) (Some Sample.pb) true
         Sample.both_ok false world0) = Raise IOError /\
  Main.exit_code
    (snd (@Main.main fragment_re (Some Sample.running_doc) (Some Sample.pb) true
            Sample.both_ok false world0)) = 1%Z /\
  report_csv
    (fst (@Main.main fragment_re (Some Sample.running_doc) (Some Sample.pb) true
            Sample.both_ok false world0)) = None.
Proof.
  refine (let X := @report_unwritable fragment_re (Some Sample.running_doc)
                     (Some Sample.pb) true Sample.both_ok world0 _
                     Sample2.running_hosts _ _ in
          conj (proj1 X) (conj (proj1 (proj2 X)) (proj1 (proj2 (proj2 X))))).
  - vm_compute. reflexivity.
  - discriminate.
Defined.

(** X20 on the sample files: a header and two rows. *)
Lemma main_writes_report_witness :
  exists header cells,
    snd (@Main.main fragment_re (Some Sample.running_doc) (Some Sample.pb) true
           Sample.both_ok true world0) = Ok tt /\
    report_csv
      (fst (@Main.main fragment_re (Some Sample.running_doc) (Some Sample.pb) true
              Sample.both_ok true world0))
    = Some (header :: accumulate [] cells) /\
    List.length cells = 2%nat /\
    Forall (fun c => List.length c = List.length header) cells.
Proof.
  refine (@main_writes_report fragment_re (Some Sample.running_doc)
            (Some Sample.pb) true Sample.both_ok world0 _
            Sample2.running_hosts _ _).
  - vm_compute. reflexivity.
  - discriminate.
Defined.

Section ShortRecords.
Context `{ReModule}.
Local Open Scope list_scope.

Lemma fill_other (l : list string) :
  forall (d : ODict.t string (option string)) (f : string),
    ~ In f l ->
    ODict.get f (fold_left (fun d' k => ODict.set k None d') l d) = ODict.get f d.
Proof.
  induction l as [|a l IH]; intros d f N; simpl; [reflexivity|].
  rewrite IH; [|intros I; apply N; now right].
  apply get_set_other. intros ->. apply N. now left.
Qed.

Lemma fill_none (l : list string) :
  forall (d : ODict.t string (option string)) (f : string),
    In f l ->
    ODict.get f (fold_left (fun d' k => ODict.set k None d') l d) = Some None.
Proof.
  induction l as [|a l IH]; intros d f I; simpl; [destruct I|].
  destruct (in_dec string_dec f l) as [I'|N]; [now apply IH|].
  destruct I as [->|I]; [|contradiction].
  rewrite (fill_other l _ f N). apply get_set_same.
Qed.

(** The columns a record is too short for are filled with [None]. *)
Lemma dict_of_short (fl : list string) :
  forall (rec : list string) (d : ODict.t string (option string)) (f : string),
    In f (skipn (List.length rec) fl) ->
    ODict.get f (row_fields (Azure.dict_of fl rec d)) = Some None.
Proof.
  induction fl as [|a fl IH]; intros rec d f I.
  - rewrite skipn_nil in I. destruct I.
  - destruct rec as [|x rec].
    + cbn [Azure.dict_of row_fields]. now apply fill_none.
    + cbn [Azure.dict_of]. apply IH. exact I.
Qed.

(** X21.  A record with fewer cells than the header has columns gives a
    host whose missing attributes are [None]; a predicate on such an
    attribute makes [has_fields] raise [AttributeError] when it comes first,
    since [None] has no [lower], and [filter_hosts] raises on every registry
    that holds the host. *)
Theorem short_record_raises
        (fl rec : list string) (f : string) (h : Host)
        (k v : string) (post : list (string * string)) :
  In f (skipn (List.length rec) fl) ->
  Azure.new_host (Azure.dict_of fl rec []) = Ok h ->
  Str.lower k = f ->
  ODict.get f (host_attrs h) = Some None /\
  has_fields h ((k, v) :: post) = Raise (AttributeError "lower") /\
  (forall reg, In h (ODict.values reg) ->
               exists e, Azure.filter_hosts reg (Some ((k, v) :: post)) = Raise e).
Proof.
  intros I Hh Hk.
  pose proof (dict_of_short fl rec [] f I) as G.
  unfold Azure.new_host in Hh.
  destruct (row_rest (Azure.dict_of fl rec [])); [discriminate|].
  unfold ODict.mem in Hh.
  destruct (ODict.get "tasks" (row_fields (Azure.dict_of fl rec []))) eqn:T;
    [discriminate|].
  injection Hh as <-. cbn [host_attrs].
  assert (R : has_fields
                (mkHost (row_fields (Azure.dict_of fl rec [])) [])
                ((k, v) :: post)
              = Raise (AttributeError "lower")).
  { rewrite has_fields_cons, Hk. unfold getattr. cbn [host_attrs].
    destruct (String.eqb f "tasks") eqn:E.
    - apply String.eqb_eq in E. subst f. congruence.
    - rewrite G. reflexivity. }
  split; [exact G|]. split; [exact R|].
  intros reg Ir. exact (filter_hosts_raises reg _ _ _ Ir R).
Qed.

End ShortRecords.

(** X21 on a record that has a name only, under a header of two columns. *)
Lemma short_record_raises_witness :
  ODict.get "resource_group"
    (host_attrs (mkHost [("name", Some "vm9"); ("resource_group", None)] []))
  = Some None /\
  @has_fields fragment_re
    (mkHost [("name", Some "vm9"); ("resource_group", None)] [])
    [("Resource_Group", "rg-production")]
  = Raise (AttributeError "lower").
Proof.
  refine (let X := @short_record_raises fragment_re
                     ["name"; "resource_group"] ["vm9"] "resource_group"
                     (mkHost [("name", Some "vm9"); ("resource_group", None)] [])
                     "Resource_Group" "rg-production" [] _ _ _ in
          conj (proj1 X) (proj1 (proj2 X))).
  - simpl. now left.
  - reflexivity.
  - reflexivity.
Defined.

Section ColumnNames.
Local Open Scope string_scope.

Lemma all_app (p : ascii -> bool) (a b : string) :
  Str.all p (a ++ b) = Str.all p a && Str.all p b.
Proof.
  induction a as [|c a IH]; simpl; [reflexivity|].
  now rewrite IH, andb_assoc.
Qed.

(** The pieces of a split hold characters of the string only. *)
Lemma split_go_all (p : ascii -> bool) (sep : string) (s : string) :
  forall (skip : nat) (cur : string),
    Str.all p cur = true -> Str.all p s = true ->
    Forall (fun f => Str.all p f = true) (Str.split_go sep skip cur s).
Proof.
  induction s as [|c s IH]; intros skip cur Hc Hs; simpl.
  - now constructor.
  - simpl in Hs. apply andb_prop in Hs as [Pc Ps].
    destruct skip as [|n]; [|now apply IH].
    match goal with |- context [if ?b then _ else _] => destruct b end.
    + constructor; [assumption | now apply IH].
    + apply IH; [|assumption]. rewrite all_app, Hc. simpl. now rewrite Pc.
Qed.

Lemma normal_char (c : ascii) :
  attribute_char (if Ascii.eqb (Str.lower_char c) " " then "_"%char
                  else Str.lower_char c) = true.
Proof. destruct c as [[] [] [] [] [] [] [] []]; reflexivity. Qed.

Lemma normal_all (s : string) :
  Str.all attribute_char (Str.replace_char " " "_" (Str.lower s)) = true.
Proof.
  induction s as [|c s IH]; simpl; [reflexivity|].
  now rewrite normal_char, IH.
Qed.

(** X22.  The field names [load_from_csv] derives from the second line of
    the file, which become the attribute names of every host, hold no space
    and none of the letters [A] to [Z], whatever the line and the
    delimiter. *)
Theorem fieldlist_of_normal (delimiter l2 : string) (fl : list string) :
  Azure.fieldlist_of delimiter l2 = Ok fl ->
  Forall (fun f => Str.all attribute_char f = true) fl.
Proof.
  unfold Azure.fieldlist_of. destruct delimiter as [|c d]; [discriminate|].
  intros [= <-]. unfold Str.split. apply split_go_all; [reflexivity|].
  apply normal_all.
Qed.

(** X22 on the header of the sample file. *)
Lemma fieldlist_of_normal_witness :
  Forall (fun f => Str.all attribute_char f = true)
    ["name"; "resource_group"; "status"; "operating_system"; "public_ip_address"].
Proof.
  apply (fieldlist_of_normal "," (line2 Sample.running_doc)).
  vm_compute. reflexivity.
Defined.

Lemma replace_char_app (a b : ascii) (s t : string) :
  Str.replace_char a b (s ++ t) = Str.replace_char a b s ++ Str.replace_char a b t.
Proof. induction s as [|c s IH]; simpl; [reflexivity | now rewrite IH]. Qed.

Lemma heading_char_back (c : ascii) :
  heading_char c = true ->
  Str.replace_char "_" " "
    (Str.upper_char (if Ascii.eqb (Str.lower_char c) " " then "_"%char
                     else Str.lower_char c))
  = String c EmptyString.
Proof.
  destruct c as [[] [] [] [] [] [] [] []]; intros E;
    first [discriminate E | reflexivity].
Qed.

(** X23.  For a column heading written with the letters [A] to [Z], digits
    and spaces, the heading the report writes for the attribute name that
    [load_from_csv] derives from it is the heading itself. *)
Theorem header_round_trip (s : string) :
  Str.all heading_char s = true ->
  Main.header_cell (Str.replace_char " " "_" (Str.lower s)) = s.
Proof.
  unfold Main.header_cell. induction s as [|c s IH]; intros A; [reflexivity|].
  simpl in A. apply andb_prop in A as [Ac As]. cbn [Str.lower Str.replace_char Str.upper].
  rewrite replace_char_app, (heading_char_back c Ac), (IH As). reflexivity.
Qed.

(** X23 on one heading of the sample file. *)
Lemma header_round_trip_witness :
  Main.header_cell (Str.replace_char " " "_" (Str.lower "PUBLIC IP ADDRESS"))
  = "PUBLIC IP ADDRESS".
Proof.
  apply (header_round_trip "PUBLIC IP ADDRESS"). reflexivity.
Defined.

End ColumnNames.
